(** * Joseon RPG: combat core and progression model

    A shallow embedding of the combat/progression core of [joseon_rpg.py]
    (classes [Item], [Skill], [Character], [Enemy] and [Combat]) together
    with the properties stated about it.
    Further parts follow the same conventions: [NPC], [Location], the
    dicts of [to_dict]/[from_dict], and the menus, the shop and the combat
    loop of [Game].

    Modelling conventions.
    - Python [int] is [Z].  Items are Python objects shared by reference
      between the inventory and the equipment slots, so they live in a
      store [gmap loc Item.t] and the character holds locations.
      A Python reference always points at an object; here a location
      outside the store reads as the default item ([!!!]) and an update
      of it ([alter]) does nothing.
    - Every call of [random.randint]/[random.choice] becomes an explicit
      argument (the value drawn), in the order the source draws them;
      [random.choice] takes the index drawn, which is below the length
      of the sequence.
    - The returned texts are the source's strings; interpolated integers
      are printed with [pretty].
    - Floating point: the source multiplies integers by the literals
      1.2, 1.5, 0.5, 1.3, 0.8 and truncates with [int(...)], and compares
      an integer with [max_health * 0.3].  For integers of magnitude below
      2^45 the binary64 product, once truncated (or compared with an
      integer), agrees with the exact rational one, which is what
      [trunc_mul] and [le_frac] compute. *)

From Stdlib Require Import ZArith QArith Lia.
From stdpp Require Import base decidable countable gmap strings list pretty.

Local Open Scope string_scope.
Local Open Scope Z_scope.

(** ** Numeric helpers *)

(** [int(x * (num/den))]: truncation toward zero of the exact product. *)
Definition trunc_mul (x num den : Z) : Z := Z.quot (x * num) den.

(** [x <= m * (num/den)] for a positive denominator. *)
Definition le_frac (x m num den : Z) : bool := (x * den <=? m * num).

(** [int(q)] for a rational [q]: truncation toward zero. *)
Definition Qtrunc (q : Q) : Z := Z.quot (Qnum q) (Zpos (Qden q)).

(** ** Enumerations *)

Inductive Origin := FALLEN_NOBLE | BANDIT_OUTCAST | WAR_ORPHAN.

Inductive Faction :=
  PALACE | CULT | SHADOW_GUILD | PEOPLE_ALLIANCE | FOREIGNER_UNION | NEUTRAL.

Inductive JobPath :=
  WANDERER | WARRIOR_APPRENTICE | WARRIOR | BLADE_MASTER | SWORD_DEMON.

Inductive ItemType := WEAPON | ARMOR | SPECIAL | STORY.

#[global] Instance Origin_eq_dec : EqDecision Origin.
Proof. solve_decision. Defined.

#[global] Instance Faction_eq_dec : EqDecision Faction.
Proof. solve_decision. Defined.

#[global] Instance JobPath_eq_dec : EqDecision JobPath.
Proof. solve_decision. Defined.

#[global] Instance ItemType_eq_dec : EqDecision ItemType.
Proof. solve_decision. Defined.

Definition Faction_to_nat (f : Faction) : nat :=
  match f with
  | PALACE => 0 | CULT => 1 | SHADOW_GUILD => 2
  | PEOPLE_ALLIANCE => 3 | FOREIGNER_UNION => 4 | NEUTRAL => 5
  end%nat.

Definition Faction_of_nat (n : nat) : option Faction :=
  match n with
  | 0 => Some PALACE | 1 => Some CULT | 2 => Some SHADOW_GUILD
  | 3 => Some PEOPLE_ALLIANCE | 4 => Some FOREIGNER_UNION | 5 => Some NEUTRAL
  | _ => None
  end%nat.

#[global] Instance Faction_countable : Countable Faction.
Proof.
  apply (inj_countable Faction_to_nat Faction_of_nat).
  intros []; reflexivity.
Defined.

(** [list(JobPath)]: the members in definition order. *)
Definition JobPath_members : list JobPath :=
  [WANDERER; WARRIOR_APPRENTICE; WARRIOR; BLADE_MASTER; SWORD_DEMON].

(** [seq.index(x)] for an element known to occur in [seq]. *)
Fixpoint list_index `{EqDecision A} (x : A) (l : list A) : Z :=
  match l with
  | [] => 0
  | y :: l' => if decide (x = y) then 0 else 1 + list_index x l'
  end.

(** Locations of item objects. *)
Definition loc := nat.

(** [member.value], and [Enum(value)], which raises [ValueError] (here
    [None]) when no member has the value. *)

Definition Origin_members : list Origin :=
  [FALLEN_NOBLE; BANDIT_OUTCAST; WAR_ORPHAN].

Definition Faction_members : list Faction :=
  [PALACE; CULT; SHADOW_GUILD; PEOPLE_ALLIANCE; FOREIGNER_UNION; NEUTRAL].

Definition ItemType_members : list ItemType := [WEAPON; ARMOR; SPECIAL; STORY].

Definition Origin_value (o : Origin) : string :=
  match o with
  | FALLEN_NOBLE => "몰락한 양반"
  | BANDIT_OUTCAST => "도적단 낙오자"
  | WAR_ORPHAN => "전쟁 고아"
  end.

Definition Faction_value (f : Faction) : string :=
  match f with
  | PALACE => "궁"
  | CULT => "밀교파"
  | SHADOW_GUILD => "암시회"
  | PEOPLE_ALLIANCE => "백성연맹"
  | FOREIGNER_UNION => "이방인연합"
  | NEUTRAL => "중립"
  end.

Definition JobPath_value (j : JobPath) : string :=
  match j with
  | WANDERER => "방랑자"
  | WARRIOR_APPRENTICE => "무사 도제"
  | WARRIOR => "정식 무사"
  | BLADE_MASTER => "무형검사"
  | SWORD_DEMON => "검극귀"
  end.

Definition ItemType_value (t : ItemType) : string :=
  match t with
  | WEAPON => "무기"
  | ARMOR => "의복"
  | SPECIAL => "특수 아이템"
  | STORY => "서사 아이템"
  end.

Definition enum_of_value {A} (value : A -> string) (members : list A)
    (s : string) : option A :=
  snd <$> list_find (fun m => value m = s) members.

(** ** Saved data

    The values [to_dict] builds and [json] writes and reads back: [None],
    booleans, integers, floats (as rationals), strings, lists and dicts
    with string keys.  [data[key]] on a missing key raises [KeyError]; the
    readers below give [None] for it.  The source stores what it reads
    without looking at its type; here a field has the type the rest of
    the program uses it at, and a value of another type reads as [None]
    too. *)

#[warnings="-register-all"]
Inductive PyVal :=
  | PNone
  | PBool (b : bool)
  | PInt (z : Z)
  | PFloat (q : Q)
  | PStr (s : string)
  | PList (l : list PyVal)
  | PDict (d : gmap string PyVal).

Definition dict := gmap string PyVal.

Definition as_bool (v : PyVal) : option bool :=
  match v with PBool b => Some b | _ => None end.

Definition as_int (v : PyVal) : option Z :=
  match v with PInt z => Some z | _ => None end.

Definition as_float (v : PyVal) : option Q :=
  match v with PFloat q => Some q | _ => None end.

Definition as_str (v : PyVal) : option string :=
  match v with PStr s => Some s | _ => None end.

Definition as_list (v : PyVal) : option (list PyVal) :=
  match v with PList l => Some l | _ => None end.

Definition as_dict (v : PyVal) : option dict :=
  match v with PDict d => Some d | _ => None end.

(** [data[key]], read at a type. *)
Definition get {A} (data : dict) (key : string) (as_type : PyVal -> option A)
    : option A :=
  data !! key ≫= as_type.

(** [data.get(key, default)], read at a type. *)
Definition get_default {A} (data : dict) (key : string)
    (as_type : PyVal -> option A) (default : A) : option A :=
  match data !! key with
  | Some v => as_type v
  | None => Some default
  end.

(** The truth value of [v] in [if v:]. *)
Definition truthy (v : PyVal) : bool :=
  match v with
  | PNone => false
  | PBool b => b
  | PInt z => negb (z =? 0)
  | PFloat q => negb (Qeq_bool q 0)
  | PStr s => negb (bool_decide (s = ""))
  | PList l => negb (bool_decide (l = []))
  | PDict d => negb (bool_decide (size d = 0%nat))
  end.

(** ** Item *)

Module Item.

Record t := mk {
  name : string;
  item_type : ItemType;
  description : string;
  power : Z;
  defense : Z;
  special_effect : string;
  enhancement_level : Z;
  durability : Z
}.

(** [Item.__init__] *)
Definition init (name : string) (item_type : ItemType) (description : string)
    (power defense : Z) (special_effect : string) : t :=
  mk name item_type description power defense special_effect 0 100.

Definition set_durability (self : t) (v : Z) : t :=
  mk (name self) (item_type self) (description self) (power self)
     (defense self) (special_effect self) (enhancement_level self) v.

(** [Item.enhance]: [roll] is the first [random.randint(1, 100)], [roll2]
    the second one, drawn only in the last branch. *)
Definition enhance (self : t) (roll roll2 : Z) : t * (bool * string) :=
  let success_rate := 80 - enhancement_level self * 15 in
  if roll <=? success_rate then
    (mk (name self) (item_type self) (description self)
        (trunc_mul (power self) 6 5) (trunc_mul (defense self) 6 5)
        (special_effect self) (enhancement_level self + 1) (durability self),
     (true, "normal"))
  else if roll <=? success_rate + 10 then
    (self, (false, "normal"))
  else if roll <=? success_rate + 20 then
    (set_durability self (durability self - 30), (false, "damaged"))
  else if roll2 <=? 50 then
    (set_durability self 0, (false, "destroyed"))
  else
    (mk ("저주받은 " ++ name self) (item_type self) (description self)
        (trunc_mul (power self) 3 2) (trunc_mul (defense self) 1 2)
        "착용자의 정신력을 갉아먹는다"
        (enhancement_level self) (durability self),
     (false, "cursed")).

(** [Item.to_dict] *)
Definition to_dict (self : t) : dict :=
  list_to_map [
    ("name", PStr (name self));
    ("item_type", PStr (ItemType_value (item_type self)));
    ("description", PStr (description self));
    ("power", PInt (power self));
    ("defense", PInt (defense self));
    ("special_effect", PStr (special_effect self));
    ("enhancement_level", PInt (enhancement_level self));
    ("durability", PInt (durability self))
  ].

(** [Item.from_dict] *)
Definition from_dict (data : dict) : option t :=
  name' ← get data "name" as_str;
  item_type' ← get data "item_type" as_str
               ≫= enum_of_value ItemType_value ItemType_members;
  description' ← get data "description" as_str;
  power' ← get data "power" as_int;
  defense' ← get data "defense" as_int;
  special_effect' ← get data "special_effect" as_str;
  let item :=
    init name' item_type' description' power' defense' special_effect' in
  enhancement_level' ← get data "enhancement_level" as_int;
  durability' ← get data "durability" as_int;
  Some (mk (name item) (item_type item) (description item) (power item)
           (defense item) (special_effect item)
           enhancement_level' durability').

End Item.

#[global] Instance Item_inhabited : Inhabited Item.t :=
  populate (Item.init "" STORY "" 0 0 "").

(** A newly created item object: it gets a location the store does not
    use yet. *)
Definition new_item (h : gmap loc Item.t) (item : Item.t)
    : loc * gmap loc Item.t :=
  let l := fresh (dom h) in (l, <[l := item]> h).

(** [Item.from_dict(v)] as a new object. *)
Definition load_item (v : PyVal) (h : gmap loc Item.t)
    : option (loc * gmap loc Item.t) :=
  item ← as_dict v ≫= Item.from_dict;
  Some (new_item h item).

(** [[Item.from_dict(item) for item in vs]] *)
Fixpoint load_items (vs : list PyVal) (h : gmap loc Item.t)
    : option (list loc * gmap loc Item.t) :=
  match vs with
  | [] => Some ([], h)
  | v :: vs =>
      '(l, h) ← load_item v h;
      '(ls, h) ← load_items vs h;
      Some (l :: ls, h)
  end.

(** [if v: slot = Item.from_dict(v)], for a slot that is [None] before. *)
Definition load_slot (v : PyVal) (h : gmap loc Item.t)
    : option (option loc * gmap loc Item.t) :=
  if truthy v then
    '(l, h) ← load_item v h;
    Some (Some l, h)
  else Some (None, h).

(** ** Skill *)

Module Skill.

Record t := mk {
  name : string;
  damage_multiplier : Q;
  stamina_cost : Z;
  focus_cost : Z;
  description : string
}.

(** [Skill.to_dict] *)
Definition to_dict (self : t) : dict :=
  list_to_map [
    ("name", PStr (name self));
    ("damage_multiplier", PFloat (damage_multiplier self));
    ("stamina_cost", PInt (stamina_cost self));
    ("focus_cost", PInt (focus_cost self));
    ("description", PStr (description self))
  ].

(** [Skill.from_dict]: the call of [cls] with [data] unpacked as keyword
    arguments raises [TypeError] unless the keys of [data] are exactly
    the five parameters of [__init__]. *)
Definition from_dict (data : dict) : option t :=
  if decide (size data = 5%nat) then
    name' ← get data "name" as_str;
    damage_multiplier' ← get data "damage_multiplier" as_float;
    stamina_cost' ← get data "stamina_cost" as_int;
    focus_cost' ← get data "focus_cost" as_int;
    description' ← get data "description" as_str;
    Some (mk name' damage_multiplier' stamina_cost' focus_cost' description')
  else None.

End Skill.

(** ** NPC *)

Module NPC.

(** An entry of [memories]: the dict [{"action": ..., "timestamp": ...}]. *)
Record memory := mk_memory {
  action : string;
  timestamp : string
}.

Record t := mk {
  name : string;
  faction : Faction;
  trust : Z;
  memories : list memory;
  is_hostile : bool
}.

(** [NPC.__init__] *)
Definition init (name : string) (faction : Faction) (initial_trust : Z) : t :=
  mk name faction initial_trust [] false.

(** [NPC.remember_action]; [now] is [datetime.now().isoformat()]. *)
Definition remember_action (self : t) (action now : string) : t :=
  mk (name self) (faction self) (trust self)
     (memories self ++ [mk_memory action now]) (is_hostile self).

(** [NPC.adjust_trust] *)
Definition adjust_trust (self : t) (amount : Z) : t :=
  let trust' := Z.max 0 (Z.min 100 (trust self + amount)) in
  mk (name self) (faction self) trust' (memories self)
     (if trust' <? 20 then true else is_hostile self).

(** [NPC.get_reaction] *)
Definition get_reaction (self : t) : string :=
  if is_hostile self then
    name self ++ "이(가) 적대적으로 바라봅니다."
  else if trust self >=? 80 then
    name self ++ "이(가) 당신을 신뢰하는 눈빛으로 바라봅니다."
  else if trust self >=? 50 then
    name self ++ "이(가) 중립적인 표정을 짓습니다."
  else
    name self ++ "이(가) 의심스러운 눈초리로 당신을 살핍니다.".

(** An entry of [memories] as the dict it is in the source, and back; a
    value of another shape is outside the model. *)
Definition memory_to_dict (m : memory) : dict :=
  list_to_map [("action", PStr (action m)); ("timestamp", PStr (timestamp m))].

Definition memory_of_val (v : PyVal) : option memory :=
  data ← as_dict v;
  if decide (size data = 2%nat) then
    action' ← get data "action" as_str;
    timestamp' ← get data "timestamp" as_str;
    Some (mk_memory action' timestamp')
  else None.

(** [NPC.to_dict] *)
Definition to_dict (self : t) : dict :=
  list_to_map [
    ("name", PStr (name self));
    ("faction", PStr (Faction_value (faction self)));
    ("trust", PInt (trust self));
    ("memories", PList (PDict ∘ memory_to_dict <$> memories self));
    ("is_hostile", PBool (is_hostile self))
  ].

(** [NPC.from_dict] *)
Definition from_dict (data : dict) : option t :=
  name' ← get data "name" as_str;
  faction' ← get data "faction" as_str
             ≫= enum_of_value Faction_value Faction_members;
  trust' ← get data "trust" as_int;
  let npc := init name' faction' trust' in
  memories' ← get data "memories" as_list ≫= mapM memory_of_val;
  is_hostile' ← get data "is_hostile" as_bool;
  Some (mk (name npc) (faction npc) (trust npc) memories' is_hostile').

End NPC.

(** ** Location

    [npcs] and [items] hold references to the NPC and Item objects. *)

Module Location.

Record t := mk {
  name : string;
  description : string;
  faction : Faction;
  danger_level : Z;
  is_locked : bool;
  npcs : list loc;
  items : list loc;
  connected_locations : list string
}.

(** [Location.__init__] *)
Definition init (name description : string) (faction : Faction)
    (danger_level : Z) (is_locked : bool) : t :=
  mk name description faction danger_level is_locked [] [] [].

(** [Location.add_npc] *)
Definition add_npc (self : t) (npc : loc) : t :=
  mk (name self) (description self) (faction self) (danger_level self)
     (is_locked self) (npcs self ++ [npc]) (items self)
     (connected_locations self).

(** [Location.add_item] *)
Definition add_item (self : t) (item : loc) : t :=
  mk (name self) (description self) (faction self) (danger_level self)
     (is_locked self) (npcs self) (items self ++ [item])
     (connected_locations self).

(** [Location.connect_location] *)
Definition connect_location (self : t) (location_name : string) : t :=
  if bool_decide (location_name ∉ connected_locations self) then
    mk (name self) (description self) (faction self) (danger_level self)
       (is_locked self) (npcs self) (items self)
       (connected_locations self ++ [location_name])
  else self.

(** [Location.unlock] *)
Definition unlock (self : t) : t :=
  mk (name self) (description self) (faction self) (danger_level self)
     false (npcs self) (items self) (connected_locations self).

End Location.

(** ** Status effects

    An entry of [buffs]/[debuffs]: the dict
    [{"type": ..., "turns": ..., "value": ...}]. *)

Module Buff.

Record t := mk {
  type : string;
  turns : Z;
  value : Z
}.

(** The entry as the dict it is in the source, and back; a value of
    another shape is outside the model. *)
Definition to_dict (self : t) : dict :=
  list_to_map [
    ("type", PStr (type self));
    ("turns", PInt (turns self));
    ("value", PInt (value self))
  ].

Definition of_val (v : PyVal) : option t :=
  data ← as_dict v;
  if decide (size data = 3%nat) then
    type' ← get data "type" as_str;
    turns' ← get data "turns" as_int;
    value' ← get data "value" as_int;
    Some (mk type' turns' value')
  else None.

End Buff.

#[global] Instance Buff_eq_dec : EqDecision Buff.t.
Proof. solve_decision. Defined.

(** [seq.remove(x)]: drops the first element equal to [x]; the source
    calls it only with an element of the list. *)
Fixpoint list_remove `{EqDecision A} (x : A) (l : list A) : list A :=
  match l with
  | [] => []
  | y :: l' => if decide (x = y) then l' else y :: list_remove x l'
  end.

(** ** Character *)

Module Character.

Record t := mk {
  name : string;
  origin : Origin;
  job : JobPath;
  faction_affinity : gmap Faction Z;
  max_health : Z;
  health : Z;
  max_stamina : Z;
  stamina : Z;
  max_focus : Z;
  focus : Z;
  defense : Z;
  sanity : Z;
  base_attack : Z;
  base_defense : Z;
  inventory : list loc;
  equipped_weapon : option loc;
  equipped_armor : option loc;
  skills : list Skill.t;
  money : Z;
  experience : Z;
  level : Z;
  in_combat : bool;
  turn_action_taken : bool;
  is_cursed : bool;
  nightmares : list string;
  buffs : list Buff.t;
  debuffs : list Buff.t
}.

(** Attribute assignments [self.f = v]. *)

Definition set_job (self : t) (v : JobPath) : t :=
  mk (name self) (origin self) v (faction_affinity self) (max_health self)
    (health self) (max_stamina self) (stamina self) (max_focus self)
    (focus self) (defense self) (sanity self) (base_attack self)
    (base_defense self) (inventory self) (equipped_weapon self)
    (equipped_armor self) (skills self) (money self) (experience self)
    (level self) (in_combat self) (turn_action_taken self) (is_cursed self)
    (nightmares self) (buffs self) (debuffs self).

Definition set_max_health (self : t) (v : Z) : t :=
  mk (name self) (origin self) (job self) (faction_affinity self) v
    (health self) (max_stamina self) (stamina self) (max_focus self)
    (focus self) (defense self) (sanity self) (base_attack self)
    (base_defense self) (inventory self) (equipped_weapon self)
    (equipped_armor self) (skills self) (money self) (experience self)
    (level self) (in_combat self) (turn_action_taken self) (is_cursed self)
    (nightmares self) (buffs self) (debuffs self).

Definition set_health (self : t) (v : Z) : t :=
  mk (name self) (origin self) (job self) (faction_affinity self)
    (max_health self) v (max_stamina self) (stamina self) (max_focus self)
    (focus self) (defense self) (sanity self) (base_attack self)
    (base_defense self) (inventory self) (equipped_weapon self)
    (equipped_armor self) (skills self) (money self) (experience self)
    (level self) (in_combat self) (turn_action_taken self) (is_cursed self)
    (nightmares self) (buffs self) (debuffs self).

Definition set_max_stamina (self : t) (v : Z) : t :=
  mk (name self) (origin self) (job self) (faction_affinity self)
    (max_health self) (health self) v (stamina self) (max_focus self)
    (focus self) (defense self) (sanity self) (base_attack self)
    (base_defense self) (inventory self) (equipped_weapon self)
    (equipped_armor self) (skills self) (money self) (experience self)
    (level self) (in_combat self) (turn_action_taken self) (is_cursed self)
    (nightmares self) (buffs self) (debuffs self).

Definition set_stamina (self : t) (v : Z) : t :=
  mk (name self) (origin self) (job self) (faction_affinity self)
    (max_health self) (health self) (max_stamina self) v (max_focus self)
    (focus self) (defense self) (sanity self) (base_attack self)
    (base_defense self) (inventory self) (equipped_weapon self)
    (equipped_armor self) (skills self) (money self) (experience self)
    (level self) (in_combat self) (turn_action_taken self) (is_cursed self)
    (nightmares self) (buffs self) (debuffs self).

Definition set_max_focus (self : t) (v : Z) : t :=
  mk (name self) (origin self) (job self) (faction_affinity self)
    (max_health self) (health self) (max_stamina self) (stamina self) v
    (focus self) (defense self) (sanity self) (base_attack self)
    (base_defense self) (inventory self) (equipped_weapon self)
    (equipped_armor self) (skills self) (money self) (experience self)
    (level self) (in_combat self) (turn_action_taken self) (is_cursed self)
    (nightmares self) (buffs self) (debuffs self).

Definition set_focus (self : t) (v : Z) : t :=
  mk (name self) (origin self) (job self) (faction_affinity self)
    (max_health self) (health self) (max_stamina self) (stamina self)
    (max_focus self) v (defense self) (sanity self) (base_attack self)
    (base_defense self) (inventory self) (equipped_weapon self)
    (equipped_armor self) (skills self) (money self) (experience self)
    (level self) (in_combat self) (turn_action_taken self) (is_cursed self)
    (nightmares self) (buffs self) (debuffs self).

Definition set_sanity (self : t) (v : Z) : t :=
  mk (name self) (origin self) (job self) (faction_affinity self)
    (max_health self) (health self) (max_stamina self) (stamina self)
    (max_focus self) (focus self) (defense self) v (base_attack self)
    (base_defense self) (inventory self) (equipped_weapon self)
    (equipped_armor self) (skills self) (money self) (experience self)
    (level self) (in_combat self) (turn_action_taken self) (is_cursed self)
    (nightmares self) (buffs self) (debuffs self).

Definition set_base_attack (self : t) (v : Z) : t :=
  mk (name self) (origin self) (job self) (faction_affinity self)
    (max_health self) (health self) (max_stamina self) (stamina self)
    (max_focus self) (focus self) (defense self) (sanity self) v
    (base_defense self) (inventory self) (equipped_weapon self)
    (equipped_armor self) (skills self) (money self) (experience self)
    (level self) (in_combat self) (turn_action_taken self) (is_cursed self)
    (nightmares self) (buffs self) (debuffs self).

Definition set_base_defense (self : t) (v : Z) : t :=
  mk (name self) (origin self) (job self) (faction_affinity self)
    (max_health self) (health self) (max_stamina self) (stamina self)
    (max_focus self) (focus self) (defense self) (sanity self)
    (base_attack self) v (inventory self) (equipped_weapon self)
    (equipped_armor self) (skills self) (money self) (experience self)
    (level self) (in_combat self) (turn_action_taken self) (is_cursed self)
    (nightmares self) (buffs self) (debuffs self).

Definition set_inventory (self : t) (v : list loc) : t :=
  mk (name self) (origin self) (job self) (faction_affinity self)
    (max_health self) (health self) (max_stamina self) (stamina self)
    (max_focus self) (focus self) (defense self) (sanity self)
    (base_attack self) (base_defense self) v (equipped_weapon self)
    (equipped_armor self) (skills self) (money self) (experience self)
    (level self) (in_combat self) (turn_action_taken self) (is_cursed self)
    (nightmares self) (buffs self) (debuffs self).

Definition set_equipped_weapon (self : t) (v : option loc) : t :=
  mk (name self) (origin self) (job self) (faction_affinity self)
    (max_health self) (health self) (max_stamina self) (stamina self)
    (max_focus self) (focus self) (defense self) (sanity self)
    (base_attack self) (base_defense self) (inventory self) v
    (equipped_armor self) (skills self) (money self) (experience self)
    (level self) (in_combat self) (turn_action_taken self) (is_cursed self)
    (nightmares self) (buffs self) (debuffs self).

Definition set_equipped_armor (self : t) (v : option loc) : t :=
  mk (name self) (origin self) (job self) (faction_affinity self)
    (max_health self) (health self) (max_stamina self) (stamina self)
    (max_focus self) (focus self) (defense self) (sanity self)
    (base_attack self) (base_defense self) (inventory self)
    (equipped_weapon self) v (skills self) (money self) (experience self)
    (level self) (in_combat self) (turn_action_taken self) (is_cursed self)
    (nightmares self) (buffs self) (debuffs self).

Definition set_experience (self : t) (v : Z) : t :=
  mk (name self) (origin self) (job self) (faction_affinity self)
    (max_health self) (health self) (max_stamina self) (stamina self)
    (max_focus self) (focus self) (defense self) (sanity self)
    (base_attack self) (base_defense self) (inventory self)
    (equipped_weapon self) (equipped_armor self) (skills self) (money self)
    v (level self) (in_combat self) (turn_action_taken self)
    (is_cursed self) (nightmares self) (buffs self) (debuffs self).

Definition set_level (self : t) (v : Z) : t :=
  mk (name self) (origin self) (job self) (faction_affinity self)
    (max_health self) (health self) (max_stamina self) (stamina self)
    (max_focus self) (focus self) (defense self) (sanity self)
    (base_attack self) (base_defense self) (inventory self)
    (equipped_weapon self) (equipped_armor self) (skills self) (money self)
    (experience self) v (in_combat self) (turn_action_taken self)
    (is_cursed self) (nightmares self) (buffs self) (debuffs self).

Definition set_turn_action_taken (self : t) (v : bool) : t :=
  mk (name self) (origin self) (job self) (faction_affinity self)
    (max_health self) (health self) (max_stamina self) (stamina self)
    (max_focus self) (focus self) (defense self) (sanity self)
    (base_attack self) (base_defense self) (inventory self)
    (equipped_weapon self) (equipped_armor self) (skills self) (money self)
    (experience self) (level self) (in_combat self) v (is_cursed self)
    (nightmares self) (buffs self) (debuffs self).

Definition set_buffs (self : t) (v : list Buff.t) : t :=
  mk (name self) (origin self) (job self) (faction_affinity self)
    (max_health self) (health self) (max_stamina self) (stamina self)
    (max_focus self) (focus self) (defense self) (sanity self)
    (base_attack self) (base_defense self) (inventory self)
    (equipped_weapon self) (equipped_armor self) (skills self) (money self)
    (experience self) (level self) (in_combat self) (turn_action_taken self)
    (is_cursed self) (nightmares self) v (debuffs self).

(** [Character._get_initial_faction] *)
Definition _get_initial_faction (origin : Origin) : gmap Faction Z :=
  match origin with
  | FALLEN_NOBLE =>
      <[PALACE := 60]> (<[CULT := 30]> (<[SHADOW_GUILD := 40]>
        (<[PEOPLE_ALLIANCE := 20]> (<[FOREIGNER_UNION := 30]> ∅))))
  | BANDIT_OUTCAST =>
      <[PALACE := 10]> (<[CULT := 40]> (<[SHADOW_GUILD := 70]>
        (<[PEOPLE_ALLIANCE := 50]> (<[FOREIGNER_UNION := 60]> ∅))))
  | WAR_ORPHAN =>
      <[PALACE := 20]> (<[CULT := 50]> (<[SHADOW_GUILD := 50]>
        (<[PEOPLE_ALLIANCE := 70]> (<[FOREIGNER_UNION := 40]> ∅))))
  end.

(** [Character._get_initial_attack] *)
Definition _get_initial_attack (origin : Origin) : Z :=
  match origin with
  | FALLEN_NOBLE => 15
  | BANDIT_OUTCAST => 20
  | WAR_ORPHAN => 12
  end.

(** [Character._get_initial_defense] *)
Definition _get_initial_defense (origin : Origin) : Z :=
  match origin with
  | FALLEN_NOBLE => 12
  | BANDIT_OUTCAST => 10
  | WAR_ORPHAN => 15
  end.

(** [Character._get_initial_money] *)
Definition _get_initial_money (origin : Origin) : Z :=
  match origin with
  | FALLEN_NOBLE => 100
  | BANDIT_OUTCAST => 50
  | WAR_ORPHAN => 10
  end.

(** [Character.__init__] *)
Definition init (name : string) (origin : Origin) : t :=
  mk name origin WANDERER (_get_initial_faction origin)
     100 100 100 100 100 100 10 100
     (_get_initial_attack origin) (_get_initial_defense origin)
     [] None None [] (_get_initial_money origin)
     0 1 false false false [] [] [].

(** [Character.take_damage]; the second component is the returned
    [actual_damage]. *)
Definition take_damage (self : t) (damage : Z) : t * Z :=
  let actual_damage := Z.max 0 (damage - defense self) in
  (set_health self (health self - actual_damage), actual_damage).

(** [Character.heal] *)
Definition heal (self : t) (amount : Z) : t :=
  set_health self (Z.min (max_health self) (health self + amount)).

(** [Character.use_stamina] *)
Definition use_stamina (self : t) (amount : Z) : t * bool :=
  if stamina self >=? amount
  then (set_stamina self (stamina self - amount), true)
  else (self, false).

(** [Character.use_focus] *)
Definition use_focus (self : t) (amount : Z) : t * bool :=
  if focus self >=? amount
  then (set_focus self (focus self - amount), true)
  else (self, false).

(** [Character.rest] *)
Definition rest (self : t) : t :=
  let self := set_stamina self (Z.min (max_stamina self) (stamina self + 30)) in
  let self := set_focus self (Z.min (max_focus self) (focus self + 20)) in
  set_health self (Z.min (max_health self) (health self + 10)).

(** [Character.add_item] *)
Definition add_item (self : t) (item : loc) : t :=
  set_inventory self (inventory self ++ [item]).

(** [Character.equip_weapon]; [h] is the item store, read only. *)
Definition equip_weapon (self : t) (h : gmap loc Item.t) (weapon : loc) : t :=
  if bool_decide (Item.item_type (h !!! weapon) = WEAPON)
     && (Item.durability (h !!! weapon) >? 0)
  then set_equipped_weapon self (Some weapon)
  else self.

(** [Character.equip_armor] *)
Definition equip_armor (self : t) (h : gmap loc Item.t) (armor : loc) : t :=
  if bool_decide (Item.item_type (h !!! armor) = ARMOR)
     && (Item.durability (h !!! armor) >? 0)
  then set_equipped_armor self (Some armor)
  else self.

(** [Character.get_total_attack] *)
Definition get_total_attack (self : t) (h : gmap loc Item.t) : Z :=
  let weapon_power :=
    match equipped_weapon self with
    | Some w => Item.power (h !!! w)
    | None => 0
    end in
  base_attack self + weapon_power.

(** The loop [for buff in self.buffs: if buff["type"] == kind: acc += buff["value"]]. *)
Definition add_buffs (kind : string) (bs : list Buff.t) (acc : Z) : Z :=
  fold_left
    (fun acc buff =>
       if bool_decide (Buff.type buff = kind) then acc + Buff.value buff else acc)
    bs acc.

(** [Character.get_total_defense] *)
Definition get_total_defense (self : t) (h : gmap loc Item.t) : Z :=
  let armor_defense :=
    match equipped_armor self with
    | Some a => Item.defense (h !!! a)
    | None => 0
    end in
  let base_total := base_defense self + armor_defense in
  add_buffs "defense" (buffs self) base_total.

(** [Character.get_dodge_chance]; [//] is floor division. *)
Definition get_dodge_chance (self : t) : Z :=
  let base_dodge := 10 + focus self / 20 in
  Z.min (add_buffs "dodge" (buffs self) base_dodge) 75.

(** The dict [job_progression] of [Character.advance_job]. *)
Definition job_progression (j : JobPath) : option JobPath :=
  match j with
  | WANDERER => Some WARRIOR_APPRENTICE
  | WARRIOR_APPRENTICE => Some WARRIOR
  | WARRIOR => Some BLADE_MASTER
  | BLADE_MASTER => Some SWORD_DEMON
  | SWORD_DEMON => None
  end.

(** [Character.advance_job] *)
Definition advance_job (self : t) : t * bool :=
  match job_progression (job self) with
  | Some next =>
      if level self >=? (list_index (job self) JobPath_members + 1) * 5 then
        let self := set_job self next in
        let self := set_max_health self (max_health self + 20) in
        let self := set_max_stamina self (max_stamina self + 20) in
        let self := set_max_focus self (max_focus self + 20) in
        let self := set_base_attack self (base_attack self + 5) in
        let self := set_base_defense self (base_defense self + 5) in
        (self, true)
      else (self, false)
  | None => (self, false)
  end.

(** The body of the [while] loop of [Character.gain_experience]. *)
Definition level_up (self : t) : t :=
  let self := set_experience self (experience self - level self * 100) in
  let self := set_level self (level self + 1) in
  let self := set_max_health self (max_health self + 10) in
  let self := set_max_stamina self (max_stamina self + 10) in
  let self := set_max_focus self (max_focus self + 10) in
  let self := set_base_attack self (base_attack self + 2) in
  set_base_defense self (base_defense self + 2).

(** The loop [while self.experience >= self.level * 100: ...], with [fuel]
    bounding the number of iterations; [None] when the fuel runs out
    before the loop condition fails. *)
Fixpoint level_up_loop (fuel : nat) (self : t) : option t :=
  if experience self >=? level self * 100 then
    match fuel with
    | O => None
    | S fuel' => level_up_loop fuel' (level_up self)
    end
  else Some self.

(** [Character.gain_experience] *)
Definition gain_experience (fuel : nat) (self : t) (amount : Z) : option t :=
  level_up_loop fuel (set_experience self (experience self + amount)).

Definition set_debuffs (self : t) (v : list Buff.t) : t :=
  mk (name self) (origin self) (job self) (faction_affinity self)
    (max_health self) (health self) (max_stamina self) (stamina self)
    (max_focus self) (focus self) (defense self) (sanity self)
    (base_attack self) (base_defense self) (inventory self)
    (equipped_weapon self) (equipped_armor self) (skills self) (money self)
    (experience self) (level self) (in_combat self) (turn_action_taken self)
    (is_cursed self) (nightmares self) (buffs self) v.

Definition set_money (self : t) (v : Z) : t :=
  mk (name self) (origin self) (job self) (faction_affinity self)
    (max_health self) (health self) (max_stamina self) (stamina self)
    (max_focus self) (focus self) (defense self) (sanity self)
    (base_attack self) (base_defense self) (inventory self)
    (equipped_weapon self) (equipped_armor self) (skills self) v
    (experience self) (level self) (in_combat self) (turn_action_taken self)
    (is_cursed self) (nightmares self) (buffs self) (debuffs self).

Definition set_in_combat (self : t) (v : bool) : t :=
  mk (name self) (origin self) (job self) (faction_affinity self)
    (max_health self) (health self) (max_stamina self) (stamina self)
    (max_focus self) (focus self) (defense self) (sanity self)
    (base_attack self) (base_defense self) (inventory self)
    (equipped_weapon self) (equipped_armor self) (skills self) (money self)
    (experience self) (level self) v (turn_action_taken self)
    (is_cursed self) (nightmares self) (buffs self) (debuffs self).

(** The value written for an item reference. *)
Definition item_val (h : gmap loc Item.t) (item : loc) : PyVal :=
  PDict (Item.to_dict (h !!! item)).

(** [Character.to_dict]; [h] is the item store, read for the items'
    fields. *)
Definition to_dict (self : t) (h : gmap loc Item.t) : dict :=
  list_to_map [
    ("name", PStr (name self));
    ("origin", PStr (Origin_value (origin self)));
    ("job", PStr (JobPath_value (job self)));
    ("faction_affinity",
      PDict (list_to_map
        ((fun kv => (Faction_value kv.1, PInt kv.2))
           <$> map_to_list (faction_affinity self))));
    ("stats", PDict (list_to_map [
      ("max_health", PInt (max_health self));
      ("health", PInt (health self));
      ("max_stamina", PInt (max_stamina self));
      ("stamina", PInt (stamina self));
      ("max_focus", PInt (max_focus self));
      ("focus", PInt (focus self));
      ("defense", PInt (defense self));
      ("sanity", PInt (sanity self));
      ("base_attack", PInt (base_attack self));
      ("base_defense", PInt (base_defense self))
    ]));
    ("inventory", PList (item_val h <$> inventory self));
    ("equipped_weapon",
      match equipped_weapon self with
      | Some item => item_val h item
      | None => PNone
      end);
    ("equipped_armor",
      match equipped_armor self with
      | Some item => item_val h item
      | None => PNone
      end);
    ("skills", PList (PDict ∘ Skill.to_dict <$> skills self));
    ("experience", PInt (experience self));
    ("level", PInt (level self));
    ("money", PInt (money self));
    ("is_cursed", PBool (is_cursed self));
    ("nightmares", PList (PStr <$> nightmares self));
    ("buffs", PList (PDict ∘ Buff.to_dict <$> buffs self));
    ("debuffs", PList (PDict ∘ Buff.to_dict <$> debuffs self))
  ].

(** [{Faction(k): v for k, v in d.items()}] *)
Definition load_affinity (d : dict) : option (gmap Faction Z) :=
  list_to_map <$>
    mapM (fun kv =>
            k ← enum_of_value Faction_value Faction_members kv.1;
            v ← as_int kv.2;
            Some (k, v))
         (map_to_list d).

(** [Character.from_dict]: the items are new objects, created in the
    store [h] in the order inventory, weapon, armor.  The attributes the
    function does not assign keep the value [__init__] gave them. *)
Definition from_dict (data : dict) (h : gmap loc Item.t)
    : option (t * gmap loc Item.t) :=
  name' ← get data "name" as_str;
  origin' ← get data "origin" as_str
            ≫= enum_of_value Origin_value Origin_members;
  let character := init name' origin' in
  job' ← get data "job" as_str
         ≫= enum_of_value JobPath_value JobPath_members;
  faction_affinity' ← get data "faction_affinity" as_dict ≫= load_affinity;
  stats ← get data "stats" as_dict;
  max_health' ← get stats "max_health" as_int;
  health' ← get stats "health" as_int;
  max_stamina' ← get stats "max_stamina" as_int;
  stamina' ← get stats "stamina" as_int;
  max_focus' ← get stats "max_focus" as_int;
  focus' ← get stats "focus" as_int;
  defense' ← get stats "defense" as_int;
  sanity' ← get stats "sanity" as_int;
  base_attack' ← get stats "base_attack" as_int;
  base_defense' ← get stats "base_defense" as_int;
  '(inventory', h) ← get data "inventory" as_list
                     ≫= (fun vs => load_items vs h);
  '(equipped_weapon', h) ← data !! "equipped_weapon"
                           ≫= (fun v => load_slot v h);
  '(equipped_armor', h) ← data !! "equipped_armor"
                          ≫= (fun v => load_slot v h);
  skills' ← get data "skills" as_list
            ≫= mapM (fun v => as_dict v ≫= Skill.from_dict);
  experience' ← get data "experience" as_int;
  level' ← get data "level" as_int;
  money' ← get_default data "money" as_int 50;
  is_cursed' ← get_default data "is_cursed" as_bool false;
  nightmares' ← match data !! "nightmares" with
                | Some v => as_list v ≫= mapM as_str
                | None => Some []
                end;
  buffs' ← match data !! "buffs" with
           | Some v => as_list v ≫= mapM Buff.of_val
           | None => Some []
           end;
  debuffs' ← match data !! "debuffs" with
             | Some v => as_list v ≫= mapM Buff.of_val
             | None => Some []
             end;
  Some (mk (name character) (origin character) job' faction_affinity'
           max_health' health' max_stamina' stamina' max_focus' focus'
           defense' sanity' base_attack' base_defense'
           inventory' equipped_weapon' equipped_armor' skills'
           money' experience' level'
           (in_combat character) (turn_action_taken character)
           is_cursed' nightmares' buffs' debuffs',
        h).

End Character.

(** ** Enemy *)

Module Enemy.

Record t := mk {
  name : string;
  max_health : Z;
  health : Z;
  attack : Z;
  defense : Z;
  experience_reward : Z;
  loot : list loc;
  combat_patterns : list string;
  rage_mode : bool;
  stance : string
}.

(** [Enemy.__init__]; [None] stands for an omitted optional argument, and
    [x or default] takes the default for [None] and for the empty list. *)
Definition init (name : string) (health attack defense experience_reward : Z)
    (loot : option (list loc)) (combat_patterns : option (list string)) : t :=
  mk name health health attack defense experience_reward
     (match loot with Some (x :: l) => x :: l | _ => [] end)
     (match combat_patterns with Some (x :: l) => x :: l | _ => ["attack"] end)
     false "normal".

(** [Enemy.take_damage]; the second component is the returned
    [actual_damage]. *)
Definition take_damage (self : t) (damage : Z) : t * Z :=
  let actual_damage := Z.max 0 (damage - defense self) in
  let health' := health self - actual_damage in
  if le_frac health' (max_health self) 3 10 && negb (rage_mode self) then
    (mk (name self) (max_health self) health' (trunc_mul (attack self) 3 2)
        (defense self) (experience_reward self) (loot self)
        (combat_patterns self) true (stance self),
     actual_damage)
  else
    (mk (name self) (max_health self) health' (attack self)
        (defense self) (experience_reward self) (loot self)
        (combat_patterns self) (rage_mode self) (stance self),
     actual_damage).

(** [Enemy.is_alive] *)
Definition is_alive (self : t) : bool := health self >? 0.

(** [Enemy.get_attack_damage]; [offset] is [random.randint(-5, 5)]. *)
Definition get_attack_damage (self : t) (offset : Z) : Z :=
  let base_damage := attack self + offset in
  let base_damage :=
    if rage_mode self then trunc_mul base_damage 13 10 else base_damage in
  if bool_decide (stance self = "aggressive") then trunc_mul base_damage 6 5
  else if bool_decide (stance self = "defensive") then trunc_mul base_damage 4 5
  else base_damage.

(** [random.choice(seq)]: [pick] is the index drawn, below [len(seq)]. *)
Definition choice (seq : list string) (pick : nat) : string :=
  nth pick seq "".

(** [Enemy.choose_action]; [pick] is the index drawn by [random.choice]
    when one is drawn. *)
Definition choose_action (self : t) (player_last_action : option string)
    (pick : nat) : string :=
  if rage_mode self then choice ["strong_attack"; "attack"; "attack"] pick
  else if bool_decide (player_last_action = Some "defend") then "strong_attack"
  else if bool_decide (player_last_action = Some "dodge") then "feint"
  else if (Z.of_nat (length (combat_patterns self)) >? 0)
       then choice (combat_patterns self) pick
  else "attack".

End Enemy.

(** ** Colors *)

Module Colors.

Definition ESC : string := String (Ascii.ascii_of_nat 27) "".
Definition RESET : string := ESC ++ "[0m".
Definition RED : string := ESC ++ "[31m".
Definition GREEN : string := ESC ++ "[32m".
Definition MAGENTA : string := ESC ++ "[35m".

End Colors.

(** The newline of the source's ["\n"]. *)
Definition NL : string := String (Ascii.ascii_of_nat 10) "".

(** [item.durability -= 1] on the object at [l]. *)
Definition wear (l : loc) (h : gmap loc Item.t) : gmap loc Item.t :=
  alter (fun it => Item.set_durability it (Item.durability it - 1)) l h.

(** ** Combat *)

Module Combat.

(** [rage_announced] records whether the attribute of that name has been
    set on the session (the source tests it with [hasattr]). *)
Record t := mk {
  player : Character.t;
  enemy : Enemy.t;
  turn_count : Z;
  combat_log : list string;
  is_active : bool;
  player_last_action : option string;
  rage_announced : bool
}.

(** [Combat.__init__] *)
Definition init (player : Character.t) (enemy : Enemy.t) : t :=
  mk player enemy 0 [] true None false.

Definition set_player (self : t) (v : Character.t) : t :=
  mk v (enemy self) (turn_count self) (combat_log self) (is_active self)
     (player_last_action self) (rage_announced self).

Definition set_enemy (self : t) (v : Enemy.t) : t :=
  mk (player self) v (turn_count self) (combat_log self) (is_active self)
     (player_last_action self) (rage_announced self).

Definition set_player_last_action (self : t) (v : option string) : t :=
  mk (player self) (enemy self) (turn_count self) (combat_log self)
     (is_active self) v (rage_announced self).

Definition set_rage_announced (self : t) (v : bool) : t :=
  mk (player self) (enemy self) (turn_count self) (combat_log self)
     (is_active self) (player_last_action self) v.

(** The result of a session method: the returned text, the session and
    the item store after the call. *)
Definition result : Type := string * t * gmap loc Item.t.

(** [Combat.player_attack]; [hit_roll] is [random.randint(1, 100)] and
    [dmg_roll] is [random.randint(-5, 10)]. *)
Definition player_attack (self : t) (h : gmap loc Item.t)
    (hit_roll dmg_roll : Z) : result :=
  if Character.turn_action_taken (player self) then
    ("이미 이번 턴에 행동했습니다!", self, h)
  else
    let self := set_player self
                  (Character.set_turn_action_taken (player self) true) in
    let self := set_player_last_action self (Some "attack") in
    let stamina_cost := 10 in
    if Character.stamina (player self) <? stamina_cost then
      ("기력이 부족합니다!", self, h)
    else
      let self := set_player self
                    (fst (Character.use_stamina (player self) stamina_cost)) in
      let hit_chance :=
        70 + Character.focus (player self) / 10
        - (100 - Character.stamina (player self)) / 20 in
      if hit_roll <=? hit_chance then
        let damage := Character.get_total_attack (player self) h + dmg_roll in
        let '(e, actual_damage) := Enemy.take_damage (enemy self) damage in
        let self := set_enemy self e in
        let h' :=
          match Character.equipped_weapon (player self) with
          | Some w => wear w h
          | None => h
          end in
        if match Character.equipped_weapon (player self) with
           | Some w => Item.durability (h' !!! w) <=? 0
           | None => false
           end
        then
          ("공격 성공! " ++ pretty actual_damage ++ "의 피해를 입혔습니다." ++ NL
           ++ Colors.RED ++ "무기가 파괴되었습니다!" ++ Colors.RESET, self, h')
        else if Enemy.rage_mode (enemy self) && negb (rage_announced self) then
          ("공격 성공! " ++ pretty actual_damage ++ "의 피해를 입혔습니다." ++ NL
           ++ Colors.RED ++ Enemy.name (enemy self) ++ "이(가) 분노합니다!"
           ++ Colors.RESET,
           set_rage_announced self true, h')
        else
          ("공격 성공! " ++ pretty actual_damage
           ++ "의 피해를 입혔습니다. (적 체력: "
           ++ pretty (Enemy.health (enemy self)) ++ "/"
           ++ pretty (Enemy.max_health (enemy self)) ++ ")", self, h')
      else
        ("공격이 빗나갔습니다!", self, h).

(** [Combat.player_dodge] *)
Definition player_dodge (self : t) (h : gmap loc Item.t) : result :=
  if Character.turn_action_taken (player self) then
    ("이미 이번 턴에 행동했습니다!", self, h)
  else
    let self := set_player self
                  (Character.set_turn_action_taken (player self) true) in
    let self := set_player_last_action self (Some "dodge") in
    let '(p, ok) := Character.use_stamina (player self) 15 in
    let self := set_player self p in
    if negb ok then
      ("기력이 부족합니다!", self, h)
    else
      let self := set_player self
        (Character.set_buffs (player self)
           (Character.buffs (player self) ++ [Buff.mk "dodge" 2 30])) in
      ("회피 자세를 취했습니다. 다음 공격을 피할 확률이 증가합니다.", self, h).

(** [Combat.player_defend] *)
Definition player_defend (self : t) (h : gmap loc Item.t) : result :=
  if Character.turn_action_taken (player self) then
    ("이미 이번 턴에 행동했습니다!", self, h)
  else
    let self := set_player self
                  (Character.set_turn_action_taken (player self) true) in
    let self := set_player_last_action self (Some "defend") in
    let self := set_player self
      (Character.set_buffs (player self)
         (Character.buffs (player self) ++ [Buff.mk "defense" 1 15])) in
    let self := set_player self
      (Character.set_stamina (player self)
         (Z.max 0 (Character.stamina (player self) - 5))) in
    ("방어 자세를 취했습니다. 받는 피해가 감소합니다.", self, h).

(** The condition [not use_stamina(s) or not use_focus(f)]: [or] evaluates
    its right operand only when the left one is false, that is when the
    stamina has been paid.  Returns the player after the calls made and
    the value of the condition. *)
Definition pay_costs (p : Character.t) (s f : Z) : Character.t * bool :=
  let '(p, ok_s) := Character.use_stamina p s in
  if negb ok_s then (p, true)
  else
    let '(p, ok_f) := Character.use_focus p f in
    (p, negb ok_f).

(** [Combat.player_ambush]; [roll] is [random.randint(1, 100)]. *)
Definition player_ambush (self : t) (h : gmap loc Item.t) (roll : Z) : result :=
  if Character.turn_action_taken (player self) then
    ("이미 이번 턴에 행동했습니다!", self, h)
  else
    let self := set_player self
                  (Character.set_turn_action_taken (player self) true) in
    let '(p, lacking) := pay_costs (player self) 20 20 in
    let self := set_player self p in
    if lacking then
      ("기력이나 집중도가 부족합니다!", self, h)
    else
      let success_chance := 50 + Character.level (player self) * 2 in
      if roll <=? success_chance then
        let damage := Character.get_total_attack (player self) h * 2 in
        let '(e, actual_damage) := Enemy.take_damage (enemy self) damage in
        ("기습 성공! " ++ pretty actual_damage ++ "의 큰 피해를 입혔습니다!",
         set_enemy self e, h)
      else
        ("기습에 실패했습니다! 적에게 반격당합니다!", self, h).

(** [Combat.player_use_skill] *)
Definition player_use_skill (self : t) (h : gmap loc Item.t)
    (skill : Skill.t) : result :=
  if Character.turn_action_taken (player self) then
    ("이미 이번 턴에 행동했습니다!", self, h)
  else
    let self := set_player self
                  (Character.set_turn_action_taken (player self) true) in
    let '(p, lacking) :=
      pay_costs (player self) (Skill.stamina_cost skill)
                (Skill.focus_cost skill) in
    let self := set_player self p in
    if lacking then
      (Skill.name skill ++ " 사용에 필요한 기력이나 집중도가 부족합니다!",
       self, h)
    else
      let damage :=
        Qtrunc (inject_Z (Character.get_total_attack (player self) h)
                * Skill.damage_multiplier skill)%Q in
      let '(e, actual_damage) := Enemy.take_damage (enemy self) damage in
      (Skill.name skill ++ " 발동! " ++ pretty actual_damage
       ++ "의 피해를 입혔습니다!", set_enemy self e, h).

(** [Combat.enemy_turn]; [dodge_roll] is [random.randint(1, 100)], [pick]
    the index drawn inside [choose_action], [offset] the
    [random.randint(-5, 5)] of [get_attack_damage]. *)
Definition enemy_turn (self : t) (h : gmap loc Item.t)
    (dodge_roll : Z) (pick : nat) (offset : Z) : result :=
  if negb (Enemy.is_alive (enemy self)) then ("", self, h)
  else if dodge_roll <=? Character.get_dodge_chance (player self) then
    (Enemy.name (enemy self) ++ "의 공격을 회피했습니다!", self, h)
  else
    let action :=
      Enemy.choose_action (enemy self) (player_last_action self) pick in
    if bool_decide (action = "attack") then
      let damage := Enemy.get_attack_damage (enemy self) offset in
      let '(p, actual_damage) := Character.take_damage (player self) damage in
      let self := set_player self p in
      let h' :=
        match Character.equipped_armor (player self) with
        | Some a => wear a h
        | None => h
        end in
      if match Character.equipped_armor (player self) with
         | Some a => Item.durability (h' !!! a) <=? 0
         | None => false
         end
      then
        (Enemy.name (enemy self) ++ "의 공격! " ++ pretty actual_damage
         ++ "의 피해를 받았습니다." ++ NL
         ++ Colors.RED ++ "방어구가 파괴되었습니다!" ++ Colors.RESET, self, h')
      else
        (Enemy.name (enemy self) ++ "의 공격! " ++ pretty actual_damage
         ++ "의 피해를 받았습니다. (체력: "
         ++ pretty (Character.health (player self)) ++ "/"
         ++ pretty (Character.max_health (player self)) ++ ")", self, h')
    else if bool_decide (action = "strong_attack") then
      let damage :=
        trunc_mul (Enemy.get_attack_damage (enemy self) offset) 3 2 in
      let '(p, actual_damage) := Character.take_damage (player self) damage in
      (Enemy.name (enemy self) ++ "의 강공격! " ++ pretty actual_damage
       ++ "의 큰 피해를 받았습니다!", set_player self p, h)
    else if bool_decide (action = "feint") then
      (Enemy.name (enemy self) ++ "이(가) 견제합니다! 집중력이 흐트러집니다.",
       set_player self
         (Character.set_focus (player self)
            (Z.max 0 (Character.focus (player self) - 15))), h)
    else if bool_decide (action = "defend") then
      let e := enemy self in
      (Enemy.name e ++ "이(가) 방어 자세를 취했습니다.",
       set_enemy self
         (Enemy.mk (Enemy.name e) (Enemy.max_health e) (Enemy.health e)
            (Enemy.attack e) (Enemy.defense e + 5) (Enemy.experience_reward e)
            (Enemy.loot e) (Enemy.combat_patterns e) (Enemy.rage_mode e)
            "defensive"), h)
    else if bool_decide (action = "taunt") then
      (Enemy.name (enemy self) ++ "이(가) 당신을 조롱합니다! 정신력이 흔들립니다.",
       set_player self
         (Character.set_sanity (player self)
            (Character.sanity (player self) - 5)), h)
    else
      (Enemy.name (enemy self) ++ "이(가) 이상한 행동을 취합니다...", self, h).

Definition set_turn_count (self : t) (v : Z) : t :=
  mk (player self) (enemy self) v (combat_log self) (is_active self)
     (player_last_action self) (rage_announced self).

Definition set_is_active (self : t) (v : bool) : t :=
  mk (player self) (enemy self) (turn_count self) (combat_log self) v
     (player_last_action self) (rage_announced self).

(** [buff["turns"] -= 1] *)
Definition tick (b : Buff.t) : Buff.t :=
  Buff.mk (Buff.type b) (Buff.turns b - 1) (Buff.value b).

(** The loop
    [for buff in effects[:]: buff["turns"] -= 1; if buff["turns"] <= 0: effects.remove(buff)]
    over the list [live]: [n] entries of the copy are still to visit, and
    the entry visited next sits at index [i] of [live] (the entries of the
    copy are the objects of [live], each a dict of its own; a removal
    takes out one entry at or before [i], so the next one moves to [i]). *)
Fixpoint expire_loop (n i : nat) (live : list Buff.t) : list Buff.t :=
  match n with
  | O => live
  | S n' =>
      match live !! i with
      | None => live
      | Some buff =>
          let live := <[i := tick buff]> live in
          if Buff.turns (tick buff) <=? 0
          then expire_loop n' i (list_remove (tick buff) live)
          else expire_loop n' (S i) live
      end
  end.

Definition expire (effects : list Buff.t) : list Buff.t :=
  expire_loop (length effects) 0 effects.

(** [Combat.end_turn] *)
Definition end_turn (self : t) : t :=
  let self := set_turn_count self (turn_count self + 1) in
  let self := set_player self
                (Character.set_turn_action_taken (player self) false) in
  let self := set_player self
                (Character.set_buffs (player self)
                   (expire (Character.buffs (player self)))) in
  set_player self
    (Character.set_debuffs (player self)
       (expire (Character.debuffs (player self)))).

(** [Combat.check_combat_end]; [None] is the source's [None]. *)
Definition check_combat_end (self : t) : option string * t :=
  if Character.health (player self) <=? 0 then
    (Some "death", set_is_active self false)
  else if negb (Enemy.is_alive (enemy self)) then
    (Some "victory", set_is_active self false)
  else (None, self).

End Combat.

(** ** Game: the menus and the combat loop

    The methods of [Game] that call into the classes above.  What they
    print and the pauses they take are left out.  A line read with
    [int(input(...))] is an [option Z], [None] when [int] raises
    [ValueError]; a line read and compared as text is a [string], after
    the [strip()] and [lower()] the source applies to it. *)

Module Game.

(** [item.item_type in [ItemType.WEAPON, ItemType.ARMOR] and item.durability > 0] *)
Definition usable_gear (h : gmap loc Item.t) (item : loc) : Prop :=
  (Item.item_type (h !!! item) = WEAPON \/ Item.item_type (h !!! item) = ARMOR)
  /\ 0 < Item.durability (h !!! item).

#[global] Instance usable_gear_dec h item : Decision (usable_gear h item).
Proof. unfold usable_gear. apply _. Defined.

(** [seq[choice - 1]] behind the guard [1 <= choice <= len(seq)] of the
    menus; [None] when the guard fails. *)
Definition menu_entry {A : Type} (seq : list A) (choice : Z) : option A :=
  if (1 <=? choice) && (choice <=? Z.of_nat (length seq))
  then seq !! Z.to_nat (choice - 1)
  else None.

(** [Game.equip_item] *)
Definition equip_item (player : Character.t) (h : gmap loc Item.t)
    (input : option Z) : Character.t :=
  match Character.inventory player with
  | [] => player
  | _ =>
      let equippable := filter (usable_gear h) (Character.inventory player) in
      match equippable with
      | [] => player
      | _ =>
          match input with
          | None => player
          | Some choice =>
              if choice =? 0 then player
              else
                match menu_entry equippable choice with
                | Some item =>
                    if bool_decide (Item.item_type (h !!! item) = WEAPON)
                    then Character.equip_weapon player h item
                    else if bool_decide (Item.item_type (h !!! item) = ARMOR)
                    then Character.equip_armor player h item
                    else player
                | None => player
                end
          end
      end
  end.

(** The slot updates after an item has left the inventory:
    [if item == equipped_weapon: ... = None elif item == equipped_armor: ... = None]. *)
Definition unequip (player : Character.t) (item : loc) : Character.t :=
  if bool_decide (Character.equipped_weapon player = Some item)
  then Character.set_equipped_weapon player None
  else if bool_decide (Character.equipped_armor player = Some item)
  then Character.set_equipped_armor player None
  else player.

(** [Game.enhance_item]; [roll] and [roll2] are the draws of
    [Item.enhance]. *)
Definition enhance_item (player : Character.t) (h : gmap loc Item.t)
    (input : option Z) (roll roll2 : Z) : Character.t * gmap loc Item.t :=
  let enhanceable := filter (usable_gear h) (Character.inventory player) in
  match enhanceable with
  | [] => (player, h)
  | _ =>
      match input with
      | None => (player, h)
      | Some choice =>
          if choice =? 0 then (player, h)
          else
            match menu_entry enhanceable choice with
            | Some item =>
                let '(it, (success, result_type)) :=
                  Item.enhance (h !!! item) roll roll2 in
                let h := alter (fun _ => it) item h in
                if success then (player, h)
                else if bool_decide (result_type = "destroyed") then
                  let player :=
                    Character.set_inventory player
                      (list_remove item (Character.inventory player)) in
                  (unequip player item, h)
                else (player, h)
            | None => (player, h)
            end
      end
  end.

(** [Game.drop_item]; [ground] is [current_location.items], [confirm] the
    answer to the confirmation question, read only for a valid choice. *)
Definition drop_item (player : Character.t) (ground : list loc)
    (input : option Z) (confirm : string) : Character.t * list loc :=
  match Character.inventory player with
  | [] => (player, ground)
  | _ =>
      match input with
      | None => (player, ground)
      | Some choice =>
          if choice =? 0 then (player, ground)
          else
            match menu_entry (Character.inventory player) choice with
            | Some item =>
                if bool_decide (confirm = "y") then
                  let player :=
                    Character.set_inventory player
                      (list_remove item (Character.inventory player)) in
                  (unequip player item, (ground ++ [item])%list)
                else (player, ground)
            | None => (player, ground)
            end
      end
  end.

(** [Game.use_item] *)
Definition use_item (player : Character.t) (h : gmap loc Item.t)
    (input : option Z) : Character.t :=
  match Character.inventory player with
  | [] => player
  | _ =>
      let usable_items :=
        filter (fun item => Item.item_type (h !!! item) = SPECIAL)
               (Character.inventory player) in
      match usable_items with
      | [] => player
      | _ =>
          match input with
          | None => player
          | Some choice =>
              if choice =? 0 then player
              else
                match menu_entry usable_items choice with
                | Some item =>
                    if bool_decide (Item.name (h !!! item) = "회복약") then
                      let player := Character.heal player 50 in
                      Character.set_inventory player
                        (list_remove item (Character.inventory player))
                    else player
                | None => player
                end
          end
      end
  end.

(** [Game.skill_menu_combat], on the session [self.current_combat]. *)
Definition skill_menu_combat (s : Combat.t) (h : gmap loc Item.t)
    (input : option Z) : option string * Combat.t * gmap loc Item.t :=
  match Character.skills (Combat.player s) with
  | [] => (Some "사용할 수 있는 기술이 없습니다!", s, h)
  | _ =>
      match input with
      | None => (Some "올바른 번호를 입력하세요.", s, h)
      | Some choice =>
          if choice =? 0 then (Some "", s, h)
          else
            match menu_entry (Character.skills (Combat.player s)) choice with
            | Some skill =>
                let '(text, s, h) := Combat.player_use_skill s h skill in
                (Some text, s, h)
            | None => (Some "올바른 번호를 선택하세요.", s, h)
            end
      end
  end.

(** [Game.combat_item_use]; the player is the session's player.  A choice
    outside the menu falls off the end of the method, which returns
    [None]. *)
Definition combat_item_use (s : Combat.t) (h : gmap loc Item.t)
    (input : option Z) : option string * Combat.t * gmap loc Item.t :=
  let player := Combat.player s in
  let usable_items :=
    filter (fun item => Item.item_type (h !!! item) = SPECIAL)
           (Character.inventory player) in
  match usable_items with
  | [] => (Some "사용할 수 있는 아이템이 없습니다!", s, h)
  | _ =>
      match input with
      | None => (Some "올바른 번호를 입력하세요.", s, h)
      | Some choice =>
          if choice =? 0 then (Some "", s, h)
          else
            match menu_entry usable_items choice with
            | Some item =>
                if bool_decide (Item.name (h !!! item) = "회복약") then
                  let player := Character.heal player 50 in
                  let player :=
                    Character.set_inventory player
                      (list_remove item (Character.inventory player)) in
                  let player := Character.set_turn_action_taken player true in
                  (Some (Colors.GREEN ++ "체력을 50 회복했습니다!" ++ Colors.RESET),
                   Combat.set_player s player, h)
                else if bool_decide (Item.name (h !!! item) = "독약") then
                  match Character.equipped_weapon player with
                  | Some _ =>
                      let player :=
                        Character.set_buffs player
                          (Character.buffs player ++ [Buff.mk "poison" 3 10]) in
                      let player :=
                        Character.set_inventory player
                          (list_remove item (Character.inventory player)) in
                      let player :=
                        Character.set_turn_action_taken player true in
                      (Some (Colors.MAGENTA ++ "무기에 독을 발랐습니다!"
                             ++ Colors.RESET),
                       Combat.set_player s player, h)
                  | None => (Some "무기가 없어 독을 바를 수 없습니다!", s, h)
                  end
                else (Some "전투 중에는 사용할 수 없습니다!", s, h)
            | None => (None, s, h)
            end
      end
  end.

(** What one call of [combat_turn] reads and draws: the menu choice (after
    [strip()]), the number typed in the skill or item menu, and the draws
    of the action and of the enemy's turn. *)
Record TurnInput := mk_input {
  choice : string;
  number : option Z;
  hit_roll : Z;
  dmg_roll : Z;
  ambush_roll : Z;
  dodge_roll : Z;
  pick : nat;
  offset : Z
}.

(** [Game.combat_turn], on the session [self.current_combat]. *)
Definition combat_turn (s : Combat.t) (h : gmap loc Item.t) (i : TurnInput)
  : Combat.t * gmap loc Item.t :=
  let finish (s : Combat.t) (h : gmap loc Item.t) :=
    let '(end_result, s) := Combat.check_combat_end s in
    match end_result with
    | Some _ => (Combat.set_is_active s false, h)
    | None => (s, h)
    end in
  if Character.turn_action_taken (Combat.player s) then
    let '(_, s, h) := Combat.enemy_turn s h (dodge_roll i) (pick i) (offset i) in
    finish (Combat.end_turn s) h
  else if bool_decide (choice i = "1") then
    let '(_, s, h) := Combat.player_attack s h (hit_roll i) (dmg_roll i) in
    finish s h
  else if bool_decide (choice i = "2") then
    let '(_, s, h) := Combat.player_dodge s h in finish s h
  else if bool_decide (choice i = "3") then
    let '(_, s, h) := Combat.player_defend s h in finish s h
  else if bool_decide (choice i = "4") then
    let '(_, s, h) := Combat.player_ambush s h (ambush_roll i) in finish s h
  else if bool_decide (choice i = "5") then
    let '(_, s, h) := skill_menu_combat s h (number i) in finish s h
  else if bool_decide (choice i = "6") then
    let '(_, s, h) := combat_item_use s h (number i) in finish s h
  else (s, h).

(** The loop [while self.current_combat.is_active: self.combat_turn()],
    fed with the inputs of the successive turns; it stops early when the
    inputs run out. *)
Fixpoint combat_loop (s : Combat.t) (h : gmap loc Item.t)
    (inputs : list TurnInput) : Combat.t * gmap loc Item.t :=
  if Combat.is_active s then
    match inputs with
    | [] => (s, h)
    | i :: inputs' =>
        let '(s, h) := combat_turn s h i in combat_loop s h inputs'
    end
  else (s, h).

(** The opening of [Game.start_combat], up to the loop: the session is
    created, a hired mercenary takes a fifth of the enemy's health (once),
    and the first trap buff, when [trap_roll] is at most its value, takes
    30 more and is used up.  Returns the session and the flags. *)
Definition open_combat (player : Character.t) (enemy : Enemy.t)
    (game_flags : gmap string bool) (trap_roll : Z)
  : Combat.t * gmap string bool :=
  let player := Character.set_in_combat player true in
  let set_health (e : Enemy.t) (v : Z) :=
    Enemy.mk (Enemy.name e) (Enemy.max_health e) v (Enemy.attack e)
      (Enemy.defense e) (Enemy.experience_reward e) (Enemy.loot e)
      (Enemy.combat_patterns e) (Enemy.rage_mode e) (Enemy.stance e) in
  let '(enemy, game_flags) :=
    if default false (game_flags !! "용병_고용")
    then (set_health enemy (trunc_mul (Enemy.health enemy) 4 5),
          <["용병_고용" := false]> game_flags)
    else (enemy, game_flags) in
  let trap_buff :=
    head (filter (fun buff => Buff.type buff = "trap") (Character.buffs player)) in
  let '(player, enemy) :=
    match trap_buff with
    | Some buff =>
        if trap_roll <=? Buff.value buff
        then (Character.set_buffs player
                (list_remove buff (Character.buffs player)),
              set_health enemy (Enemy.health enemy - 30))
        else (player, enemy)
    | None => (player, enemy)
    end in
  (Combat.init player enemy, game_flags).


(** [Game.shop_menu].  [items_database] gives the object stored under
    each name by [_create_items]; the stock lists name, database item and
    price. *)
Definition shop_items (items_database : string -> loc)
    : list (string * (loc * Z)) :=
  [ ("포도청 검", (items_database "포도청 검", 200));
    ("가죽 갑옷", (items_database "가죽 갑옷", 150));
    ("회복약", (items_database "회복약", 50));
    ("철갑옷", (items_database "철갑옷", 500)) ].

(** One pass of the loop for an input other than 0: [None] is an input
    [int] rejects.  A purchase creates a new item object from the current
    fields of the database item. *)
Definition shop_purchase (items_database : string -> loc)
    (player : Character.t) (merchant : NPC.t) (h : gmap loc Item.t)
    (input : option Z) : Character.t * NPC.t * gmap loc Item.t :=
  match input with
  | None => (player, merchant, h)
  | Some choice =>
      match menu_entry (shop_items items_database) choice with
      | Some (name, (item, price)) =>
          if Character.money player >=? price then
            let player :=
              Character.set_money player (Character.money player - price) in
            let '(new, h) :=
              new_item h
                (Item.init (Item.name (h !!! item))
                   (Item.item_type (h !!! item))
                   (Item.description (h !!! item)) (Item.power (h !!! item))
                   (Item.defense (h !!! item))
                   (Item.special_effect (h !!! item))) in
            let player := Character.add_item player new in
            (player, NPC.adjust_trust merchant 5, h)
          else (player, merchant, h)
      | None => (player, merchant, h)
      end
  end.

(** The loop: it runs until 0 is typed; the result is the state reached
    when the inputs given are used up or 0 has been read. *)
Fixpoint shop_menu (items_database : string -> loc)
    (player : Character.t) (merchant : NPC.t) (h : gmap loc Item.t)
    (inputs : list (option Z)) : Character.t * NPC.t * gmap loc Item.t :=
  match inputs with
  | [] => (player, merchant, h)
  | input :: inputs =>
      if bool_decide (input = Some 0) then (player, merchant, h)
      else
        let '(player, merchant, h) :=
          shop_purchase items_database player merchant h input in
        shop_menu items_database player merchant h inputs
  end.

End Game.

(** * Vocabulary of the properties *)



Ltac case_leb :=
  repeat match goal with
  | |- context [?a <=? ?b] => destruct (Z.leb_spec a b)
  | |- context [?a <? ?b] => destruct (Z.ltb_spec a b)
  | |- context [?a >=? ?b] => rewrite (Z.geb_leb a b)
  | |- context [?a >? ?b] => rewrite (Z.gtb_ltb a b)
  end.



(** The calls of the resource-pool methods. *)
Inductive resource_call :=
| Heal (amount : Z)
| UseStamina (amount : Z)
| UseFocus (amount : Z)
| Rest.

Definition run_call (c : Character.t) (op : resource_call) : Character.t :=
  match op with
  | Heal amount => Character.heal c amount
  | UseStamina amount => fst (Character.use_stamina c amount)
  | UseFocus amount => fst (Character.use_focus c amount)
  | Rest => Character.rest c
  end.

Definition nonneg_call (op : resource_call) : Prop :=
  match op with
  | Heal amount | UseStamina amount | UseFocus amount => 0 <= amount
  | Rest => True
  end.

Definition pools_in_range (c : Character.t) : Prop :=
  0 <= Character.health c <= Character.max_health c
  /\ 0 <= Character.stamina c <= Character.max_stamina c
  /\ 0 <= Character.focus c <= Character.max_focus c.

(** The sum of the magnitudes of the buffs of one kind. *)
Fixpoint buff_sum (kind : string) (bs : list Buff.t) : Z :=
  match bs with
  | [] => 0
  | b :: bs' =>
      (if bool_decide (Buff.type b = kind) then Buff.value b else 0)
      + buff_sum kind bs'
  end.

(** [bs'] has the entries of [bs], kind by kind, the dodge buffs with
    magnitudes at least as large. *)
Definition buffs_le (bs bs' : list Buff.t) : Prop :=
  Forall2 (fun b b' =>
             Buff.type b = Buff.type b'
             /\ (Buff.type b = "dodge" -> Buff.value b <= Buff.value b'))
          bs bs'.

(** The character after an advancement to [next]. *)
Definition promoted (c : Character.t) (next : JobPath) : Character.t :=
  Character.mk (Character.name c) (Character.origin c) next
    (Character.faction_affinity c)
    (Character.max_health c + 20) (Character.health c)
    (Character.max_stamina c + 20) (Character.stamina c)
    (Character.max_focus c + 20) (Character.focus c)
    (Character.defense c) (Character.sanity c)
    (Character.base_attack c + 5) (Character.base_defense c + 5)
    (Character.inventory c) (Character.equipped_weapon c)
    (Character.equipped_armor c) (Character.skills c) (Character.money c)
    (Character.experience c) (Character.level c) (Character.in_combat c)
    (Character.turn_action_taken c) (Character.is_cursed c)
    (Character.nightmares c) (Character.buffs c) (Character.debuffs c).

(** The position of a job in the fixed order. *)
Definition stage (j : JobPath) : Z := list_index j JobPath_members.

(** C10, as stated, for the weapon slot: an item that becomes the equipped
    weapon is a member of the inventory. *)
Definition equips_only_owned (c : Character.t) (h : gmap loc Item.t)
    (item : loc) : Prop :=
  Character.equipped_weapon (Character.equip_weapon c h item) = Some item ->
  Character.equipped_weapon c <> Some item ->
  item ∈ Character.inventory c.

(** The loop condition [self.experience >= self.level * 100]. *)
Definition can_level_up (c : Character.t) : Prop :=
  Character.level c * 100 <= Character.experience c.

(** [n] executions of the loop body. *)
Fixpoint level_ups (n : nat) (c : Character.t) : Character.t :=
  match n with
  | O => c
  | S n' => level_ups n' (Character.level_up c)
  end.

(** The thresholds paid by [k] level-ups from level [l]. *)
Definition thresholds (l : Z) (k : nat) : Z :=
  100 * Z.of_nat k * l + 50 * Z.of_nat k * (Z.of_nat k - 1).

(** The player actions that have a stamina or focus cost checked before
    they resolve, with the values drawn for them. *)
Inductive costly_action :=
| Attack (hit_roll dmg_roll : Z)
| Dodge
| Ambush (roll : Z)
| UseSkill (skill : Skill.t).

Definition submit (a : costly_action) (s : Combat.t) (h : gmap loc Item.t)
  : Combat.result :=
  match a with
  | Attack hit_roll dmg_roll => Combat.player_attack s h hit_roll dmg_roll
  | Dodge => Combat.player_dodge s h
  | Ambush roll => Combat.player_ambush s h roll
  | UseSkill skill => Combat.player_use_skill s h skill
  end.

(** The stamina each action asks for. *)
Definition stamina_needed (a : costly_action) : Z :=
  match a with
  | Attack _ _ => 10
  | Dodge => 15
  | Ambush _ => 20
  | UseSkill skill => Skill.stamina_cost skill
  end.

(** The focus each action asks for ([None]: no focus cost). *)
Definition focus_needed (a : costly_action) : option Z :=
  match a with
  | Attack _ _ | Dodge => None
  | Ambush _ => Some 20
  | UseSkill skill => Some (Skill.focus_cost skill)
  end.

(** The text returned on a failed resource check. *)
Definition shortage_text (a : costly_action) : string :=
  match a with
  | Attack _ _ | Dodge => "기력이 부족합니다!"
  | Ambush _ => "기력이나 집중도가 부족합니다!"
  | UseSkill skill =>
      Skill.name skill ++ " 사용에 필요한 기력이나 집중도가 부족합니다!"
  end.

(** What the session remembers as the player's last action. *)
Definition remembered (a : costly_action) (before : option string)
  : option string :=
  match a with
  | Attack _ _ => Some "attack"
  | Dodge => Some "dodge"
  | Ambush _ | UseSkill _ => before
  end.

(** C1, as stated, at one input: a rejected action reports the shortage,
    consumes neither stamina nor focus and leaves [turn_action_taken]
    false. *)
Definition rejected_without_cost (a : costly_action) (s : Combat.t)
    (h : gmap loc Item.t) : Prop :=
  Character.turn_action_taken (Combat.player s) = false ->
  Character.stamina (Combat.player s) < stamina_needed a ->
  let '(text, s', _) := submit a s h in
  text = shortage_text a
  /\ Character.stamina (Combat.player s') = Character.stamina (Combat.player s)
  /\ Character.focus (Combat.player s') = Character.focus (Combat.player s)
  /\ Character.turn_action_taken (Combat.player s') = false.

(** One round of ageing of a list of status effects: every counter goes
    down by one and the entries that reach 0 leave. *)
Definition ticked (effects : list Buff.t) : list Buff.t :=
  filter (fun b => 0 < Buff.turns b) (map Combat.tick effects).

(** [k] rounds of ageing at once. *)
Definition aged (k : nat) (effects : list Buff.t) : list Buff.t :=
  map (fun b => Buff.mk (Buff.type b) (Buff.turns b - Z.of_nat k) (Buff.value b))
      (filter (fun b => Z.of_nat k < Buff.turns b) effects).

(** The five player actions of a round. *)
Inductive round_action :=
| Costly (a : costly_action)
| Defend.

Definition perform (a : round_action) (s : Combat.t) (h : gmap loc Item.t)
  : Combat.result :=
  match a with
  | Costly a => submit a s h
  | Defend => Combat.player_defend s h
  end.

(** The calls made on a session during an encounter. *)
Inductive step :=
| Act (a : round_action)
| EnemyTurn (dodge_roll : Z) (pick : nat) (offset : Z)
| EndTurn.

Definition run_step (st : Combat.t * gmap loc Item.t) (x : step)
  : Combat.t * gmap loc Item.t :=
  match x with
  | Act a => let '(_, s, h) := perform a (fst st) (snd st) in (s, h)
  | EnemyTurn dodge_roll pick offset =>
      let '(_, s, h) := Combat.enemy_turn (fst st) (snd st) dodge_roll pick offset in
      (s, h)
  | EndTurn => (Combat.end_turn (fst st), snd st)
  end.

Definition run_steps (st : Combat.t * gmap loc Item.t) (xs : list step)
  : Combat.t * gmap loc Item.t :=
  fold_left run_step xs st.

(** The costs of a skill are not negative. *)
Definition sane_step (x : step) : Prop :=
  match x with
  | Act (Costly (UseSkill skill)) =>
      0 <= Skill.stamina_cost skill /\ 0 <= Skill.focus_cost skill
  | _ => True
  end.



(** How an enemy [e'] later in an encounter relates to the enemy [e]
    earlier in it. *)
Definition enemy_later (e e' : Enemy.t) : Prop :=
  Enemy.name e' = Enemy.name e
  /\ Enemy.max_health e' = Enemy.max_health e
  /\ Enemy.experience_reward e' = Enemy.experience_reward e
  /\ Enemy.loot e' = Enemy.loot e
  /\ Enemy.combat_patterns e' = Enemy.combat_patterns e
  /\ Enemy.health e' <= Enemy.health e
  /\ Enemy.defense e <= Enemy.defense e'
  /\ ((Enemy.rage_mode e' = Enemy.rage_mode e
       /\ Enemy.attack e' = Enemy.attack e)
      \/ (Enemy.rage_mode e = false /\ Enemy.rage_mode e' = true
          /\ Enemy.attack e' = trunc_mul (Enemy.attack e) 3 2))
  /\ (Enemy.stance e' = Enemy.stance e \/ Enemy.stance e' = "defensive").

(** The equipment slots refer to inventory items of the right category. *)
Definition gear_owned (p : Character.t) (h : gmap loc Item.t) : Prop :=
  (forall w : loc,
      Character.equipped_weapon p = Some w ->
      w ∈ Character.inventory p /\ Item.item_type (h !!! w) = WEAPON)
  /\ (forall a : loc,
         Character.equipped_armor p = Some a ->
         a ∈ Character.inventory p /\ Item.item_type (h !!! a) = ARMOR).

(** No item changes category from the store [h] to the store [h']. *)
Definition same_types (h h' : gmap loc Item.t) : Prop :=
  forall l : loc, Item.item_type (h' !!! l) = Item.item_type (h !!! l).

(** From [(p, h)] to [(p', h')] the slots are kept, no item changes
    category, and only consumables leave the inventory. *)
Definition gear_kept (p : Character.t) (h : gmap loc Item.t)
    (p' : Character.t) (h' : gmap loc Item.t) : Prop :=
  Character.equipped_weapon p' = Character.equipped_weapon p
  /\ Character.equipped_armor p' = Character.equipped_armor p
  /\ same_types h h'
  /\ (forall l : loc,
         l ∈ Character.inventory p ->
         Item.item_type (h !!! l) <> SPECIAL ->
         l ∈ Character.inventory p').

(** The inventory operations of the menus, with what the player types and
    the rolls drawn; [PickUp] is [Character.add_item]. *)
Inductive menu_op :=
| EquipItem (input : option Z)
| EnhanceItem (input : option Z) (roll roll2 : Z)
| DropItem (input : option Z) (confirm : string)
| UseItem (input : option Z)
| PickUp (item : loc).

(** The player, the item store and the items lying at the current
    location. *)
Definition world : Type := Character.t * gmap loc Item.t * list loc.

Definition run_menu_op (w : world) (op : menu_op) : world :=
  let '(p, h, ground) := w in
  match op with
  | EquipItem input => (Game.equip_item p h input, h, ground)
  | EnhanceItem input roll roll2 =>
      let '(p, h) := Game.enhance_item p h input roll roll2 in (p, h, ground)
  | DropItem input confirm =>
      let '(p, ground) := Game.drop_item p ground input confirm in
      (p, h, ground)
  | UseItem input => (Game.use_item p h input, h, ground)
  | PickUp item => (Character.add_item p item, h, ground)
  end.





(** The actions [enemy_turn] knows. *)
Definition known_actions : list string :=
  ["attack"; "strong_attack"; "feint"; "defend"; "taunt"].

(** [pick] is an index [random.choice] can draw for the enemy [e]: below
    3 in rage mode, below the size of the action pool otherwise. *)
Definition pick_in_range (e : Enemy.t) (pick : nat) : Prop :=
  if Enemy.rage_mode e then (pick < 3)%nat
  else Enemy.combat_patterns e = [] \/ (pick < length (Enemy.combat_patterns e))%nat.

(** The objects a character refers to: the inventory, then the slots. *)
Definition item_refs (c : Character.t) : list loc :=
  (Character.inventory c ++ option_list (Character.equipped_weapon c)
     ++ option_list (Character.equipped_armor c))%list.

(** [c] with its item references replaced and the two combat flags as
    [__init__] sets them. *)
Definition reloaded (c : Character.t) (inv : list loc) (w a : option loc)
    : Character.t :=
  Character.mk (Character.name c) (Character.origin c) (Character.job c)
    (Character.faction_affinity c) (Character.max_health c)
    (Character.health c) (Character.max_stamina c) (Character.stamina c)
    (Character.max_focus c) (Character.focus c) (Character.defense c)
    (Character.sanity c) (Character.base_attack c) (Character.base_defense c)
    inv w a (Character.skills c) (Character.money c) (Character.experience c)
    (Character.level c) false false (Character.is_cursed c)
    (Character.nightmares c) (Character.buffs c) (Character.debuffs c).

(** What [Character.to_dict] writes for an equipment slot. *)
Definition slot_val (h : gmap loc Item.t) (slot : option loc) : PyVal :=
  match slot with
  | Some item => Character.item_val h item
  | None => PNone
  end.

(** The fields of the objects [ls] refers to in the store [h]. *)
Definition contents (h : gmap loc Item.t) (ls : list loc) : list Item.t :=
  (fun l => h !!! l) <$> ls.

(** The NPC after the calls [adjust_trust(a)] for [a] in [amounts]. *)
Definition adjust_trusts (n : NPC.t) (amounts : list Z) : NPC.t :=
  fold_left NPC.adjust_trust amounts n.

(** The location after the calls [connect_location(x)] for [x] in
    [names]. *)
Definition connect_locations (l : Location.t) (names : list string)
    : Location.t :=
  fold_left Location.connect_location names l.

(** An item as [Item.__init__] leaves it. *)
Definition brand_new (i : Item.t) : Prop :=
  Item.enhancement_level i = 0 /\ Item.durability i = 100.

(** The copy of the object at [item] that the shop sells. *)
Definition shop_copy (h : gmap loc Item.t) (item : loc) : Item.t :=
  Item.init (Item.name (h !!! item)) (Item.item_type (h !!! item))
    (Item.description (h !!! item)) (Item.power (h !!! item))
    (Item.defense (h !!! item)) (Item.special_effect (h !!! item)).

(** * Properties *)

(** ** Item enhancement *)





(** ** Enemy rage mode *)








(** ** Character resources *)

Lemma run_call_in_range (c : Character.t) (op : resource_call) :
  nonneg_call op -> pools_in_range c -> pools_in_range (run_call c op).
Proof.
  unfold pools_in_range.
  destruct op as [a|a|a|]; simpl; intros Ha (Hh & Hs & Hf).
  - unfold Character.heal; simpl. lia.
  - unfold Character.use_stamina. case_leb; simpl; lia.
  - unfold Character.use_focus. case_leb; simpl; lia.
  - unfold Character.rest; simpl. lia.
Qed.

(** Health, stamina and focus stay within [0, max] under any sequence of
    [heal]/[use_stamina]/[use_focus]/[rest] calls with non-negative
    amounts. *)
Lemma pools_stay_in_range (ops : list resource_call) (c : Character.t) :
  Forall nonneg_call ops ->
  pools_in_range c ->
  pools_in_range (fold_left run_call ops c).
Proof.
  revert c. induction ops as [|op ops IH]; intros c Hops Hc; [exact Hc|].
  inversion Hops; subst. simpl. apply IH; [assumption|].
  apply run_call_in_range; assumption.
Qed.

(** The taunt branch of [enemy_turn] subtracts 5 from the sanity as it
    is, whatever its value. *)
Lemma taunt_subtracts_five (s : Combat.t) (h : gmap loc Item.t)
    (dodge_roll : Z) (pick : nat) (offset : Z) :
  Enemy.is_alive (Combat.enemy s) = true ->
  Character.get_dodge_chance (Combat.player s) < dodge_roll ->
  Enemy.choose_action (Combat.enemy s) (Combat.player_last_action s) pick
  = "taunt" ->
  Character.sanity (Combat.player (snd (fst (Combat.enemy_turn s h dodge_roll pick offset))))
  = Character.sanity (Combat.player s) - 5.
Proof.
  intros Ha Hd Hact. unfold Combat.enemy_turn.
  rewrite Ha, Hact. simpl negb. cbv iota.
  destruct (Z.leb_spec dodge_roll (Character.get_dodge_chance (Combat.player s)));
    [lia|].
  reflexivity.
Qed.

(** C4. A newly created character (sanity 100) is taunted by the ghost
    enemy, turn after turn: after 20 taunts the sanity is 0, after the
    21st it is -5, outside [0, 100].  The feint branch of the same method
    does floor the focus at 0. *)
Theorem C4_taunt_sanity_below_zero :
  let ghost := Enemy.init "원혼 무리" 100 25 20 80 None
                 (Some ["attack"; "taunt"; "taunt"]) in
  let taunted s := snd (fst (Combat.enemy_turn s ∅ 100 1 0)) in
  let fresh := Combat.init (Character.init "무명" WAR_ORPHAN) ghost in
  let deserter := Enemy.init "탈영병" 60 14 8 25 None
                    (Some ["attack"; "feint"]) in
  let tired := Character.set_focus (Character.init "무명" WAR_ORPHAN) 10 in
  Character.sanity (Combat.player (Nat.iter 20 taunted fresh)) = 0
  /\ Character.sanity (Combat.player (Nat.iter 21 taunted fresh)) = -5
  /\ Character.focus
       (Combat.player
          (snd (fst (Combat.enemy_turn (Combat.init tired deserter) ∅ 100 1 0))))
     = 0.
Proof. vm_compute. repeat split; reflexivity. Qed.

(** ** Armor wear on enemy hits *)

(** Whenever the enemy's action is the strong attack, the item store
    comes back unchanged. *)
Lemma strong_attack_keeps_store (s : Combat.t) (h : gmap loc Item.t)
    (dodge_roll : Z) (pick : nat) (offset : Z) :
  Enemy.choose_action (Combat.enemy s) (Combat.player_last_action s) pick
  = "strong_attack" ->
  snd (Combat.enemy_turn s h dodge_roll pick offset) = h.
Proof.
  intros Hact. unfold Combat.enemy_turn. rewrite Hact.
  destruct (negb _); [reflexivity|].
  destruct (_ <=? _); [reflexivity|].
  reflexivity.
Qed.

(** When the enemy's action is the plain attack and an armor is equipped,
    the armor's durability goes down by 1 and no other item changes. *)
Lemma attack_wears_armor (s : Combat.t) (h : gmap loc Item.t)
    (dodge_roll : Z) (pick : nat) (offset : Z) (a : loc) (it : Item.t) :
  Enemy.is_alive (Combat.enemy s) = true ->
  Character.get_dodge_chance (Combat.player s) < dodge_roll ->
  Enemy.choose_action (Combat.enemy s) (Combat.player_last_action s) pick
  = "attack" ->
  Character.equipped_armor (Combat.player s) = Some a ->
  h !! a = Some it ->
  let h' := snd (Combat.enemy_turn s h dodge_roll pick offset) in
  Item.durability (h' !!! a) = Item.durability it - 1
  /\ (forall b : loc, b <> a -> h' !! b = h !! b).
Proof.
  intros Ha Hd Hact Harm Hit. unfold Combat.enemy_turn.
  rewrite Ha, Hact. simpl negb. cbv iota.
  destruct (Z.leb_spec dodge_roll (Character.get_dodge_chance (Combat.player s)));
    [lia|].
  simpl. rewrite Harm.
  assert (Hw : Item.durability (wear a h !!! a) = Item.durability it - 1).
  { unfold wear. rewrite lookup_total_alter_eq, Hit. reflexivity. }
  destruct (_ <=? _); simpl; (split; [exact Hw|]);
    intros b Hb; unfold wear; apply lookup_alter_ne; congruence.
Qed.

(** C5. A character wearing an armor of durability 100 is hit by the
    wolf's strong attack for 12 damage: the armor's durability is still
    100 afterwards and the text reports no broken armor.  The wolf's
    plain attack (5 damage) on the same character leaves the durability
    at 99. *)
Theorem C5_strong_attack_spares_armor :
  let armor := Item.init "가죽 갑옷" ARMOR "질긴 가죽으로 만든 갑옷." 0 15 "" in
  let h : gmap loc Item.t := {[ 0%nat := armor ]} in
  let p := Character.equip_armor
             (Character.add_item (Character.init "무명" BANDIT_OUTCAST) 0%nat)
             h 0%nat in
  let wolf := Enemy.init "굶주린 늑대" 40 15 3 15 None
                (Some ["attack"; "attack"; "strong_attack"]) in
  let '(text1, s1, h1) := Combat.enemy_turn (Combat.init p wolf) h 100 2 0 in
  let '(text2, s2, h2) := Combat.enemy_turn (Combat.init p wolf) h 100 0 0 in
  Character.equipped_armor p = Some 0%nat
  /\ Character.health (Combat.player s1) = 100 - 12
  /\ Item.durability (h1 !!! 0%nat) = 100
  /\ text1 = "굶주린 늑대의 강공격! 12의 큰 피해를 받았습니다!"
  /\ Character.health (Combat.player s2) = 100 - 5
  /\ Item.durability (h2 !!! 0%nat) = 99.
Proof. vm_compute. repeat split; reflexivity. Qed.

(** ** Damage taken and the derived defense *)

Lemma add_buffs_sum (kind : string) (bs : list Buff.t) (acc : Z) :
  Character.add_buffs kind bs acc = acc + buff_sum kind bs.
Proof.
  unfold Character.add_buffs. revert acc.
  induction bs as [|b bs IH]; intros acc; simpl; [lia|].
  rewrite IH. destruct (bool_decide _); lia.
Qed.

Lemma buff_sum_app (kind : string) (bs1 bs2 : list Buff.t) :
  buff_sum kind (bs1 ++ bs2) = buff_sum kind bs1 + buff_sum kind bs2.
Proof. induction bs1 as [|b bs1 IH]; simpl; lia. Qed.

Lemma defend_effect (s : Combat.t) (h : gmap loc Item.t) :
  Character.turn_action_taken (Combat.player s) = false ->
  let p' := Combat.player (snd (fst (Combat.player_defend s h))) in
  Character.buffs p'
  = (Character.buffs (Combat.player s) ++ [Buff.mk "defense" 1 15])%list
  /\ Character.defense p' = Character.defense (Combat.player s)
  /\ Character.health p' = Character.health (Combat.player s)
  /\ Character.base_defense p' = Character.base_defense (Combat.player s)
  /\ Character.equipped_armor p' = Character.equipped_armor (Combat.player s).
Proof.
  intros Ht. unfold Combat.player_defend. rewrite Ht. simpl. auto.
Qed.

(** C6. [take_damage] subtracts exactly [max(0, amount - defense)] from
    the health, with [defense] the character's scalar field: replacing
    the buff list and the equipped armor by any others leaves the damage
    taken the same.  Those do change the derived [get_total_defense]:
    it is the base defense plus the equipped armor's defense plus the
    defense buffs, and the [defend] action raises it by 15, while the
    damage taken after [defend] is what it was before. *)
Theorem C6_take_damage_uses_scalar_defense (c : Character.t)
    (h : gmap loc Item.t) (amount : Z) :
  let dmg := Z.max 0 (amount - Character.defense c) in
  Character.take_damage c amount
  = (Character.set_health c (Character.health c - dmg), dmg)
  /\ (forall (bs : list Buff.t) (armor : option loc),
         let c' := Character.set_buffs
                     (Character.set_equipped_armor c armor) bs in
         snd (Character.take_damage c' amount) = dmg
         /\ Character.health (fst (Character.take_damage c' amount))
            = Character.health c - dmg)
  /\ Character.get_total_defense c h
     = Character.base_defense c
       + match Character.equipped_armor c with
         | Some a => Item.defense (h !!! a)
         | None => 0
         end
       + buff_sum "defense" (Character.buffs c)
  /\ (forall s : Combat.t,
         Combat.player s = c ->
         Character.turn_action_taken c = false ->
         let c' := Combat.player (snd (fst (Combat.player_defend s h))) in
         Character.get_total_defense c' h
         = Character.get_total_defense c h + 15
         /\ snd (Character.take_damage c' amount) = dmg
         /\ Character.health (fst (Character.take_damage c' amount))
            = Character.health c - dmg).
Proof.
  intros dmg. split; [reflexivity|]. split; [intros bs armor; split; reflexivity|].
  split.
  - unfold Character.get_total_defense. rewrite add_buffs_sum. reflexivity.
  - intros s Hs Ht c'. subst c.
    destruct (defend_effect s h Ht) as (Hb & Hd & Hh & Hbd & Ha).
    fold c' in Hb, Hd, Hh, Hbd, Ha.
    unfold Character.get_total_defense, Character.take_damage. simpl.
    rewrite !add_buffs_sum, Hb, Hd, Hh, Hbd, Ha, buff_sum_app. simpl.
    subst dmg. repeat split; lia.
Qed.

Lemma C6_take_damage_uses_scalar_defense_witness :
  let armor := Item.init "철갑옷" ARMOR "두꺼운 철로 만든 갑옷." 0 30 "" in
  let h : gmap loc Item.t := {[ 0%nat := armor ]} in
  let c := Character.equip_armor
             (Character.add_item (Character.init "무명" FALLEN_NOBLE) 0%nat)
             h 0%nat in
  let c' := Combat.player
              (snd (fst (Combat.player_defend
                           (Combat.init c (Enemy.init "포졸" 80 30 5 40 None None))
                           h))) in
  Character.get_total_defense c h = 42
  /\ Character.get_total_defense c' h = 42 + 15
  /\ snd (Character.take_damage c' 30) = 20.
Proof.
  intros armor h c c'.
  pose proof (C6_take_damage_uses_scalar_defense c h 30) as (_ & _ & Htot & Hdef).
  specialize (Hdef (Combat.init c (Enemy.init "포졸" 80 30 5 40 None None))
                   eq_refl eq_refl).
  destruct Hdef as (Hd1 & Hd2 & _). subst c'.
  split; [rewrite Htot; vm_compute; reflexivity|].
  split; [rewrite Hd1, Htot; vm_compute; reflexivity|].
  rewrite Hd2. vm_compute. reflexivity.
Defined.

(** ** Dodge chance *)

Lemma buff_sum_mono (bs bs' : list Buff.t) :
  buffs_le bs bs' -> buff_sum "dodge" bs <= buff_sum "dodge" bs'.
Proof.
  induction 1 as [|b b' bs bs' [Ht Hv] _ IH]; simpl; [lia|].
  rewrite <- Ht.
  destruct (bool_decide_reflect (Buff.type b = "dodge")) as [Hd|_];
    [specialize (Hv Hd)|]; lia.
Qed.

Lemma dodge_chance_formula (c : Character.t) :
  Character.get_dodge_chance c
  = Z.min (10 + Character.focus c / 20 + buff_sum "dodge" (Character.buffs c)) 75.
Proof. unfold Character.get_dodge_chance. rewrite add_buffs_sum. reflexivity. Qed.

(** C9. The dodge chance is [min(10 + floor(focus / 20) + sum of the
    magnitudes of the dodge buffs, 75)]; it never exceeds 75, and it does
    not decrease when the focus grows, when the magnitudes of the buffs
    grow, or when a dodge buff of non-negative magnitude is added. *)
Theorem C9_dodge_chance (c : Character.t) :
  Character.get_dodge_chance c
  = Z.min (10 + Character.focus c / 20 + buff_sum "dodge" (Character.buffs c)) 75
  /\ Character.get_dodge_chance c <= 75
  /\ (forall focus' : Z,
         Character.focus c <= focus' ->
         Character.get_dodge_chance c
         <= Character.get_dodge_chance (Character.set_focus c focus'))
  /\ (forall bs' : list Buff.t,
         buffs_le (Character.buffs c) bs' ->
         Character.get_dodge_chance c
         <= Character.get_dodge_chance (Character.set_buffs c bs'))
  /\ (forall (turns value : Z),
         0 <= value ->
         Character.get_dodge_chance c
         <= Character.get_dodge_chance
              (Character.set_buffs c
                 (Character.buffs c ++ [Buff.mk "dodge" turns value]))).
Proof.
  rewrite !dodge_chance_formula. split; [reflexivity|]. split; [lia|].
  split; [|split].
  - intros focus' Hf. rewrite dodge_chance_formula. simpl.
    pose proof (Z.div_le_mono (Character.focus c) focus' 20 ltac:(lia) Hf).
    lia.
  - intros bs' Hle. rewrite dodge_chance_formula. simpl.
    pose proof (buff_sum_mono _ _ Hle). lia.
  - intros turns value Hv. rewrite dodge_chance_formula. simpl.
    rewrite buff_sum_app. simpl. lia.
Qed.

Lemma C9_dodge_chance_witness :
  let c := Character.set_buffs (Character.init "무명" WAR_ORPHAN)
             [Buff.mk "dodge" 2 30; Buff.mk "defense" 1 15] in
  Character.get_dodge_chance c = 45
  /\ Character.get_dodge_chance (Character.set_focus c 39) = 41
  /\ 41 <= Character.get_dodge_chance (Character.set_focus c 100).
Proof.
  intros c.
  pose proof (C9_dodge_chance (Character.set_focus c 39)) as (Hf & _ & Hm & _).
  split; [vm_compute; reflexivity|].
  split; [rewrite Hf; vm_compute; reflexivity|].
  assert (H : Character.focus (Character.set_focus c 39) <= 100)
    by (vm_compute; discriminate).
  specialize (Hm 100 H). rewrite Hf in Hm. exact Hm.
Defined.

(** ** Job advancement *)

Lemma job_progression_next (j next : JobPath) :
  Character.job_progression j = Some next <->
  JobPath_members !! Z.to_nat (stage j + 1) = Some next.
Proof. destruct j, next; vm_compute; split; congruence. Qed.

Lemma job_progression_last (j : JobPath) :
  Character.job_progression j = None <-> j = SWORD_DEMON.
Proof. destruct j; simpl; split; congruence. Qed.

(** C8. [advance_job] advances the job by exactly one stage of the fixed
    five-stage order if and only if a next stage exists and the level is
    at least (stage index + 1) * 5; it then adds 20 to the three maxima
    and 5 to the base attack and defense and changes nothing else, and it
    returns whether it advanced.  A level-5 wanderer becomes a warrior
    apprentice with exactly these bonuses, and a second call at level 5
    does not advance. *)
Theorem C8_advance_job (c : Character.t) :
  (snd (Character.advance_job c) = true <->
   (exists next, JobPath_members !! Z.to_nat (stage (Character.job c) + 1)
                 = Some next)
   /\ (stage (Character.job c) + 1) * 5 <= Character.level c)
  /\ (snd (Character.advance_job c) = true ->
      exists next,
        JobPath_members !! Z.to_nat (stage (Character.job c) + 1) = Some next
        /\ stage next = stage (Character.job c) + 1
        /\ fst (Character.advance_job c) = promoted c next)
  /\ (snd (Character.advance_job c) = false ->
      fst (Character.advance_job c) = c)
  /\ (Character.job c = WANDERER -> Character.level c = 5 ->
      Character.advance_job c = (promoted c WARRIOR_APPRENTICE, true)
      /\ Character.advance_job (promoted c WARRIOR_APPRENTICE)
         = (promoted c WARRIOR_APPRENTICE, false)).
Proof.
  unfold Character.advance_job.
  split; [|split; [|split]].
  - destruct (Character.job_progression (Character.job c)) as [next|] eqn:E.
    + apply job_progression_next in E. fold (stage (Character.job c)).
      rewrite Z.geb_leb.
      destruct (Z.leb_spec ((stage (Character.job c) + 1) * 5)
                           (Character.level c)) as [Hle|Hlt]; simpl.
      * split; [intros _; split; [eauto | lia] | reflexivity].
      * split; [discriminate | intros [_ Hle]; lia].
    + simpl. split; [discriminate|]. intros [[next Hn] _].
      apply job_progression_next in Hn. congruence.
  - destruct (Character.job_progression (Character.job c)) as [next|] eqn:E;
      [|discriminate].
    fold (stage (Character.job c)).
    destruct (_ >=? _); [|discriminate]. intros _. exists next.
    split; [apply job_progression_next; exact E|].
    split; [|reflexivity].
    destruct (Character.job c); simpl in E; inversion E; reflexivity.
  - destruct (Character.job_progression (Character.job c)) as [next|];
      [|reflexivity].
    destruct (_ >=? _); [discriminate | reflexivity].
  - intros Hj Hl. rewrite Hj. simpl. rewrite Hl. simpl. split; reflexivity.
Qed.

Lemma C8_advance_job_witness :
  let c := Character.set_level (Character.init "무명" WAR_ORPHAN) 5 in
  fst (Character.advance_job c) = promoted c WARRIOR_APPRENTICE
  /\ snd (Character.advance_job c) = true
  /\ snd (Character.advance_job (fst (Character.advance_job c))) = false
  /\ Character.max_health (fst (Character.advance_job c)) = 120
  /\ Character.base_attack (fst (Character.advance_job c)) = 17.
Proof.
  intros c.
  destruct (C8_advance_job c) as (_ & _ & _ & H).
  destruct (H eq_refl eq_refl) as [H1 H2].
  rewrite H1. simpl fst. rewrite H2. repeat split; reflexivity.
Defined.

(** ** Equipment slots *)

(** A sword lying outside an empty inventory is equipped all the same. *)
Lemma C10_equips_item_outside_inventory :
  let sword := Item.init "녹슨 검" WEAPON "오래된 녹슨 검이다." 10 0 "" in
  let h : gmap loc Item.t := {[ 7%nat := sword ]} in
  ~ equips_only_owned (Character.init "무명" WAR_ORPHAN) h 7%nat.
Proof.
  intros sword h Hclaim.
  assert (Hin : 7%nat ∈ Character.inventory (Character.init "무명" WAR_ORPHAN)).
  { apply Hclaim; [reflexivity | discriminate]. }
  simpl in Hin. inversion Hin.
Qed.

(** C10 (amended). Equipping a weapon or an armor fills the slot exactly
    when the item is of the matching category and has durability above 0,
    whether or not it is in the inventory; otherwise the character is
    unchanged.  On success only the slot changes; the item store is only
    read. *)
Theorem C10_equip_guards (c : Character.t) (h : gmap loc Item.t) (item : loc) :
  (Character.equip_weapon c h item
   = if bool_decide (Item.item_type (h !!! item) = WEAPON
                     /\ 0 < Item.durability (h !!! item))
     then Character.set_equipped_weapon c (Some item) else c)
  /\ (Character.equip_armor c h item
      = if bool_decide (Item.item_type (h !!! item) = ARMOR
                        /\ 0 < Item.durability (h !!! item))
        then Character.set_equipped_armor c (Some item) else c)
  /\ Character.equipped_armor (Character.equip_weapon c h item)
     = Character.equipped_armor c
  /\ Character.equipped_weapon (Character.equip_armor c h item)
     = Character.equipped_weapon c
  /\ Character.inventory (Character.equip_weapon c h item)
     = Character.inventory c
  /\ Character.inventory (Character.equip_armor c h item)
     = Character.inventory c.
Proof.
  unfold Character.equip_weapon, Character.equip_armor.
  repeat split;
    repeat match goal with
    | |- context [bool_decide ?P] => destruct (bool_decide_reflect P)
    | |- context [?a >? ?b] =>
        rewrite (Z.gtb_ltb a b); destruct (Z.ltb_spec b a)
    end; simpl; try reflexivity; try tauto; try lia.
Qed.

(** ** Experience and levels *)

Lemma level_ups_S (n : nat) (c : Character.t) :
  level_ups (S n) c = Character.level_up (level_ups n c).
Proof. revert c. induction n as [|n IH]; intros c; [reflexivity|]. simpl in *. apply IH. Qed.

Lemma level_ups_fields (n : nat) (c : Character.t) :
  Character.level (level_ups n c) = Character.level c + Z.of_nat n
  /\ Character.experience (level_ups n c)
     = Character.experience c
       - (100 * Z.of_nat n * Character.level c
          + 50 * Z.of_nat n * (Z.of_nat n - 1))
  /\ Character.max_health (level_ups n c)
     = Character.max_health c + 10 * Z.of_nat n
  /\ Character.max_stamina (level_ups n c)
     = Character.max_stamina c + 10 * Z.of_nat n
  /\ Character.max_focus (level_ups n c)
     = Character.max_focus c + 10 * Z.of_nat n
  /\ Character.base_attack (level_ups n c)
     = Character.base_attack c + 2 * Z.of_nat n
  /\ Character.base_defense (level_ups n c)
     = Character.base_defense c + 2 * Z.of_nat n.
Proof.
  induction n as [|n IH]; [simpl; lia|].
  rewrite level_ups_S. destruct IH as (Hl & He & Hh & Hs & Hf & Ha & Hd).
  unfold Character.level_up; simpl.
  rewrite Hl, He, Hh, Hs, Hf, Ha, Hd. repeat split; lia.
Qed.

(** The loop, given enough fuel, runs the body as long as the condition
    holds. *)
Lemma level_up_loop_runs (n : nat) (c : Character.t) (fuel : nat) :
  (forall i : nat, (i < n)%nat -> can_level_up (level_ups i c)) ->
  ~ can_level_up (level_ups n c) ->
  (n <= fuel)%nat ->
  Character.level_up_loop fuel c = Some (level_ups n c).
Proof.
  revert c fuel. induction n as [|n IH]; intros c fuel Hrun Hstop Hfuel.
  - simpl in Hstop. unfold can_level_up in Hstop.
    destruct fuel; simpl; rewrite Z.geb_leb;
      destruct (Z.leb_spec (Character.level c * 100) (Character.experience c));
      try reflexivity; lia.
  - destruct fuel as [|fuel]; [lia|].
    pose proof (Hrun O ltac:(lia)) as H0. simpl in H0. unfold can_level_up in H0.
    simpl. rewrite Z.geb_leb.
    destruct (Z.leb_spec (Character.level c * 100) (Character.experience c));
      [|lia].
    apply IH; [|exact Hstop|lia].
    intros i Hi. apply (Hrun (S i)). lia.
Qed.

(** From a positive level the loop stops: each round takes at least 100
    off a non-negative experience. *)
Lemma loop_stops_positive (m : nat) (c : Character.t) :
  1 <= Character.level c ->
  Character.experience c < Z.of_nat m ->
  exists n : nat,
    (forall i : nat, (i < n)%nat -> can_level_up (level_ups i c))
    /\ ~ can_level_up (level_ups n c).
Proof.
  revert c. induction m as [|m IH]; intros c Hl He.
  - exists O. split; [lia|]. simpl. unfold can_level_up. lia.
  - destruct (Z_le_gt_dec (Character.level c * 100) (Character.experience c))
      as [Hgo|Hno].
    + destruct (IH (Character.level_up c)) as (n & Hrun & Hstop).
      * unfold Character.level_up; simpl. lia.
      * unfold Character.level_up; simpl. lia.
      * exists (S n). split; [|exact Hstop].
        intros [|i] Hi; [exact Hgo|]. simpl. apply Hrun. lia.
    + exists O. split; [lia|]. simpl. unfold can_level_up. lia.
Qed.

(** From any level the loop stops: below level 1 each round raises the
    level. *)
Lemma loop_stops (c : Character.t) :
  exists n : nat,
    (forall i : nat, (i < n)%nat -> can_level_up (level_ups i c))
    /\ ~ can_level_up (level_ups n c).
Proof.
  remember (Z.to_nat (1 - Character.level c)) as k eqn:Hk.
  revert c Hk. induction k as [|k IH]; intros c Hk.
  - apply (loop_stops_positive (Z.to_nat (Character.experience c + 1)) c); lia.
  - destruct (Z_le_gt_dec (Character.level c * 100) (Character.experience c))
      as [Hgo|Hno].
    + destruct (IH (Character.level_up c)) as (n & Hrun & Hstop).
      * unfold Character.level_up; simpl. lia.
      * exists (S n). split; [|exact Hstop].
        intros [|i] Hi; [exact Hgo|]. simpl. apply Hrun. lia.
    + exists O. split; [lia|]. simpl. unfold can_level_up. lia.
Qed.

(** C7. [gain_experience(amount)] adds [amount] to the experience and then
    runs the level-up body as long as [experience >= level * 100]: the
    call returns (any fuel of at least the number [n] of rounds gives the
    same result), every one of the [n] rounds found the condition true,
    and at the end [experience < level * 100].  The result has [n] more
    levels, 10 n more of each maximum and 2 n more base attack and defense,
    and the experience is down by the [n] thresholds paid.  For a
    character of level at least 1 and non-negative experience, [n] is at
    least any [k] whose thresholds the new experience covers, so a large
    amount gives several level-ups in the one call. *)
Theorem C7_gain_experience (c : Character.t) (amount : Z) :
  0 <= amount ->
  exists (n : nat) (c' : Character.t),
    (forall fuel : nat,
        (n <= fuel)%nat -> Character.gain_experience fuel c amount = Some c')
    /\ c' = level_ups n
              (Character.set_experience c (Character.experience c + amount))
    /\ (forall i : nat,
           (i < n)%nat ->
           can_level_up
             (level_ups i
                (Character.set_experience c (Character.experience c + amount))))
    /\ Character.experience c' < Character.level c' * 100
    /\ Character.level c' = Character.level c + Z.of_nat n
    /\ Character.experience c'
       = Character.experience c + amount - thresholds (Character.level c) n
    /\ Character.max_health c' = Character.max_health c + 10 * Z.of_nat n
    /\ Character.max_stamina c' = Character.max_stamina c + 10 * Z.of_nat n
    /\ Character.max_focus c' = Character.max_focus c + 10 * Z.of_nat n
    /\ Character.base_attack c' = Character.base_attack c + 2 * Z.of_nat n
    /\ Character.base_defense c' = Character.base_defense c + 2 * Z.of_nat n
    /\ (1 <= Character.level c -> 0 <= Character.experience c ->
        forall k : nat,
          thresholds (Character.level c) k <= Character.experience c + amount ->
          (k <= n)%nat).
Proof.
  intros Hamount.
  set (c0 := Character.set_experience c (Character.experience c + amount)).
  destruct (loop_stops c0) as (n & Hrun & Hstop).
  exists n, (level_ups n c0).
  destruct (level_ups_fields n c0) as (Hl & He & Hh & Hs & Hf & Ha & Hd).
  change (Character.level c0) with (Character.level c) in *.
  change (Character.experience c0) with (Character.experience c + amount) in *.
  change (Character.max_health c0) with (Character.max_health c) in *.
  change (Character.max_stamina c0) with (Character.max_stamina c) in *.
  change (Character.max_focus c0) with (Character.max_focus c) in *.
  change (Character.base_attack c0) with (Character.base_attack c) in *.
  change (Character.base_defense c0) with (Character.base_defense c) in *.
  unfold can_level_up in Hstop. unfold thresholds.
  repeat split; try assumption; try lia.
  - intros fuel Hfuel. unfold Character.gain_experience. fold c0.
    apply level_up_loop_runs; assumption.
  - intros Hlevel Hexp k Hk.
    destruct (Nat.le_gt_cases k n) as [|Hgt]; [assumption|exfalso].
    rewrite Hl, He in Hstop.
    assert (Hmono : 100 * Z.of_nat (S n) * Character.level c
                    + 50 * Z.of_nat (S n) * (Z.of_nat (S n) - 1)
                    <= 100 * Z.of_nat k * Character.level c
                       + 50 * Z.of_nat k * (Z.of_nat k - 1)) by nia.
    nia.
Qed.

Lemma C7_gain_experience_witness :
  let c := Character.init "무명" WAR_ORPHAN in
  exists (n : nat) (c' : Character.t),
    (140 <= n)%nat
    /\ (forall fuel : nat,
           (n <= fuel)%nat ->
           Character.gain_experience fuel c 1000000 = Some c')
    /\ Character.experience c' < Character.level c' * 100
    /\ Character.level c' = 1 + Z.of_nat n.
Proof.
  intros c.
  assert (Hamount : 0 <= 1000000) by lia.
  destruct (C7_gain_experience c 1000000 Hamount)
    as (n & c' & Hret & _ & _ & Hexit & Hlevel & _ & _ & _ & _ & _ & _ & Hlow).
  exists n, c'. split.
  - apply Hlow; vm_compute; discriminate.
  - split; [exact Hret|]. split; [exact Hexit | exact Hlevel].
Defined.

(** ** Rejected player actions *)

(** With 5 stamina an attack is rejected, and the turn-action slot is
    taken nevertheless. *)
Lemma C1_rejected_attack_takes_the_turn :
  let p := Character.set_stamina (Character.init "무명" WAR_ORPHAN) 5 in
  let s := Combat.init p (Enemy.init "포졸" 80 30 5 40 None None) in
  ~ rejected_without_cost (Attack 1 0) s ∅.
Proof.
  intros p s Hclaim.
  assert (Hs : Character.stamina (Combat.player s) < stamina_needed (Attack 1 0))
    by (vm_compute; reflexivity).
  specialize (Hclaim eq_refl Hs).
  vm_compute in Hclaim. destruct Hclaim as (_ & _ & _ & Hturn). discriminate.
Qed.

(** C1 (amended). When the player has not acted yet and the stamina is
    below the action's stamina cost, attack, dodge, ambush and use-skill
    return the shortage text and change neither the stamina, the focus,
    any other resource of the player, the enemy nor the item store; but
    the turn-action slot is taken ([turn_action_taken] becomes true), and
    attack and dodge are remembered as the last action. *)
Theorem C1_rejection_on_low_stamina (a : costly_action) (s : Combat.t)
    (h : gmap loc Item.t) :
  Character.turn_action_taken (Combat.player s) = false ->
  Character.stamina (Combat.player s) < stamina_needed a ->
  submit a s h
  = (shortage_text a,
     Combat.set_player_last_action
       (Combat.set_player s
          (Character.set_turn_action_taken (Combat.player s) true))
       (remembered a (Combat.player_last_action s)),
     h).
Proof.
  intros Hturn Hlow.
  destruct a as [hit_roll dmg_roll| |roll|skill]; simpl in Hlow |- *.
  - unfold Combat.player_attack. rewrite Hturn. simpl.
    destruct (Z.ltb_spec (Character.stamina (Combat.player s)) 10); [|lia].
    reflexivity.
  - unfold Combat.player_dodge, Character.use_stamina. rewrite Hturn. simpl.
    rewrite Z.geb_leb.
    destruct (Z.leb_spec 15 (Character.stamina (Combat.player s))); [lia|].
    destruct s; reflexivity.
  - unfold Combat.player_ambush, Combat.pay_costs, Character.use_stamina.
    rewrite Hturn. simpl. rewrite Z.geb_leb.
    destruct (Z.leb_spec 20 (Character.stamina (Combat.player s))); [lia|].
    destruct s; reflexivity.
  - unfold Combat.player_use_skill, Combat.pay_costs, Character.use_stamina.
    rewrite Hturn. simpl. rewrite Z.geb_leb.
    destruct (Z.leb_spec (Skill.stamina_cost skill)
                         (Character.stamina (Combat.player s))); [lia|].
    destruct s; reflexivity.
Qed.

Lemma C1_rejection_on_low_stamina_witness :
  let p := Character.set_stamina (Character.init "무명" WAR_ORPHAN) 12 in
  let s := Combat.init p (Enemy.init "포졸" 80 30 5 40 None None) in
  let '(text, s', _) := Combat.player_dodge s ∅ in
  text = "기력이 부족합니다!"
  /\ Character.stamina (Combat.player s') = 12
  /\ Character.turn_action_taken (Combat.player s') = true.
Proof.
  intros p s.
  assert (Hturn : Character.turn_action_taken (Combat.player s) = false)
    by reflexivity.
  assert (Hlow : Character.stamina (Combat.player s) < stamina_needed Dodge)
    by (vm_compute; reflexivity).
  pose proof (C1_rejection_on_low_stamina Dodge s ∅ Hturn Hlow) as H.
  simpl submit in H. rewrite H. repeat split; reflexivity.
Defined.

(** When the stamina suffices and the focus does not, ambush and use-skill
    return the shortage text after the stamina has been paid: the check
    [not use_stamina(..) or not use_focus(..)] calls [use_focus] only
    once [use_stamina] has succeeded. *)
Lemma low_focus_rejection_pays_stamina (a : costly_action) (s : Combat.t)
    (h : gmap loc Item.t) (cost : Z) :
  focus_needed a = Some cost ->
  Character.turn_action_taken (Combat.player s) = false ->
  stamina_needed a <= Character.stamina (Combat.player s) ->
  Character.focus (Combat.player s) < cost ->
  fst (fst (submit a s h)) = shortage_text a
  /\ Character.stamina (Combat.player (snd (fst (submit a s h))))
     = Character.stamina (Combat.player s) - stamina_needed a
  /\ Character.focus (Combat.player (snd (fst (submit a s h))))
     = Character.focus (Combat.player s).
Proof.
  intros Hcost Hturn Hs Hf.
  destruct a as [hit_roll dmg_roll| |roll|skill]; simpl in Hcost, Hs |- *;
    try discriminate; inversion Hcost; subst cost.
  - unfold Combat.player_ambush, Combat.pay_costs, Character.use_stamina,
      Character.use_focus.
    rewrite Hturn. simpl. rewrite !Z.geb_leb.
    destruct (Z.leb_spec 20 (Character.stamina (Combat.player s))); [|lia].
    simpl. rewrite Z.geb_leb.
    destruct (Z.leb_spec 20 (Character.focus (Combat.player s))); [lia|].
    simpl. auto.
  - unfold Combat.player_use_skill, Combat.pay_costs, Character.use_stamina,
      Character.use_focus.
    rewrite Hturn. simpl. rewrite !Z.geb_leb.
    destruct (Z.leb_spec (Skill.stamina_cost skill)
                         (Character.stamina (Combat.player s))); [|lia].
    simpl. rewrite Z.geb_leb.
    destruct (Z.leb_spec (Skill.focus_cost skill)
                         (Character.focus (Combat.player s))); [lia|].
    simpl. auto.
Qed.


(** ** End of round: status effects *)

Lemma list_remove_first `{EqDecision A} (x : A) (pre post : list A) :
  Forall (fun y => y <> x) pre ->
  list_remove x (pre ++ x :: post) = (pre ++ post)%list.
Proof.
  induction 1 as [|y pre Hy _ IH]; simpl.
  - destruct (decide (x = x)); [reflexivity | congruence].
  - destruct (decide (x = y)); [congruence | f_equal; exact IH].
Qed.

Lemma expire_loop_spec (rest pre : list Buff.t) :
  Forall (fun b => 0 < Buff.turns b) pre ->
  Combat.expire_loop (length rest) (length pre) (pre ++ rest)
  = (pre ++ ticked rest)%list.
Proof.
  revert pre. induction rest as [|b rest IH]; intros pre Hpre.
  - simpl. reflexivity.
  - simpl length. simpl Combat.expire_loop.
    rewrite list_lookup_middle by reflexivity.
    rewrite insert_app_r_alt, Nat.sub_diag by reflexivity. simpl insert.
    unfold ticked. simpl map. rewrite filter_cons.
    change (Buff.turns (Combat.tick b)) with (Buff.turns b - 1).
    destruct (Z.leb_spec (Buff.turns b - 1) 0) as [Hout|Hin].
    + rewrite list_remove_first.
      * rewrite IH by assumption.
        destruct (decide (0 < Buff.turns b - 1)); [lia|reflexivity].
      * eapply Forall_impl; [exact Hpre|]. intros y Hy ->. simpl in Hy. lia.
    + destruct (decide (0 < Buff.turns b - 1)); [|lia].
      specialize (IH (pre ++ [Combat.tick b])%list).
      rewrite length_app, <- !app_assoc in IH. simpl in IH.
      rewrite Nat.add_1_r in IH. rewrite IH; [reflexivity|].
      apply Forall_app. split; [assumption|]. constructor; [assumption|constructor].
Qed.

Lemma expire_ticked (effects : list Buff.t) :
  Combat.expire effects = ticked effects.
Proof. apply (expire_loop_spec effects []). constructor. Qed.

Lemma ticked_aged (k : nat) (effects : list Buff.t) :
  ticked (aged k effects) = aged (S k) effects.
Proof.
  unfold ticked, aged.
  induction effects as [|b bs IH]; [reflexivity|].
  rewrite !filter_cons.
  destruct (decide (Z.of_nat k < Buff.turns b)) as [Hk|Hk];
    destruct (decide (Z.of_nat (S k) < Buff.turns b)) as [Hs|Hs]; try lia.
  - simpl map. rewrite filter_cons. simpl.
    destruct (decide (0 < Buff.turns b - Z.of_nat k - 1)); [|lia].
    rewrite IH. f_equal. unfold Combat.tick. simpl. f_equal. lia.
  - simpl map. rewrite filter_cons. simpl.
    destruct (decide (0 < Buff.turns b - Z.of_nat k - 1)); [lia|].
    exact IH.
  - exact IH.
Qed.

Lemma ticked_app (l1 l2 : list Buff.t) :
  ticked (l1 ++ l2) = (ticked l1 ++ ticked l2)%list.
Proof. unfold ticked. rewrite map_app. apply filter_app. Qed.

(** The in-place loop of [end_turn] (decrement each counter, remove the
    entry from the live list when it reaches 0) comes to this: every buff
    and debuff counter is one lower, exactly the entries whose counter is
    still positive remain, in their order; the turn counter is one higher
    and the turn-action slot is free again; nothing else changes. *)
Theorem end_turn_ages_effects (s : Combat.t) :
  Combat.end_turn s
  = Combat.set_player
      (Combat.set_turn_count s (Combat.turn_count s + 1))
      (Character.set_debuffs
         (Character.set_buffs
            (Character.set_turn_action_taken (Combat.player s) false)
            (ticked (Character.buffs (Combat.player s))))
         (ticked (Character.debuffs (Combat.player s)))).
Proof.
  unfold Combat.end_turn. simpl. rewrite !expire_ticked. reflexivity.
Qed.

Lemma end_turn_buffs (s : Combat.t) :
  Character.buffs (Combat.player (Combat.end_turn s))
  = ticked (Character.buffs (Combat.player s)).
Proof. unfold Combat.end_turn. simpl. rewrite !expire_ticked. reflexivity. Qed.

Lemma ticked_one (effects : list Buff.t) : ticked effects = aged 1 effects.
Proof.
  unfold ticked, aged. change (Z.of_nat 1) with 1.
  induction effects as [|b bs IH]; [reflexivity|].
  rewrite map_cons, !filter_cons.
  change (Buff.turns (Combat.tick b)) with (Buff.turns b - 1).
  destruct (decide (0 < Buff.turns b - 1)); destruct (decide (1 < Buff.turns b));
    try lia.
  - rewrite map_cons. f_equal. exact IH.
  - exact IH.
Qed.

Lemma end_turns_buffs (k : nat) (s : Combat.t) :
  Character.buffs (Combat.player (Nat.iter (S k) Combat.end_turn s))
  = aged (S k) (Character.buffs (Combat.player s)).
Proof.
  induction k as [|k IH].
  - change (Nat.iter 1 Combat.end_turn s) with (Combat.end_turn s).
    rewrite end_turn_buffs. apply ticked_one.
  - change (Nat.iter (S (S k)) Combat.end_turn s)
      with (Combat.end_turn (Nat.iter (S k) Combat.end_turn s)).
    rewrite end_turn_buffs, IH. apply ticked_aged.
Qed.

(** A buff lives as many rounds as its counter says: after [k >= 1] calls
    of [end_turn] the buffs left are those whose counter was above [k],
    with the counter lowered by [k].  So the defense buff of [defend]
    (1 turn) is gone after the round in which it was taken, and the dodge
    buff of [dodge] (2 turns) is there after one [end_turn] and gone after
    the second. *)
Theorem buff_lifetime (s : Combat.t) (h : gmap loc Item.t) (k : nat) :
  Character.turn_action_taken (Combat.player s) = false ->
  15 <= Character.stamina (Combat.player s) ->
  let after_defend := snd (fst (Combat.player_defend s h)) in
  let after_dodge := snd (fst (Combat.player_dodge s h)) in
  Character.buffs (Combat.player (Nat.iter (S k) Combat.end_turn s))
  = aged (S k) (Character.buffs (Combat.player s))
  /\ Character.buffs (Combat.player (Combat.end_turn after_defend))
     = Character.buffs (Combat.player (Combat.end_turn s))
  /\ Character.buffs (Combat.player (Combat.end_turn after_dodge))
     = (Character.buffs (Combat.player (Combat.end_turn s))
        ++ [Buff.mk "dodge" 1 30])%list
  /\ Character.buffs
       (Combat.player (Combat.end_turn (Combat.end_turn after_dodge)))
     = Character.buffs (Combat.player (Combat.end_turn (Combat.end_turn s))).
Proof.
  intros Hturn Hstam after_defend after_dodge.
  split; [apply end_turns_buffs|].
  assert (Hdef : Character.buffs (Combat.player after_defend)
                 = (Character.buffs (Combat.player s)
                    ++ [Buff.mk "defense" 1 15])%list).
  { subst after_defend. unfold Combat.player_defend. rewrite Hturn. reflexivity. }
  assert (Hdod : Character.buffs (Combat.player after_dodge)
                 = (Character.buffs (Combat.player s)
                    ++ [Buff.mk "dodge" 2 30])%list).
  { subst after_dodge. unfold Combat.player_dodge, Character.use_stamina.
    rewrite Hturn. simpl. rewrite Z.geb_leb.
    destruct (Z.leb_spec 15 (Character.stamina (Combat.player s))); [|lia].
    reflexivity. }
  rewrite !end_turn_buffs, Hdef, Hdod, !ticked_app.
  repeat split.
  - unfold ticked at 2. simpl. rewrite app_nil_r. reflexivity.
  - unfold ticked at 4. simpl. rewrite app_nil_r. reflexivity.
Qed.

Lemma buff_lifetime_witness :
  let p := Character.set_buffs (Character.init "무명" WAR_ORPHAN)
             [Buff.mk "attack" 10 20; Buff.mk "defense" 1 15] in
  let s := Combat.init p (Enemy.init "도적" 50 12 5 20 None None) in
  Character.buffs (Combat.player (Nat.iter 3 Combat.end_turn s))
  = [Buff.mk "attack" 7 20]
  /\ Character.buffs
       (Combat.player
          (Combat.end_turn (snd (fst (Combat.player_dodge s ∅)))))
     = [Buff.mk "attack" 9 20; Buff.mk "dodge" 1 30].
Proof.
  intros p s.
  assert (Hturn : Character.turn_action_taken (Combat.player s) = false)
    by reflexivity.
  assert (Hstam : 15 <= Character.stamina (Combat.player s))
    by (vm_compute; discriminate).
  destruct (buff_lifetime s ∅ 2 Hturn Hstam) as (H3 & _ & Hd & _).
  split; [rewrite H3; vm_compute; reflexivity|].
  rewrite Hd. vm_compute. reflexivity.
Defined.

(** ** The round protocol *)

Ltac split_ifs :=
  repeat match goal with
  | |- context [if ?c then _ else _] => destruct c eqn:?
  | |- context [match ?x with Some _ => _ | None => _ end] => destruct x eqn:?
  end.

(** What an action may do to the enemy: nothing, or one [take_damage]. *)
Lemma perform_enemy (a : round_action) (s : Combat.t) (h : gmap loc Item.t) :
  Combat.enemy (snd (fst (perform a s h))) = Combat.enemy s
  \/ exists d : Z,
      Combat.enemy (snd (fst (perform a s h)))
      = fst (Enemy.take_damage (Combat.enemy s) d).
Proof.
  destruct a as [[hit_roll dmg_roll| |roll|skill]|]; simpl.
  - unfold Combat.player_attack.
    destruct (Character.turn_action_taken _); [left; reflexivity|].
    destruct (_ <? _); [left; reflexivity|].
    destruct (_ <=? _); [|left; reflexivity].
    destruct (Enemy.take_damage _ _) as [e ad] eqn:E.
    right. eexists. simpl in E. rewrite E.
    split_ifs; reflexivity.
  - unfold Combat.player_dodge.
    destruct (Character.turn_action_taken _); [left; reflexivity|].
    destruct (Character.use_stamina _ _) as [p ok].
    destruct ok; left; reflexivity.
  - unfold Combat.player_ambush.
    destruct (Character.turn_action_taken _); [left; reflexivity|].
    destruct (Combat.pay_costs _ _ _) as [p lacking].
    destruct lacking; [left; reflexivity|].
    destruct (_ <=? _); [|left; reflexivity].
    destruct (Enemy.take_damage _ _) as [e ad] eqn:E.
    right. eexists. simpl in E. rewrite E. reflexivity.
  - unfold Combat.player_use_skill.
    destruct (Character.turn_action_taken _); [left; reflexivity|].
    destruct (Combat.pay_costs _ _ _) as [p lacking].
    destruct lacking; [left; reflexivity|].
    destruct (Enemy.take_damage _ _) as [e ad] eqn:E.
    right. eexists. simpl in E. rewrite E. reflexivity.
  - unfold Combat.player_defend.
    destruct (Character.turn_action_taken _); left; reflexivity.
Qed.

(** Reduces the field accesses and assignments of sessions and characters,
    and nothing else. *)
Ltac session_fields :=
  cbv beta iota zeta delta
    [fst snd negb
     Combat.player Combat.enemy Combat.turn_count Combat.combat_log
     Combat.is_active Combat.player_last_action Combat.rage_announced
     Combat.set_player Combat.set_enemy Combat.set_player_last_action
     Combat.set_rage_announced Combat.set_turn_count Combat.set_is_active
     Character.name Character.origin Character.job Character.faction_affinity
     Character.max_health Character.health Character.max_stamina
     Character.stamina Character.max_focus Character.focus Character.defense
     Character.sanity Character.base_attack Character.base_defense
     Character.inventory Character.equipped_weapon Character.equipped_armor
     Character.skills Character.money Character.experience Character.level
     Character.in_combat Character.turn_action_taken Character.is_cursed
     Character.nightmares Character.buffs Character.debuffs
     Character.set_job Character.set_max_health Character.set_health
     Character.set_max_stamina Character.set_stamina Character.set_max_focus
     Character.set_focus Character.set_sanity Character.set_base_attack
     Character.set_base_defense Character.set_inventory
     Character.set_equipped_weapon Character.set_equipped_armor
     Character.set_experience Character.set_level
     Character.set_turn_action_taken Character.set_buffs
     Character.set_debuffs Character.set_money Character.set_in_combat].

(** What an action may do to the player: take the turn-action slot, lower
    stamina and focus, and add buffs. *)
Lemma perform_player (a : round_action) (s : Combat.t) (h : gmap loc Item.t) :
  exists (st f : Z) (bs : list Buff.t),
    Combat.player (snd (fst (perform a s h)))
    = Character.set_buffs
        (Character.set_focus
           (Character.set_stamina
              (Character.set_turn_action_taken (Combat.player s) true) st) f) bs
    /\ (sane_step (Act a) -> 0 <= Character.stamina (Combat.player s) ->
        0 <= st <= Character.stamina (Combat.player s))
    /\ (sane_step (Act a) -> 0 <= Character.focus (Combat.player s) ->
        0 <= f <= Character.focus (Combat.player s)).
Proof.
  destruct s as [p e tc log act la ra].
  destruct p as [nm og jb fa mh hp ms sta mf foc df sn ba bd inv ew ea sk mo
                 ex lv ic tat cu ni bu de].
  destruct a as [[hit_roll dmg_roll| |roll|skill]|];
    unfold perform, submit, Combat.player_attack, Combat.player_dodge,
      Combat.player_ambush, Combat.player_use_skill, Combat.player_defend,
      Combat.pay_costs, Character.use_stamina, Character.use_focus, sane_step;
    session_fields; destruct tat; session_fields;
    try (eexists _, _, _; split; [reflexivity|]; split; intros; lia);
    repeat match goal with
    | |- context [?a >=? ?b] => rewrite (Z.geb_leb a b)
    | |- context [sta <? ?b] => destruct (Z.ltb_spec sta b); session_fields
    | |- context [?b <=? sta] => destruct (Z.leb_spec b sta); session_fields
    | |- context [?b <=? foc] => destruct (Z.leb_spec b foc); session_fields
    end;
    repeat match goal with
    | |- context [Enemy.take_damage ?e ?d] =>
        destruct (Enemy.take_damage e d); session_fields
    | |- context [if ?c then _ else _] => destruct c; session_fields
    | |- context [match ?x with Some _ => _ | None => _ end] =>
        destruct x; session_fields
    end;
    eexists _, _, _; (split; [reflexivity|]); split; intros; lia.
Qed.

(** What the enemy's turn may do to the player: lower health, focus and
    sanity. *)
Lemma enemy_turn_player (s : Combat.t) (h : gmap loc Item.t)
    (dodge_roll : Z) (pick : nat) (offset : Z) :
  exists hp f sn : Z,
    Combat.player (snd (fst (Combat.enemy_turn s h dodge_roll pick offset)))
    = Character.set_sanity
        (Character.set_focus (Character.set_health (Combat.player s) hp) f) sn
    /\ hp <= Character.health (Combat.player s)
    /\ (0 <= Character.focus (Combat.player s) ->
        0 <= f <= Character.focus (Combat.player s))
    /\ sn <= Character.sanity (Combat.player s).
Proof.
  destruct s as [p e tc log act la ra].
  destruct p as [nm og jb fa mh hp ms sta mf foc df sn ba bd inv ew ea sk mo
                 ex lv ic tat cu ni bu de].
  unfold Combat.enemy_turn, Character.take_damage.
  session_fields.
  repeat match goal with
  | |- context [if ?c then _ else _] => destruct c; session_fields
  | |- context [match ?x with Some _ => _ | None => _ end] =>
      destruct x; session_fields
  end;
  eexists _, _, _; (split; [reflexivity|]); repeat split; intros; lia.
Qed.

(** What the enemy's turn may do to the enemy: nothing, or raise the
    defense by 5 and take the defensive stance. *)
Lemma enemy_turn_enemy (s : Combat.t) (h : gmap loc Item.t)
    (dodge_roll : Z) (pick : nat) (offset : Z) :
  let e := Combat.enemy s in
  let e' := Combat.enemy
              (snd (fst (Combat.enemy_turn s h dodge_roll pick offset))) in
  e' = e
  \/ e' = Enemy.mk (Enemy.name e) (Enemy.max_health e) (Enemy.health e)
            (Enemy.attack e) (Enemy.defense e + 5) (Enemy.experience_reward e)
            (Enemy.loot e) (Enemy.combat_patterns e) (Enemy.rage_mode e)
            "defensive".
Proof.
  destruct s as [p e tc log act la ra].
  unfold Combat.enemy_turn, Character.take_damage.
  session_fields.
  repeat match goal with
  | |- context [if ?c then _ else _] => destruct c; session_fields
  | |- context [match ?x with Some _ => _ | None => _ end] =>
      destruct x; session_fields
  end; auto.
Qed.

Lemma enemy_later_refl (e : Enemy.t) : enemy_later e e.
Proof. unfold enemy_later. repeat split; auto; lia. Qed.

Lemma enemy_later_trans (e1 e2 e3 : Enemy.t) :
  enemy_later e1 e2 -> enemy_later e2 e3 -> enemy_later e1 e3.
Proof.
  unfold enemy_later.
  intros (N1 & M1 & X1 & L1 & P1 & H1 & D1 & R1 & S1)
         (N2 & M2 & X2 & L2 & P2 & H2 & D2 & R2 & S2).
  repeat split; try congruence; try lia.
  - destruct R1 as [[Ra Rb]|(Ra & Rb & Rc)];
      destruct R2 as [[Rd Re]|(Rd & Re & Rf)].
    + left. split; congruence.
    + right. repeat split; congruence.
    + right. repeat split; congruence.
    + congruence.
  - destruct S1 as [S1|S1]; destruct S2 as [S2|S2];
      try (left; congruence); right; congruence.
Qed.

Lemma take_damage_later (e : Enemy.t) (d : Z) :
  enemy_later e (fst (Enemy.take_damage e d)).
Proof.
  unfold enemy_later, Enemy.take_damage.
  destruct (le_frac _ _ _ _ && negb (Enemy.rage_mode e)) eqn:E; simpl;
    repeat split; auto; try lia.
  right. apply andb_true_iff in E. destruct E as [_ E].
  destruct (Enemy.rage_mode e); [discriminate|]. auto.
Qed.

Lemma run_step_later (st : Combat.t * gmap loc Item.t) (x : step) :
  enemy_later (Combat.enemy (fst st)) (Combat.enemy (fst (run_step st x))).
Proof.
  destruct st as [s h]. destruct x as [a|dodge_roll pick offset|]; simpl.
  - destruct (perform_enemy a s h) as [E|[d E]];
      destruct (perform a s h) as [[text s'] h']; simpl in *; rewrite E.
    + apply enemy_later_refl.
    + apply take_damage_later.
  - pose proof (enemy_turn_enemy s h dodge_roll pick offset) as E.
    destruct (Combat.enemy_turn s h dodge_roll pick offset) as [[text s'] h'].
    simpl in *. destruct E as [E|E]; rewrite E.
    + apply enemy_later_refl.
    + unfold enemy_later. simpl. repeat split; auto; lia.
  - destruct s; apply enemy_later_refl.
Qed.

(** Through a whole encounter (any sequence of player actions, enemy turns
    and ends of turn, whatever the rolls): the enemy's name, maximum
    health, reward, loot and action pool stay as they are; its health
    never rises and its defense never falls; its attack is either the
    original one, with rage mode as it was, or, once rage mode has
    switched on, the original one times 1.5 (truncated): rage mode never
    switches off and the attack is multiplied at most once; and its stance
    is the original one or, for good, the defensive one. *)
Theorem encounter_enemy_later (s : Combat.t) (h : gmap loc Item.t)
    (xs : list step) :
  enemy_later (Combat.enemy s) (Combat.enemy (fst (run_steps (s, h) xs))).
Proof.
  unfold run_steps. revert s h.
  induction xs as [|x xs IH]; intros s h; simpl.
  - apply enemy_later_refl.
  - pose proof (run_step_later (s, h) x) as Hstep.
    destruct (run_step (s, h) x) as [s1 h1]. simpl in Hstep.
    eapply enemy_later_trans; [exact Hstep | apply IH].
Qed.






(** ** One action per round *)

Lemma refused_when_acted (a : round_action) (s : Combat.t)
    (h : gmap loc Item.t) :
  Character.turn_action_taken (Combat.player s) = true ->
  perform a s h = ("이미 이번 턴에 행동했습니다!", s, h).
Proof.
  intros Ht.
  destruct a as [[hit_roll dmg_roll| |roll|skill]|];
    unfold perform, submit, Combat.player_attack, Combat.player_dodge,
      Combat.player_ambush, Combat.player_use_skill, Combat.player_defend;
    rewrite Ht; reflexivity.
Qed.

(** Whatever player action is submitted, and whether it resolves or is
    turned down for lack of resources, the turn-action slot is taken
    afterwards; any action submitted after it is refused with the
    already-acted text and changes neither the session nor the items;
    [end_turn] frees the slot. *)
Theorem one_action_per_round (a1 a2 : round_action) (s : Combat.t)
    (h : gmap loc Item.t) :
  let s1 := snd (fst (perform a1 s h)) in
  let h1 := snd (perform a1 s h) in
  Character.turn_action_taken (Combat.player s1) = true
  /\ perform a2 s1 h1 = ("이미 이번 턴에 행동했습니다!", s1, h1)
  /\ Character.turn_action_taken (Combat.player (Combat.end_turn s1)) = false.
Proof.
  intros s1 h1.
  assert (Ht : Character.turn_action_taken (Combat.player s1) = true).
  { subst s1. destruct (perform_player a1 s h) as (st & f & bs & E & _).
    rewrite E. reflexivity. }
  split; [exact Ht|]. split; [apply refused_when_acted; exact Ht|].
  reflexivity.
Qed.

(** ** Equipment and inventory *)

Lemma menu_entry_elem {A : Type} (seq : list A) (choice : Z) (x : A) :
  Game.menu_entry seq choice = Some x -> x ∈ seq.
Proof.
  unfold Game.menu_entry. destruct (_ && _); [|discriminate].
  intros H. eapply list_elem_of_lookup_2. exact H.
Qed.

Lemma list_remove_keeps `{EqDecision A} (x y : A) (l : list A) :
  y <> x -> y ∈ l -> y ∈ list_remove x l.
Proof.
  intros Hne. induction l as [|z l IH]; simpl; intros Hin; [exact Hin|].
  destruct (decide (x = z)) as [->|Hxz].
  - apply elem_of_cons in Hin. destruct Hin as [->|Hin]; [congruence|exact Hin].
  - apply elem_of_cons in Hin. apply elem_of_cons.
    destruct Hin as [->|Hin]; [left; reflexivity | right; apply IH; exact Hin].
Qed.

Lemma list_remove_subset `{EqDecision A} (x y : A) (l : list A) :
  y ∈ list_remove x l -> y ∈ l.
Proof.
  induction l as [|z l IH]; simpl; [auto|].
  destruct (decide (x = z)) as [->|Hxz]; intros Hin.
  - apply elem_of_cons. right. exact Hin.
  - apply elem_of_cons in Hin. apply elem_of_cons.
    destruct Hin as [->|Hin]; [left; reflexivity | right; apply IH; exact Hin].
Qed.

Lemma wear_same_types (l : loc) (h : gmap loc Item.t) : same_types h (wear l h).
Proof.
  intros b. unfold wear. rewrite lookup_total_alter.
  destruct (decide (l = b)) as [->|Hne]; [|reflexivity].
  rewrite lookup_total_alt. destruct (h !! b); reflexivity.
Qed.

Lemma enhance_same_type (it : Item.t) (roll roll2 : Z) :
  Item.item_type (fst (Item.enhance it roll roll2)) = Item.item_type it.
Proof. unfold Item.enhance. split_ifs; reflexivity. Qed.

Lemma same_types_refl (h : gmap loc Item.t) : same_types h h.
Proof. intros l. reflexivity. Qed.

Lemma gear_kept_refl (p : Character.t) (h : gmap loc Item.t) :
  gear_kept p h p h.
Proof. unfold gear_kept. repeat split; auto using same_types_refl. Qed.

Lemma gear_kept_trans (p1 p2 p3 : Character.t) (h1 h2 h3 : gmap loc Item.t) :
  gear_kept p1 h1 p2 h2 -> gear_kept p2 h2 p3 h3 -> gear_kept p1 h1 p3 h3.
Proof.
  unfold gear_kept, same_types.
  intros (W1 & A1 & T1 & I1) (W2 & A2 & T2 & I2).
  split; [congruence|]. split; [congruence|]. split.
  - intros l. rewrite T2. apply T1.
  - intros l Hin Hty. apply I2; [apply I1; assumption|]. rewrite T1. exact Hty.
Qed.

Lemma gear_kept_owned (p p' : Character.t) (h h' : gmap loc Item.t) :
  gear_kept p h p' h' -> gear_owned p h -> gear_owned p' h'.
Proof.
  unfold gear_kept, gear_owned, same_types.
  intros (W & A & T & I) [Hw Ha]. split.
  - intros w Hw'. rewrite W in Hw'. destruct (Hw w Hw') as [Hin Hty].
    split; [apply I; [exact Hin | congruence] | rewrite T; exact Hty].
  - intros a Ha'. rewrite A in Ha'. destruct (Ha a Ha') as [Hin Hty].
    split; [apply I; [exact Hin | congruence] | rewrite T; exact Hty].
Qed.

Lemma gear_owned_types (p : Character.t) (h h' : gmap loc Item.t) :
  same_types h h' -> gear_owned p h -> gear_owned p h'.
Proof.
  intros T. apply gear_kept_owned. unfold gear_kept. auto.
Qed.

Lemma alter_same_types (item : loc) (it : Item.t) (h : gmap loc Item.t) :
  Item.item_type it = Item.item_type (h !!! item) ->
  same_types h (alter (fun _ => it) item h).
Proof.
  intros Hty b. rewrite lookup_total_alter.
  destruct (decide (item = b)) as [->|Hne]; [|reflexivity].
  rewrite lookup_total_alt in *. destruct (h !! b); simpl in *; congruence.
Qed.

Lemma remove_unequip_owned (p : Character.t) (h : gmap loc Item.t) (item : loc) :
  gear_owned p h ->
  gear_owned
    (Game.unequip
       (Character.set_inventory p (list_remove item (Character.inventory p)))
       item) h.
Proof.
  intros [Hw Ha]. unfold Game.unequip, gear_owned. simpl.
  destruct (bool_decide_reflect (Character.equipped_weapon p = Some item))
    as [Ew|Ew]; [|destruct (bool_decide_reflect
                              (Character.equipped_armor p = Some item))
                    as [Ea|Ea]]; simpl; split; try discriminate.
  - intros a Hsome. destruct (Ha a Hsome) as [Hin Hty]. split; [|exact Hty].
    apply list_remove_keeps; [|exact Hin].
    intros ->. destruct (Hw item Ew) as [_ Hty']. congruence.
  - intros w Hsome. destruct (Hw w Hsome) as [Hin Hty]. split; [|exact Hty].
    apply list_remove_keeps; [congruence | exact Hin].
  - intros w Hsome. destruct (Hw w Hsome) as [Hin Hty]. split; [|exact Hty].
    apply list_remove_keeps; [congruence | exact Hin].
  - intros a Hsome. destruct (Ha a Hsome) as [Hin Hty]. split; [|exact Hty].
    apply list_remove_keeps; [congruence | exact Hin].
Qed.

(** Through the equip menu an equipment slot only ever receives an item of
    the inventory, of the slot's category, with durability above 0:
    whatever is typed, either nothing changes or one such item fills its
    slot. *)
Theorem equip_menu_takes_inventory_gear (p : Character.t)
    (h : gmap loc Item.t) (input : option Z) :
  Game.equip_item p h input = p
  \/ exists item : loc,
      item ∈ Character.inventory p
      /\ 0 < Item.durability (h !!! item)
      /\ ((Item.item_type (h !!! item) = WEAPON
           /\ Game.equip_item p h input
              = Character.set_equipped_weapon p (Some item))
          \/ (Item.item_type (h !!! item) = ARMOR
              /\ Game.equip_item p h input
                 = Character.set_equipped_armor p (Some item))).
Proof.
  unfold Game.equip_item.
  destruct (Character.inventory p) as [|i0 inv] eqn:Einv; [left; reflexivity|].
  destruct (filter (Game.usable_gear h) (i0 :: inv)) as [|e0 eq] eqn:Ef;
    [left; reflexivity|].
  destruct input as [choice|]; [|left; reflexivity].
  destruct (choice =? 0); [left; reflexivity|].
  destruct (Game.menu_entry (e0 :: eq) choice) as [item|] eqn:Em;
    [|left; reflexivity].
  apply menu_entry_elem in Em. rewrite <- Ef in Em.
  apply list_elem_of_filter in Em. destruct Em as [[Hty Hdur] Hin].
  right. exists item. split; [exact Hin|]. split; [exact Hdur|].
  unfold Character.equip_weapon, Character.equip_armor.
  destruct (bool_decide_reflect (Item.item_type (h !!! item) = WEAPON))
    as [Hw|Hw].
  - left. split; [exact Hw|]. simpl.
    rewrite Z.gtb_ltb. destruct (Z.ltb_spec 0 (Item.durability (h !!! item)));
      [reflexivity | lia].
  - destruct (bool_decide_reflect (Item.item_type (h !!! item) = ARMOR))
      as [Ha|Ha]; [|destruct Hty; contradiction].
    right. split; [exact Ha|]. simpl.
    rewrite Z.gtb_ltb. destruct (Z.ltb_spec 0 (Item.durability (h !!! item)));
      [reflexivity | lia].
Qed.

Lemma run_menu_op_owned (w : world) (op : menu_op) :
  gear_owned (fst (fst w)) (snd (fst w)) ->
  gear_owned (fst (fst (run_menu_op w op))) (snd (fst (run_menu_op w op))).
Proof.
  destruct w as [[p h] ground]. simpl. intros Hown.
  destruct op as [input|input roll roll2|input confirm|input|item]; simpl.
  - destruct (equip_menu_takes_inventory_gear p h input)
      as [E|(item & Hin & _ & [[Hty E]|[Hty E]])]; rewrite E; [exact Hown| |];
      destruct Hown as [Hw Ha]; split; simpl; auto;
      intros x Hx; inversion Hx; subst; auto.
  - unfold Game.enhance_item.
    destruct (filter (Game.usable_gear h) (Character.inventory p))
      as [|e0 eq] eqn:Ef; [exact Hown|].
    destruct input as [choice|]; [|exact Hown].
    destruct (choice =? 0); [exact Hown|].
    destruct (Game.menu_entry (e0 :: eq) choice) as [item|]; [|exact Hown].
    pose proof (enhance_same_type (h !!! item) roll roll2) as Hty.
    destruct (Item.enhance (h !!! item) roll roll2) as [it [success kind]].
    simpl in Hty.
    pose proof (alter_same_types item it h Hty) as T.
    destruct success; simpl; [exact (gear_owned_types _ _ _ T Hown)|].
    destruct (bool_decide (kind = "destroyed")); simpl;
      [|exact (gear_owned_types _ _ _ T Hown)].
    apply (gear_owned_types _ _ _ T). apply remove_unequip_owned. exact Hown.
  - unfold Game.drop_item.
    destruct (Character.inventory p) as [|i0 inv] eqn:Einv; [exact Hown|].
    destruct input as [choice|]; [|exact Hown].
    destruct (choice =? 0); [exact Hown|].
    destruct (Game.menu_entry (i0 :: inv) choice) as [item|]; [|exact Hown].
    destruct (bool_decide (confirm = "y")); [|exact Hown].
    cbn [fst snd]. rewrite <- Einv. apply remove_unequip_owned. exact Hown.
  - unfold Game.use_item.
    destruct (Character.inventory p) as [|i0 inv] eqn:Einv; [exact Hown|].
    destruct (filter _ (i0 :: inv)) as [|e0 eq] eqn:Ef; [exact Hown|].
    destruct input as [choice|]; [|exact Hown].
    destruct (choice =? 0); [exact Hown|].
    destruct (Game.menu_entry (e0 :: eq) choice) as [item|] eqn:Em;
      [|exact Hown].
    destruct (bool_decide _); [|exact Hown].
    apply menu_entry_elem in Em. rewrite <- Ef in Em.
    apply list_elem_of_filter in Em. destruct Em as [Hsp _].
    destruct Hown as [Hw Ha].
    split; simpl; intros x Hx.
    + destruct (Hw x Hx) as [Hin Hty]. split; [|exact Hty].
      apply list_remove_keeps; [congruence | exact Hin].
    + destruct (Ha x Hx) as [Hin Hty]. split; [|exact Hty].
      apply list_remove_keeps; [congruence | exact Hin].
  - destruct Hown as [Hw Ha]. split; simpl; intros x Hx.
    + destruct (Hw x Hx) as [Hin Hty]. split; [|exact Hty].
      apply elem_of_app. left. exact Hin.
    + destruct (Ha x Hx) as [Hin Hty]. split; [|exact Hty].
      apply elem_of_app. left. exact Hin.
Qed.

(** Equipped items are inventory items: when the weapon slot holds an
    inventory item of category weapon and the armor slot one of category
    armor (or they are empty), this is still so after any sequence of
    equip, enhance, drop and use-item menu operations and pick-ups,
    whatever is typed and rolled; in particular a destroyed or dropped
    item is not left in a slot. *)
Theorem menus_keep_gear_owned (ops : list menu_op) (w : world) :
  gear_owned (fst (fst w)) (snd (fst w)) ->
  gear_owned (fst (fst (fold_left run_menu_op ops w)))
             (snd (fst (fold_left run_menu_op ops w))).
Proof.
  revert w. induction ops as [|op ops IH]; intros w Hown; simpl; [exact Hown|].
  apply IH. apply run_menu_op_owned. exact Hown.
Qed.

(** ** Equipment through a fight *)

Lemma perform_store (a : round_action) (s : Combat.t) (h : gmap loc Item.t) :
  snd (perform a s h) = h \/ exists w : loc, snd (perform a s h) = wear w h.
Proof.
  destruct a as [[hit_roll dmg_roll| |roll|skill]|];
    unfold perform, submit, Combat.player_attack, Combat.player_dodge,
      Combat.player_ambush, Combat.player_use_skill, Combat.player_defend.
  - repeat match goal with
    | |- context [Enemy.take_damage ?e ?d] => destruct (Enemy.take_damage e d)
    | |- context [if ?c then _ else _] => destruct c
    | |- context [match ?x with Some _ => _ | None => _ end] => destruct x
    end; cbn [snd]; eauto.
  - destruct (Character.turn_action_taken _); [left; reflexivity|].
    destruct (Character.use_stamina _ _) as [p ok].
    destruct (negb ok); left; reflexivity.
  - destruct (Character.turn_action_taken _); [left; reflexivity|].
    destruct (Combat.pay_costs _ _ _) as [p lacking].
    destruct lacking; [left; reflexivity|].
    destruct (_ <=? _); [|left; reflexivity].
    destruct (Enemy.take_damage _ _). left; reflexivity.
  - destruct (Character.turn_action_taken _); [left; reflexivity|].
    destruct (Combat.pay_costs _ _ _) as [p lacking].
    destruct lacking; [left; reflexivity|].
    destruct (Enemy.take_damage _ _). left; reflexivity.
  - destruct (Character.turn_action_taken _); left; reflexivity.
Qed.

Lemma enemy_turn_store (s : Combat.t) (h : gmap loc Item.t)
    (dodge_roll : Z) (pick : nat) (offset : Z) :
  snd (Combat.enemy_turn s h dodge_roll pick offset) = h
  \/ exists a : loc, snd (Combat.enemy_turn s h dodge_roll pick offset) = wear a h.
Proof.
  unfold Combat.enemy_turn.
  repeat match goal with
  | |- context [Character.take_damage ?p ?d] =>
      destruct (Character.take_damage p d)
  | |- context [if ?c then _ else _] => destruct c
  | |- context [match ?x with Some _ => _ | None => _ end] => destruct x
  end; cbn [snd]; eauto.
Qed.

Lemma perform_kept (a : round_action) (s : Combat.t) (h : gmap loc Item.t) :
  gear_kept (Combat.player s) h
    (Combat.player (snd (fst (perform a s h)))) (snd (perform a s h)).
Proof.
  destruct (perform_player a s h) as (st & f & bs & E & _). rewrite E.
  unfold gear_kept. simpl. split; [reflexivity|]. split; [reflexivity|].
  split; [|auto].
  destruct (perform_store a s h) as [->|[w ->]];
    [apply same_types_refl | apply wear_same_types].
Qed.

Lemma enemy_turn_kept (s : Combat.t) (h : gmap loc Item.t)
    (dodge_roll : Z) (pick : nat) (offset : Z) :
  gear_kept (Combat.player s) h
    (Combat.player (snd (fst (Combat.enemy_turn s h dodge_roll pick offset))))
    (snd (Combat.enemy_turn s h dodge_roll pick offset)).
Proof.
  destruct (enemy_turn_player s h dodge_roll pick offset)
    as (hp & f & sn & E & _). rewrite E.
  unfold gear_kept. simpl. split; [reflexivity|]. split; [reflexivity|].
  split; [|auto].
  destruct (enemy_turn_store s h dodge_roll pick offset) as [->|[w ->]];
    [apply same_types_refl | apply wear_same_types].
Qed.

Lemma skill_menu_kept (s : Combat.t) (h : gmap loc Item.t) (input : option Z) :
  let r := Game.skill_menu_combat s h input in
  gear_kept (Combat.player s) h (Combat.player (snd (fst r))) (snd r).
Proof.
  unfold Game.skill_menu_combat.
  destruct (Character.skills (Combat.player s)) as [|k0 ks];
    [apply gear_kept_refl|].
  destruct input as [choice|]; [|apply gear_kept_refl].
  destruct (choice =? 0); [apply gear_kept_refl|].
  destruct (Game.menu_entry (k0 :: ks) choice) as [skill|];
    [|apply gear_kept_refl].
  pose proof (perform_kept (Costly (UseSkill skill)) s h) as K.
  simpl in K. destruct (Combat.player_use_skill s h skill) as [[text s'] h'].
  exact K.
Qed.

Lemma item_use_kept (s : Combat.t) (h : gmap loc Item.t) (input : option Z) :
  let r := Game.combat_item_use s h input in
  gear_kept (Combat.player s) h (Combat.player (snd (fst r))) (snd r).
Proof.
  unfold Game.combat_item_use.
  destruct (filter _ (Character.inventory (Combat.player s)))
    as [|e0 eq] eqn:Ef; [apply gear_kept_refl|].
  destruct input as [choice|]; [|apply gear_kept_refl].
  destruct (choice =? 0); [apply gear_kept_refl|].
  destruct (Game.menu_entry (e0 :: eq) choice) as [item|] eqn:Em;
    [|apply gear_kept_refl].
  apply menu_entry_elem in Em. rewrite <- Ef in Em.
  apply list_elem_of_filter in Em. destruct Em as [Hsp _].
  assert (Hrem : forall l : loc,
             l ∈ Character.inventory (Combat.player s) ->
             Item.item_type (h !!! l) <> SPECIAL ->
             l ∈ list_remove item (Character.inventory (Combat.player s))).
  { intros l Hin Hty. apply list_remove_keeps; [congruence | exact Hin]. }
  destruct (bool_decide _).
  - unfold gear_kept. simpl. auto using same_types_refl.
  - destruct (bool_decide _); [|apply gear_kept_refl].
    destruct (Character.equipped_weapon (Combat.player s)) eqn:Ew;
      [|apply gear_kept_refl].
    unfold gear_kept. simpl. auto using same_types_refl.
Qed.

Lemma finish_player (s : Combat.t) :
  Combat.player (snd (Combat.check_combat_end s)) = Combat.player s.
Proof. unfold Combat.check_combat_end. split_ifs; reflexivity. Qed.

Lemma combat_turn_kept (s : Combat.t) (h : gmap loc Item.t)
    (i : Game.TurnInput) :
  gear_kept (Combat.player s) h
    (Combat.player (fst (Game.combat_turn s h i))) (snd (Game.combat_turn s h i)).
Proof.
  assert (Hfin : forall (s0 s1 : Combat.t) (h1 : gmap loc Item.t),
             gear_kept (Combat.player s0) h (Combat.player s1) h1 ->
             gear_kept (Combat.player s0) h
               (Combat.player
                  (fst (let '(end_result, s2) := Combat.check_combat_end s1 in
                        match end_result with
                        | Some _ => (Combat.set_is_active s2 false, h1)
                        | None => (s2, h1)
                        end)))
               (snd (let '(end_result, s2) := Combat.check_combat_end s1 in
                     match end_result with
                     | Some _ => (Combat.set_is_active s2 false, h1)
                     | None => (s2, h1)
                     end))).
  { intros s0 s1 h1 K. pose proof (finish_player s1) as F.
    destruct (Combat.check_combat_end s1) as [[r|] s2]; simpl in *;
      rewrite F; exact K. }
  unfold Game.combat_turn.
  destruct (Character.turn_action_taken (Combat.player s)).
  - pose proof (enemy_turn_kept s h (Game.dodge_roll i) (Game.pick i)
                  (Game.offset i)) as K.
    destruct (Combat.enemy_turn s h _ _ _) as [[text s1] h1]. simpl in K.
    apply Hfin. unfold Combat.end_turn, gear_kept in *. simpl. exact K.
  - destruct (bool_decide _).
    { pose proof (perform_kept (Costly (Attack (Game.hit_roll i) (Game.dmg_roll i)))
                    s h) as K.
      simpl in K. destruct (Combat.player_attack s h _ _) as [[text s1] h1].
      apply Hfin. exact K. }
    destruct (bool_decide _).
    { pose proof (perform_kept (Costly Dodge) s h) as K.
      simpl in K. destruct (Combat.player_dodge s h) as [[text s1] h1].
      apply Hfin. exact K. }
    destruct (bool_decide _).
    { pose proof (perform_kept Defend s h) as K.
      simpl in K. destruct (Combat.player_defend s h) as [[text s1] h1].
      apply Hfin. exact K. }
    destruct (bool_decide _).
    { pose proof (perform_kept (Costly (Ambush (Game.ambush_roll i))) s h) as K.
      simpl in K. destruct (Combat.player_ambush s h _) as [[text s1] h1].
      apply Hfin. exact K. }
    destruct (bool_decide _).
    { pose proof (skill_menu_kept s h (Game.number i)) as K.
      simpl in K. destruct (Game.skill_menu_combat s h _) as [[text s1] h1].
      apply Hfin. exact K. }
    destruct (bool_decide _).
    { pose proof (item_use_kept s h (Game.number i)) as K.
      simpl in K. destruct (Game.combat_item_use s h _) as [[text s1] h1].
      apply Hfin. exact K. }
    apply gear_kept_refl.
Qed.

(** A fight leaves the equipment as it is: through the whole combat loop,
    whatever is typed and rolled, the equipment slots are not changed, no
    item changes category, and the only items that leave the inventory are
    consumables; so equipped items that were inventory items of the right
    category still are when the loop ends (a weapon or armor worn down to
    0 stays equipped). *)
Theorem combat_keeps_gear (inputs : list Game.TurnInput) (s : Combat.t)
    (h : gmap loc Item.t) :
  let s' := fst (Game.combat_loop s h inputs) in
  let h' := snd (Game.combat_loop s h inputs) in
  gear_kept (Combat.player s) h (Combat.player s') h'
  /\ (gear_owned (Combat.player s) h -> gear_owned (Combat.player s') h').
Proof.
  cbv zeta.
  assert (K : gear_kept (Combat.player s) h
                (Combat.player (fst (Game.combat_loop s h inputs)))
                (snd (Game.combat_loop s h inputs))).
  { revert s h. induction inputs as [|i inputs IH]; intros s h; simpl.
    - destruct (Combat.is_active s); apply gear_kept_refl.
    - destruct (Combat.is_active s); [|apply gear_kept_refl].
      pose proof (combat_turn_kept s h i) as K1.
      destruct (Game.combat_turn s h i) as [s1 h1]. simpl in K1.
      eapply gear_kept_trans; [exact K1 | apply IH]. }
  split; [exact K | apply gear_kept_owned; exact K].
Qed.

Lemma menus_keep_gear_owned_witness :
  let sword := Item.mk "포도청 검" WEAPON "포도청에서 사용하던 제식 검." 36 0 "" 2 100 in
  let h : gmap loc Item.t := {[ 0%nat := sword ]} in
  let p := Character.equip_weapon
             (Character.add_item (Character.init "무명" FALLEN_NOBLE) 0%nat)
             h 0%nat in
  let w := fold_left run_menu_op [EnhanceItem (Some 1) 100 1] (p, h, []) in
  Character.equipped_weapon p = Some 0%nat
  /\ gear_owned (fst (fst w)) (snd (fst w))
  /\ Character.equipped_weapon (fst (fst w)) = None
  /\ Character.inventory (fst (fst w)) = [].
Proof.
  intros sword h p w.
  assert (Hown : gear_owned (fst (fst (p, h, @nil loc))) (snd (fst (p, h, @nil loc)))).
  { split; intros x Hx; vm_compute in Hx; inversion Hx; subst.
    split; [apply elem_of_cons; left; reflexivity | reflexivity]. }
  split; [reflexivity|].
  split; [exact (menus_keep_gear_owned [EnhanceItem (Some 1) 100 1] _ Hown)|].
  split; vm_compute; reflexivity.
Defined.

(** ** How a fight ends *)

Lemma perform_active (a : round_action) (s : Combat.t) (h : gmap loc Item.t) :
  Combat.is_active (snd (fst (perform a s h))) = Combat.is_active s
  /\ Combat.turn_count (snd (fst (perform a s h))) = Combat.turn_count s.
Proof.
  destruct s as [p e tc log act la ra].
  destruct a as [[hit_roll dmg_roll| |roll|skill]|];
    unfold perform, submit, Combat.player_attack, Combat.player_dodge,
      Combat.player_ambush, Combat.player_use_skill, Combat.player_defend;
    session_fields;
    repeat match goal with
    | |- context [Enemy.take_damage ?e ?d] =>
        destruct (Enemy.take_damage e d); session_fields
    | |- context [Combat.pay_costs ?p ?x ?y] =>
        destruct (Combat.pay_costs p x y); session_fields
    | |- context [Character.use_stamina ?p ?x] =>
        destruct (Character.use_stamina p x); session_fields
    | |- context [if ?c then _ else _] => destruct c; session_fields
    | |- context [match ?x with Some _ => _ | None => _ end] =>
        destruct x; session_fields
    end; split; reflexivity.
Qed.

Lemma enemy_turn_active (s : Combat.t) (h : gmap loc Item.t)
    (dodge_roll : Z) (pick : nat) (offset : Z) :
  Combat.is_active (snd (fst (Combat.enemy_turn s h dodge_roll pick offset)))
  = Combat.is_active s
  /\ Combat.turn_count (snd (fst (Combat.enemy_turn s h dodge_roll pick offset)))
     = Combat.turn_count s.
Proof.
  destruct s as [p e tc log act la ra].
  unfold Combat.enemy_turn. session_fields.
  repeat match goal with
  | |- context [Character.take_damage ?p ?d] =>
      destruct (Character.take_damage p d); session_fields
  | |- context [if ?c then _ else _] => destruct c; session_fields
  | |- context [match ?x with Some _ => _ | None => _ end] =>
      destruct x; session_fields
  end; split; reflexivity.
Qed.

Lemma skill_menu_active (s : Combat.t) (h : gmap loc Item.t) (input : option Z) :
  Combat.is_active (snd (fst (Game.skill_menu_combat s h input)))
  = Combat.is_active s.
Proof.
  unfold Game.skill_menu_combat.
  destruct (Character.skills (Combat.player s)) as [|k0 ks]; [reflexivity|].
  destruct input as [choice|]; [|reflexivity].
  destruct (choice =? 0); [reflexivity|].
  destruct (Game.menu_entry (k0 :: ks) choice) as [skill|]; [|reflexivity].
  pose proof (perform_active (Costly (UseSkill skill)) s h) as [A _].
  simpl in A. destruct (Combat.player_use_skill s h skill) as [[text s'] h'].
  exact A.
Qed.

Lemma item_use_active (s : Combat.t) (h : gmap loc Item.t) (input : option Z) :
  Combat.is_active (snd (fst (Game.combat_item_use s h input)))
  = Combat.is_active s.
Proof.
  unfold Game.combat_item_use.
  repeat match goal with
  | |- context [if ?c then _ else _] => destruct c
  | |- context [match ?x with _ => _ end] => destruct x
  end; destruct s; reflexivity.
Qed.

(** The verdict at the end of [combat_turn]. *)
Lemma closing_verdict (s : Combat.t) (h : gmap loc Item.t) :
  let r := (let '(end_result, s2) := Combat.check_combat_end s in
            match end_result with
            | Some _ => (Combat.set_is_active s2 false, h)
            | None => (s2, h)
            end) in
  Combat.player (fst r) = Combat.player s
  /\ Combat.enemy (fst r) = Combat.enemy s
  /\ snd r = h
  /\ (Combat.is_active (fst r) = false ->
      Combat.is_active s = false
      \/ Character.health (Combat.player s) <= 0
      \/ Enemy.health (Combat.enemy s) <= 0)
  /\ (Character.health (Combat.player s) <= 0 \/ Enemy.health (Combat.enemy s) <= 0 ->
      Combat.is_active (fst r) = false).
Proof.
  unfold Combat.check_combat_end, Enemy.is_alive. rewrite Z.gtb_ltb.
  destruct (Z.leb_spec (Character.health (Combat.player s)) 0);
    [|destruct (Z.ltb_spec 0 (Enemy.health (Combat.enemy s)))]; simpl;
    repeat split; auto; try lia; destruct s; simpl; auto.
Qed.

Lemma combat_turn_verdict (s : Combat.t) (h : gmap loc Item.t)
    (i : Game.TurnInput) :
  Combat.is_active s = true ->
  Combat.is_active (fst (Game.combat_turn s h i)) = false ->
  Character.health (Combat.player (fst (Game.combat_turn s h i))) <= 0
  \/ Enemy.health (Combat.enemy (fst (Game.combat_turn s h i))) <= 0.
Proof.
  intros Hact.
  assert (Hfin : forall (s1 : Combat.t) (h1 : gmap loc Item.t),
             Combat.is_active s1 = true ->
             let r := (let '(end_result, s2) := Combat.check_combat_end s1 in
                       match end_result with
                       | Some _ => (Combat.set_is_active s2 false, h1)
                       | None => (s2, h1)
                       end) in
             Combat.is_active (fst r) = false ->
             Character.health (Combat.player (fst r)) <= 0
             \/ Enemy.health (Combat.enemy (fst r)) <= 0).
  { intros s1 h1 A1 r. destruct (closing_verdict s1 h1) as (P & E & _ & V & _).
    fold r in P, E, V. intros Hr. rewrite P, E.
    destruct (V Hr) as [?|?]; [congruence | assumption]. }
  unfold Game.combat_turn.
  destruct (Character.turn_action_taken (Combat.player s)).
  - pose proof (enemy_turn_active s h (Game.dodge_roll i) (Game.pick i)
                  (Game.offset i)) as [A _].
    destruct (Combat.enemy_turn s h _ _ _) as [[text s1] h1]. simpl in A.
    apply Hfin. unfold Combat.end_turn. simpl. congruence.
  - destruct (bool_decide _).
    { pose proof (perform_active (Costly (Attack (Game.hit_roll i) (Game.dmg_roll i)))
                    s h) as [A _].
      simpl in A. destruct (Combat.player_attack s h _ _) as [[text s1] h1].
      apply Hfin. simpl in A. congruence. }
    destruct (bool_decide _).
    { pose proof (perform_active (Costly Dodge) s h) as [A _].
      simpl in A. destruct (Combat.player_dodge s h) as [[text s1] h1].
      apply Hfin. simpl in A. congruence. }
    destruct (bool_decide _).
    { pose proof (perform_active Defend s h) as [A _].
      simpl in A. destruct (Combat.player_defend s h) as [[text s1] h1].
      apply Hfin. simpl in A. congruence. }
    destruct (bool_decide _).
    { pose proof (perform_active (Costly (Ambush (Game.ambush_roll i))) s h)
        as [A _].
      simpl in A. destruct (Combat.player_ambush s h _) as [[text s1] h1].
      apply Hfin. simpl in A. congruence. }
    destruct (bool_decide _).
    { pose proof (skill_menu_active s h (Game.number i)) as A.
      destruct (Game.skill_menu_combat s h _) as [[text s1] h1].
      apply Hfin. simpl in A. congruence. }
    destruct (bool_decide _).
    { pose proof (item_use_active s h (Game.number i)) as A.
      destruct (Game.combat_item_use s h _) as [[text s1] h1].
      apply Hfin. simpl in A. congruence. }
    simpl. congruence.
Qed.

(** A fight ends only by death or victory: when the combat loop, started
    on an active session, leaves it inactive, the player's health or the
    enemy's health is at or below 0; there is no other way out.  And an
    enemy whose health is at or below 0 does not act: its turn returns the
    empty text and changes nothing. *)
Theorem combat_ends_by_death_or_victory (inputs : list Game.TurnInput)
    (s : Combat.t) (h : gmap loc Item.t) :
  (Combat.is_active s = true ->
   Combat.is_active (fst (Game.combat_loop s h inputs)) = false ->
   Character.health (Combat.player (fst (Game.combat_loop s h inputs))) <= 0
   \/ Enemy.health (Combat.enemy (fst (Game.combat_loop s h inputs))) <= 0)
  /\ (Enemy.health (Combat.enemy s) <= 0 ->
      forall (dodge_roll : Z) (pick : nat) (offset : Z),
        Combat.enemy_turn s h dodge_roll pick offset = ("", s, h)).
Proof.
  split.
  - revert s h. induction inputs as [|i inputs IH]; intros s h Hact; simpl.
    + rewrite Hact. simpl. congruence.
    + rewrite Hact.
      pose proof (combat_turn_verdict s h i Hact) as V.
      destruct (Game.combat_turn s h i) as [s1 h1]. simpl in V.
      destruct (Combat.is_active s1) eqn:A1.
      * apply IH. exact A1.
      * intros _. destruct inputs; simpl; rewrite A1; simpl; apply V; reflexivity.
  - intros Hdead dodge_roll pick offset.
    unfold Combat.enemy_turn, Enemy.is_alive. rewrite Z.gtb_ltb.
    destruct (Z.ltb_spec 0 (Enemy.health (Combat.enemy s))); [lia|reflexivity].
Qed.

(** ** After the fight *)






(** ** Opening a fight *)

Lemma open_combat_player (p : Character.t) (e : Enemy.t)
    (game_flags : gmap string bool) (trap_roll : Z) :
  exists bs : list Buff.t,
    Combat.player (fst (Game.open_combat p e game_flags trap_roll))
    = Character.set_buffs (Character.set_in_combat p true) bs.
Proof.
  unfold Game.open_combat.
  destruct (default false (game_flags !! "용병_고용"));
    destruct (head _) as [buff|]; try destruct (_ <=? _);
    cbn [fst snd Combat.init Combat.player]; eexists;
    destruct p; reflexivity.
Qed.

Lemma open_combat_session (p : Character.t) (e : Enemy.t)
    (game_flags : gmap string bool) (trap_roll : Z) :
  let s := fst (Game.open_combat p e game_flags trap_roll) in
  Combat.is_active s = true /\ Combat.turn_count s = 0
  /\ Combat.player_last_action s = None.
Proof.
  unfold Game.open_combat.
  destruct (default false (game_flags !! "용병_고용"));
    destruct (head _) as [buff|]; try destruct (_ <=? _);
    cbn [fst snd Combat.init Combat.is_active Combat.turn_count
         Combat.player_last_action]; auto.
Qed.



Lemma finish_fields (s : Combat.t) (h : gmap loc Item.t) :
  let r := (let '(end_result, s2) := Combat.check_combat_end s in
            match end_result with
            | Some _ => (Combat.set_is_active s2 false, h)
            | None => (s2, h)
            end) in
  Combat.player (fst r) = Combat.player s
  /\ Combat.turn_count (fst r) = Combat.turn_count s
  /\ Combat.player_last_action (fst r) = Combat.player_last_action s.
Proof.
  unfold Combat.check_combat_end.
  destruct (_ <=? _); [|destruct (negb _)]; destruct s; simpl; auto.
Qed.

(** The turn-action slot is not freed between fights.  When the player
    has just acted (attack, dodge, defend or ambush) the slot is taken,
    and if the fight ends there no [end_turn] frees it; the next fight
    opened with that player then starts with the enemy's turn, whatever
    the player types: after its first [combat_turn] the turn counter is 1
    and no player action has been recorded. *)
Theorem next_fight_opens_with_enemy_turn (s : Combat.t) (h : gmap loc Item.t)
    (i : Game.TurnInput) :
  Character.turn_action_taken (Combat.player s) = false ->
  Game.choice i = "1" \/ Game.choice i = "2" \/ Game.choice i = "3"
  \/ Game.choice i = "4" ->
  let p1 := Combat.player (fst (Game.combat_turn s h i)) in
  Character.turn_action_taken p1 = true
  /\ forall (e2 : Enemy.t) (game_flags : gmap string bool) (trap_roll : Z)
            (h2 : gmap loc Item.t) (j : Game.TurnInput),
      let s2 := fst (Game.open_combat p1 e2 game_flags trap_roll) in
      let s3 := fst (Game.combat_turn s2 h2 j) in
      Character.turn_action_taken (Combat.player s2) = true
      /\ Combat.turn_count s3 = 1
      /\ Combat.player_last_action s3 = None.
Proof.
  intros Hfree Hchoice p1.
  assert (Htaken : Character.turn_action_taken p1 = true).
  { subst p1. unfold Game.combat_turn. rewrite Hfree.
    assert (Hact : forall a : round_action,
               Character.turn_action_taken
                 (Combat.player
                    (fst (let '(_, s1, h1) := perform a s h in
                          let '(end_result, s2) := Combat.check_combat_end s1 in
                          match end_result with
                          | Some _ => (Combat.set_is_active s2 false, h1)
                          | None => (s2, h1)
                          end))) = true).
    { intros a. destruct (perform_player a s h) as (st & f & bs & E & _).
      destruct (perform a s h) as [[text s1] h1]. simpl in E.
      destruct (finish_fields s1 h1) as (P & _). cbv zeta in P. rewrite P, E.
      reflexivity. }
    destruct Hchoice as [C|[C|[C|C]]]; rewrite C; simpl.
    - exact (Hact (Costly (Attack (Game.hit_roll i) (Game.dmg_roll i)))).
    - exact (Hact (Costly Dodge)).
    - exact (Hact Defend).
    - exact (Hact (Costly (Ambush (Game.ambush_roll i)))). }
  split; [exact Htaken|].
  intros e2 game_flags trap_roll h2 j s2 s3.
  destruct (open_combat_player p1 e2 game_flags trap_roll) as (bs & Ep).
  destruct (open_combat_session p1 e2 game_flags trap_roll) as (_ & Hc & Hl).
  fold s2 in Ep, Hc, Hl.
  assert (H2 : Character.turn_action_taken (Combat.player s2) = true).
  { rewrite Ep. simpl. exact Htaken. }
  split; [exact H2|].
  subst s3. unfold Game.combat_turn. rewrite H2.
  pose proof (enemy_turn_active s2 h2 (Game.dodge_roll j) (Game.pick j)
                (Game.offset j)) as [_ Hcount].
  assert (Hlast : Combat.player_last_action
                    (snd (fst (Combat.enemy_turn s2 h2 (Game.dodge_roll j)
                                 (Game.pick j) (Game.offset j))))
                  = Combat.player_last_action s2).
  { clear. destruct s2 as [p e tc log act la ra].
    unfold Combat.enemy_turn. session_fields.
    repeat match goal with
    | |- context [Character.take_damage ?p ?d] =>
        destruct (Character.take_damage p d); session_fields
    | |- context [if ?c then _ else _] => destruct c; session_fields
    | |- context [match ?x with Some _ => _ | None => _ end] =>
        destruct x; session_fields
    end; reflexivity. }
  destruct (Combat.enemy_turn s2 h2 _ _ _) as [[text s'] h'].
  simpl in Hcount, Hlast.
  destruct (finish_fields (Combat.end_turn s') h') as (_ & Tc & La).
  cbv zeta in Tc, La. rewrite Tc, La.
  unfold Combat.end_turn. simpl. rewrite Hcount, Hc, Hlast, Hl. auto.
Qed.

Lemma next_fight_opens_with_enemy_turn_witness :
  let p := Character.init "무명" BANDIT_OUTCAST in
  let weak := Enemy.init "탈영병" 5 14 0 25 None (Some ["attack"; "feint"]) in
  let wolf := Enemy.init "굶주린 늑대" 40 15 3 15 None
                (Some ["attack"; "attack"; "strong_attack"]) in
  let i := Game.mk_input "1" None 1 0 1 100 0 0 in
  let s1 := fst (Game.combat_turn (Combat.init p weak) ∅ i) in
  let s2 := fst (Game.open_combat (Combat.player s1) wolf ∅ 100) in
  let s3 := fst (Game.combat_turn s2 ∅ i) in
  Combat.is_active s1 = false
  /\ Combat.turn_count s3 = 1
  /\ Character.health (Combat.player s3) = 100 - 5.
Proof.
  intros p weak wolf i s1 s2 s3.
  assert (Hfree : Character.turn_action_taken
                    (Combat.player (Combat.init p weak)) = false) by reflexivity.
  assert (Hc : Game.choice i = "1" \/ Game.choice i = "2"
               \/ Game.choice i = "3" \/ Game.choice i = "4")
    by (left; reflexivity).
  destruct (next_fight_opens_with_enemy_turn (Combat.init p weak) ∅ i Hfree Hc)
    as [_ Hnext].
  destruct (Hnext wolf ∅ 100 ∅ i) as (_ & Hcount & _).
  split; [vm_compute; reflexivity|].
  split; [exact Hcount | vm_compute; reflexivity].
Defined.

(** ** Growth: levels and job stages *)









(** ** The enemy's policy and damage *)

Lemma choice_elem (seq : list string) (pick : nat) :
  (pick < length seq)%nat -> Enemy.choice seq pick ∈ seq.
Proof.
  unfold Enemy.choice. revert pick.
  induction seq as [|x seq IH]; intros pick Hlt; simpl in *; [lia|].
  destruct pick as [|pick]; [apply elem_of_cons; left; reflexivity|].
  apply elem_of_cons. right. apply IH. lia.
Qed.

(** The enemy's choice of action: in rage mode it is an attack or a strong
    attack whatever the action pool and the player's last action (two of
    the three picks give the plain attack); a calm enemy answers a defend
    with a strong attack and a dodge with a feint, and otherwise takes an
    action of its pool (the plain attack when the pool is empty).  So with
    a pool of known actions the action chosen is always a known one, and
    [enemy_turn] never falls through to its last branch. *)
Theorem enemy_action_policy (e : Enemy.t) (last : option string) (pick : nat) :
  pick_in_range e pick ->
  let action := Enemy.choose_action e last pick in
  (Enemy.rage_mode e = true ->
   (action = "attack" \/ action = "strong_attack")
   /\ length (filter (fun k => Enemy.choose_action e last k = "attack")
                     (seq 0 3)) = 2%nat)
  /\ (Enemy.rage_mode e = false -> last = Some "defend" ->
      action = "strong_attack")
  /\ (Enemy.rage_mode e = false -> last = Some "dodge" -> action = "feint")
  /\ (Enemy.rage_mode e = false -> last <> Some "defend" ->
      last <> Some "dodge" ->
      (Enemy.combat_patterns e = [] /\ action = "attack")
      \/ action ∈ Enemy.combat_patterns e)
  /\ (Forall (fun a => a ∈ known_actions) (Enemy.combat_patterns e) ->
      action ∈ known_actions).
Proof.
  unfold pick_in_range, Enemy.choose_action. intros Hpick.
  destruct (Enemy.rage_mode e) eqn:Hr.
  - assert (Hcases : pick = 0%nat \/ pick = 1%nat \/ pick = 2%nat) by lia.
    split; [intros _; split;
            [destruct Hcases as [ -> | [ -> | -> ] ]; simpl; auto | reflexivity]|].
    repeat split; try discriminate.
    intros _. destruct Hcases as [ -> | [ -> | -> ] ];
      unfold known_actions; simpl; repeat constructor.
  - split; [discriminate|].
    split; [intros _ ->; reflexivity|].
    split; [intros _ ->; reflexivity|].
    assert (Hpool : last <> Some "defend" -> last <> Some "dodge" ->
              (Enemy.combat_patterns e = []
               /\ (if bool_decide (last = Some "defend") then "strong_attack"
                   else if bool_decide (last = Some "dodge") then "feint"
                   else if Z.of_nat (length (Enemy.combat_patterns e)) >? 0
                        then Enemy.choice (Enemy.combat_patterns e) pick
                        else "attack") = "attack")
              \/ (if bool_decide (last = Some "defend") then "strong_attack"
                  else if bool_decide (last = Some "dodge") then "feint"
                  else if Z.of_nat (length (Enemy.combat_patterns e)) >? 0
                       then Enemy.choice (Enemy.combat_patterns e) pick
                       else "attack") ∈ Enemy.combat_patterns e).
    { intros Hd Ho.
      destruct (bool_decide_reflect (last = Some "defend")); [contradiction|].
      destruct (bool_decide_reflect (last = Some "dodge")); [contradiction|].
      destruct Hpick as [Hnil|Hlt].
      - left. rewrite Hnil. split; reflexivity.
      - right. rewrite Z.gtb_ltb.
        destruct (Z.ltb_spec 0 (Z.of_nat (length (Enemy.combat_patterns e))));
          [|lia].
        apply choice_elem. exact Hlt. }
    split; [intros _; exact Hpool|].
    intros Hknown.
    destruct (bool_decide_reflect (last = Some "defend")) as [Hd|Hd];
      [unfold known_actions; repeat constructor|].
    destruct (bool_decide_reflect (last = Some "dodge")) as [Ho|Ho];
      [unfold known_actions; repeat constructor|].
    destruct (Hpool Hd Ho) as [[_ E]|Hin].
    + rewrite E. unfold known_actions. repeat constructor.
    + rewrite Forall_forall in Hknown. apply Hknown. exact Hin.
Qed.

Lemma enemy_action_policy_witness :
  let killer := Enemy.init "밤의 살인귀" 80 20 10 50 None
                  (Some ["attack"; "feint"; "strong_attack"; "taunt"]) in
  let raging := fst (Enemy.take_damage killer 70) in
  Enemy.choose_action killer (Some "attack") 3 ∈ known_actions
  /\ Enemy.choose_action killer (Some "defend") 3 = "strong_attack"
  /\ (Enemy.choose_action raging (Some "dodge") 1 = "attack"
      \/ Enemy.choose_action raging (Some "dodge") 1 = "strong_attack").
Proof.
  intros killer raging.
  assert (Hk : pick_in_range killer 3) by (right; simpl; lia).
  assert (Hr : pick_in_range raging 1) by (vm_compute; lia).
  destruct (enemy_action_policy killer (Some "attack") 3 Hk) as (_ & _ & _ & _ & K).
  destruct (enemy_action_policy killer (Some "defend") 3 Hk) as (_ & D & _).
  destruct (enemy_action_policy raging (Some "dodge") 1 Hr) as (R & _).
  split; [apply K; unfold known_actions; repeat constructor|].
  split; [apply D; reflexivity|].
  apply R. reflexivity.
Defined.

Lemma trunc_mul_mono (x y num den : Z) :
  0 <= num -> 0 < den -> x <= y -> trunc_mul x num den <= trunc_mul y num den.
Proof. intros Hn Hd Hxy. unfold trunc_mul. apply Z.quot_le_mono; nia. Qed.

Lemma trunc_mul_nonneg (x num den : Z) :
  0 <= num -> 0 < den -> 0 <= x -> 0 <= trunc_mul x num den.
Proof. intros Hn Hd Hx. unfold trunc_mul. apply Z.quot_pos; nia. Qed.

Lemma trunc_mul_grows (x num den : Z) :
  0 < den <= num -> 0 <= x -> x <= trunc_mul x num den.
Proof. intros Hd Hx. unfold trunc_mul. apply Z.quot_le_lower_bound; nia. Qed.

Lemma trunc_mul_shrinks (x num den : Z) :
  0 <= num <= den -> 0 < den -> 0 <= x -> trunc_mul x num den <= x.
Proof. intros Hn Hd Hx. unfold trunc_mul. apply Z.quot_le_upper_bound; nia. Qed.

Lemma attack_damage_range (e : Enemy.t) (offset : Z) :
  -5 <= offset <= 5 ->
  5 <= Enemy.attack e ->
  Enemy.stance e <> "aggressive" ->
  0 <= Enemy.get_attack_damage e offset
  /\ Enemy.get_attack_damage e offset
     <= (if Enemy.rage_mode e then trunc_mul (Enemy.attack e + 5) 13 10
         else Enemy.attack e + 5).
Proof.
  intros Ho Ha Hs. unfold Enemy.get_attack_damage.
  set (base := Enemy.attack e + offset).
  assert (Hb : 0 <= base <= Enemy.attack e + 5) by (subst base; lia).
  set (raged := if Enemy.rage_mode e then trunc_mul base 13 10 else base).
  assert (Hr : 0 <= raged
               /\ raged <= (if Enemy.rage_mode e
                            then trunc_mul (Enemy.attack e + 5) 13 10
                            else Enemy.attack e + 5)).
  { subst raged. destruct (Enemy.rage_mode e); [|lia].
    split; [apply trunc_mul_nonneg; lia | apply trunc_mul_mono; lia]. }
  destruct (bool_decide_reflect (Enemy.stance e = "aggressive"));
    [contradiction|].
  destruct (bool_decide _); [|exact Hr].
  split; [apply trunc_mul_nonneg; lia|].
  pose proof (trunc_mul_shrinks raged 4 5 ltac:(lia) ltac:(lia) ltac:(lia)). lia.
Qed.

Lemma enemy_turn_health (s : Combat.t) (h : gmap loc Item.t)
    (dodge_roll : Z) (pick : nat) (offset : Z) :
  let p := Combat.player s in
  let p' := Combat.player
              (snd (fst (Combat.enemy_turn s h dodge_roll pick offset))) in
  let dmg := Enemy.get_attack_damage (Combat.enemy s) offset in
  Character.health p' = Character.health p
  \/ Character.health p'
     = Character.health p - Z.max 0 (dmg - Character.defense p)
  \/ Character.health p'
     = Character.health p
       - Z.max 0 (trunc_mul dmg 3 2 - Character.defense p).
Proof.
  destruct s as [p e tc log act la ra].
  unfold Combat.enemy_turn, Character.take_damage. session_fields.
  repeat match goal with
  | |- context [if ?c then _ else _] => destruct c; session_fields
  | |- context [match ?x with Some _ => _ | None => _ end] =>
      destruct x; session_fields
  end; auto.
Qed.

(** What one enemy turn can cost: with the draw of [get_attack_damage] in
    [-5, 5], an attack of at least 5 and a stance other than the
    aggressive one (the only stances the code ever sets are normal and
    defensive), the player's health never rises in the enemy's turn and
    falls by at most the strongest strong attack minus the player's scalar
    defense: [int(1.5 * (attack + 5))] for a calm enemy,
    [int(1.5 * int(1.3 * (attack + 5)))] for an enraged one. *)
Theorem enemy_turn_damage_bound (s : Combat.t) (h : gmap loc Item.t)
    (dodge_roll : Z) (pick : nat) (offset : Z) :
  -5 <= offset <= 5 ->
  5 <= Enemy.attack (Combat.enemy s) ->
  Enemy.stance (Combat.enemy s) <> "aggressive" ->
  let p := Combat.player s in
  let p' := Combat.player
              (snd (fst (Combat.enemy_turn s h dodge_roll pick offset))) in
  let top := if Enemy.rage_mode (Combat.enemy s)
             then trunc_mul (Enemy.attack (Combat.enemy s) + 5) 13 10
             else Enemy.attack (Combat.enemy s) + 5 in
  0 <= Character.health p - Character.health p'
    <= Z.max 0 (trunc_mul top 3 2 - Character.defense p).
Proof.
  intros Ho Ha Hs p p' top.
  destruct (attack_damage_range (Combat.enemy s) offset Ho Ha Hs) as [H0 Htop].
  fold top in Htop.
  set (dmg := Enemy.get_attack_damage (Combat.enemy s) offset) in *.
  assert (Hstrong : trunc_mul dmg 3 2 <= trunc_mul top 3 2)
    by (apply trunc_mul_mono; lia).
  assert (Hplain : dmg <= trunc_mul dmg 3 2)
    by (apply trunc_mul_grows; lia).
  destruct (enemy_turn_health s h dodge_roll pick offset) as [E|[E|E]];
    fold p p' dmg in E; rewrite E; lia.
Qed.

Lemma enemy_turn_damage_bound_witness :
  let wolf := Enemy.init "굶주린 늑대" 40 15 3 15 None
                (Some ["attack"; "attack"; "strong_attack"]) in
  let s := Combat.init (Character.init "무명" WAR_ORPHAN) wolf in
  let p' := Combat.player (snd (fst (Combat.enemy_turn s ∅ 100 2 5))) in
  0 <= 100 - Character.health p' <= 20.
Proof.
  intros wolf s p'.
  assert (Ho : -5 <= 5 <= 5) by lia.
  assert (Ha : 5 <= Enemy.attack (Combat.enemy s)) by (vm_compute; discriminate).
  assert (Hs : Enemy.stance (Combat.enemy s) <> "aggressive") by discriminate.
  exact (enemy_turn_damage_bound s ∅ 100 2 5 Ho Ha Hs).
Defined.

(** ** The player's attack *)

(** An accepted attack (slot free, at least 10 stamina) always costs 10
    stamina and no focus.  It hits exactly when the roll is at most
    [70 + focus // 10 - (100 - stamina left) // 20]: then the enemy takes
    one [take_damage] of total attack plus the damage roll and the
    equipped weapon, if any, loses 1 durability; otherwise the enemy and
    the items are untouched.  For focus in [0, 100] and stamina at most
    100 the hit chance lies between 65 and 80, so a roll up to 65 always
    hits and a roll above 80 never does. *)
Theorem attack_hits_and_misses (s : Combat.t) (h : gmap loc Item.t)
    (hit_roll dmg_roll : Z) :
  Character.turn_action_taken (Combat.player s) = false ->
  10 <= Character.stamina (Combat.player s) ->
  let p := Combat.player s in
  let r := Combat.player_attack s h hit_roll dmg_roll in
  let hit_chance :=
    70 + Character.focus p / 10 - (100 - (Character.stamina p - 10)) / 20 in
  Character.stamina (Combat.player (snd (fst r))) = Character.stamina p - 10
  /\ Character.focus (Combat.player (snd (fst r))) = Character.focus p
  /\ (hit_roll <= hit_chance ->
      Combat.enemy (snd (fst r))
      = fst (Enemy.take_damage (Combat.enemy s)
               (Character.get_total_attack p h + dmg_roll))
      /\ snd r = match Character.equipped_weapon p with
                 | Some w => wear w h
                 | None => h
                 end)
  /\ (hit_chance < hit_roll ->
      Combat.enemy (snd (fst r)) = Combat.enemy s /\ snd r = h
      /\ fst (fst r) = "공격이 빗나갔습니다!")
  /\ (0 <= Character.focus p <= 100 -> Character.stamina p <= 100 ->
      65 <= hit_chance <= 80).
Proof.
  intros Hturn Hsta p r hit_chance.
  assert (Hchance : 0 <= Character.focus p <= 100 -> Character.stamina p <= 100 ->
                    65 <= hit_chance <= 80).
  { subst hit_chance p. cbv zeta. intros Hf Hs. Z.div_mod_to_equations. lia. }
  subst r hit_chance p.
  destruct s as [p e tc log act la ra].
  destruct p as [nm og jb fa mh hp ms sta mf foc df sn ba bd inv ew ea sk mo
                 ex lv ic tat cu ni bu de].
  simpl in Hturn, Hsta, Hchance. subst tat.
  unfold Combat.player_attack, Character.use_stamina, Character.get_total_attack.
  session_fields.
  destruct (Z.ltb_spec sta 10) as [|_]; [lia|].
  rewrite Z.geb_leb. destruct (Z.leb_spec 10 sta) as [_|]; [|lia].
  session_fields.
  destruct (Z.leb_spec hit_roll (70 + foc / 10 - (100 - (sta - 10)) / 20))
    as [Hhit|Hmiss].
  - destruct (Enemy.take_damage e _) as [e' ad] eqn:Et. session_fields.
    repeat match goal with
    | |- context [if ?c then _ else _] => destruct c; session_fields
    | |- context [match ?x with Some _ => _ | None => _ end] =>
        destruct x; session_fields
    end;
      (split; [reflexivity|]); (split; [reflexivity|]);
      (split; [intros _; split; reflexivity|]);
      (split; [intros; lia | exact Hchance]).
  - session_fields.
    split; [reflexivity|]. split; [reflexivity|].
    split; [intros; lia|].
    split; [intros _; repeat split; reflexivity | exact Hchance].
Qed.

Lemma attack_hits_and_misses_witness :
  let sword := Item.init "녹슨 검" WEAPON "오래된 녹슨 검이다." 10 0 "" in
  let h : gmap loc Item.t := {[ 0%nat := sword ]} in
  let p := Character.equip_weapon
             (Character.add_item (Character.init "무명" BANDIT_OUTCAST) 0%nat)
             h 0%nat in
  let thief := Enemy.init "도적" 50 12 5 20 None
                 (Some ["attack"; "feint"; "strong_attack"]) in
  let r := Combat.player_attack (Combat.init p thief) h 65 0 in
  Enemy.health (Combat.enemy (snd (fst r))) = 50 - (20 + 10 + 0 - 5)
  /\ Item.durability (snd r !!! 0%nat) = 99
  /\ Character.stamina (Combat.player (snd (fst r))) = 90.
Proof.
  intros sword h p thief r.
  assert (Hturn : Character.turn_action_taken
                    (Combat.player (Combat.init p thief)) = false) by reflexivity.
  assert (Hsta : 10 <= Character.stamina (Combat.player (Combat.init p thief)))
    by (vm_compute; discriminate).
  destruct (attack_hits_and_misses (Combat.init p thief) h 65 0 Hturn Hsta)
    as (Hs & _ & Hhit & _ & Hwin).
  assert (Hin : 65 <= 70 + Character.focus p / 10
                      - (100 - (Character.stamina p - 10)) / 20)
    by (apply Hwin; vm_compute; first [split; discriminate | discriminate]).
  destruct (Hhit Hin) as [He Hst].
  fold r in Hs, He, Hst.
  split; [rewrite He; vm_compute; reflexivity|].
  split; [rewrite Hst; vm_compute; reflexivity|].
  rewrite Hs. reflexivity.
Defined.

(** ** Saved data: round trips *)

Lemma mapM_round_trip {A B} (f : A -> B) (g : B -> option A) (l : list A) :
  (forall x, g (f x) = Some x) -> mapM g (f <$> l) = Some l.
Proof.
  intros H. apply mapM_Some. induction l; constructor; auto.
Qed.

(** [Item.from_dict] undoes [Item.to_dict] on every item, and
    [Skill.from_dict] undoes [Skill.to_dict] on every skill: all fields
    come back, the enhancement level and the durability included. *)
Theorem item_and_skill_round_trip :
  (forall i : Item.t, Item.from_dict (Item.to_dict i) = Some i)
  /\ (forall s : Skill.t, Skill.from_dict (Skill.to_dict s) = Some s).
Proof.
  split.
  - intros [n ty d p df se el du]. destruct ty; reflexivity.
  - intros []. reflexivity.
Qed.

(** [NPC.from_dict] undoes [NPC.to_dict]: name, faction, trust,
    memories and the hostility flag come back as they were, so a hostile
    NPC stays hostile over a save whatever its trust is. *)
Theorem npc_round_trip (n : NPC.t) : NPC.from_dict (NPC.to_dict n) = Some n.
Proof.
  destruct n as [n f t ms hs].
  unfold NPC.from_dict, NPC.to_dict.
  cbn [NPC.name NPC.faction NPC.trust NPC.memories NPC.is_hostile].
  change (get _ "name" as_str) with (Some n).
  change (get _ "faction" as_str) with (Some (Faction_value f)).
  change (get _ "trust" as_int) with (Some t).
  change (get _ "memories" as_list)
    with (Some (PDict ∘ NPC.memory_to_dict <$> ms)).
  change (get _ "is_hostile" as_bool) with (Some hs).
  cbn [mbind option_bind].
  replace (enum_of_value Faction_value Faction_members (Faction_value f))
    with (Some f) by (destruct f; reflexivity).
  cbn [mbind option_bind].
  rewrite (mapM_round_trip (PDict ∘ NPC.memory_to_dict) NPC.memory_of_val)
    by (intros []; reflexivity).
  reflexivity.
Qed.

(** ** Saving and loading the character *)

Lemma Faction_value_inj : Inj (=) (=) Faction_value.
Proof. intros [] []; simpl; intros H; try reflexivity; discriminate H. Qed.

Lemma affinity_round_trip (m : gmap Faction Z) :
  Character.load_affinity
    (list_to_map ((fun kv => (Faction_value kv.1, PInt kv.2)) <$> map_to_list m))
  = Some m.
Proof.
  unfold Character.load_affinity, dict.
  set (f := fun kv : Faction * Z => (Faction_value kv.1, PInt kv.2)).
  set (g := fun kv : string * PyVal => _).
  assert (Hgf : forall x, g (f x) = Some x).
  { intros [[] v]; reflexivity. }
  assert (Hnd : NoDup ((f <$> map_to_list m).*1)).
  { rewrite <- list_fmap_compose.
    change (fst ∘ f) with (Faction_value ∘ (fst : Faction * Z -> Faction)).
    rewrite list_fmap_compose.
    apply (@NoDup_fmap_2 _ _ Faction_value Faction_value_inj). apply NoDup_fst_map_to_list. }
  pose proof (map_to_list_to_map (M := gmap string) _ Hnd) as Hp.
  apply Permutation_map_inv in Hp as (l' & Hl' & Hperm).
  change (map f l') with (f <$> l') in Hl'.
  rewrite Hl', (mapM_round_trip f g) by exact Hgf.
  simpl. f_equal.
  rewrite <- (list_to_map_to_list m).
  apply list_to_map_proper; [|symmetry; exact Hperm].
  rewrite <- Hperm. apply NoDup_fst_map_to_list.
Qed.

Lemma load_item_val h h0 l :
  load_item (Character.item_val h l) h0 = Some (new_item h0 (h !!! l)).
Proof.
  unfold load_item, Character.item_val. simpl.
  destruct (h !!! l) as [n ty d p df se el du]. destruct ty; reflexivity.
Qed.

Lemma new_item_fresh h i :
  h !! (new_item h i).1 = None
  /\ (new_item h i).2 !! (new_item h i).1 = Some i
  /\ h ⊆ (new_item h i).2.
Proof.
  unfold new_item. cbn [fst snd].
  assert (Hf : h !! fresh (dom h) = None).
  { apply not_elem_of_dom. apply is_fresh. }
  split; [exact Hf|]. split; [apply lookup_insert_eq|].
  apply insert_subseteq. exact Hf.
Qed.

Lemma load_items_spec h (ls : list loc) h0 :
  exists ls' h',
    load_items (Character.item_val h <$> ls) h0 = Some (ls', h')
    /\ (fun l => h' !!! l) <$> ls' = (fun l => h !!! l) <$> ls
    /\ NoDup ls'
    /\ (forall l, l ∈ ls' -> h0 !! l = None)
    /\ (forall l, l ∈ ls' -> is_Some (h' !! l))
    /\ h0 ⊆ h'.
Proof.
  revert h0. induction ls as [|l ls IH]; intros h0.
  - exists [], h0.
    split; [reflexivity|]. split; [reflexivity|]. split; [constructor|].
    split; [intros l Hl; inversion Hl|].
    split; [intros l Hl; inversion Hl|]. reflexivity.
  - rewrite fmap_cons. cbn [load_items]. rewrite load_item_val.
    destruct (new_item_fresh h0 (h !!! l)) as (Hf & Hl & Hsub).
    destruct (new_item h0 (h !!! l)) as [l1 h1].
    cbn [fst snd] in Hf, Hl, Hsub.
    destruct (IH h1) as (ls' & h' & Heq & Hv & Hnd & Hfresh & Hin' & Hsub').
    exists (l1 :: ls'), h'. cbn [mbind option_bind]. rewrite Heq.
    cbn [mbind option_bind].
    assert (Hl' : h' !! l1 = Some (h !!! l)) by (eapply lookup_weaken; eauto).
    split; [reflexivity|].
    split.
    { rewrite !fmap_cons. f_equal; [|exact Hv].
      apply lookup_total_correct. exact Hl'. }
    split.
    { constructor; [|exact Hnd]. intros Hin.
      rewrite (Hfresh _ Hin) in Hl. discriminate Hl. }
    split.
    { intros x [->|Hin]%elem_of_cons; [exact Hf|].
      destruct (h0 !! x) eqn:Hx; [|reflexivity].
      specialize (Hfresh _ Hin).
      rewrite (lookup_weaken _ _ _ _ Hx Hsub) in Hfresh.
      discriminate Hfresh. }
    split.
    { intros x [->|Hin]%elem_of_cons; [eexists; exact Hl'|auto]. }
    etrans; eauto.
Qed.

Lemma truthy_item_val h l : truthy (Character.item_val h l) = true.
Proof. unfold Character.item_val. destruct (h !!! l). reflexivity. Qed.

Lemma load_slot_spec h (slot : option loc) h0 :
  exists w h',
    load_slot (slot_val h slot) h0 = Some (w, h')
    /\ (fun l => h' !!! l) <$> w = (fun l => h !!! l) <$> slot
    /\ (forall l, w = Some l -> h0 !! l = None)
    /\ (forall l, w = Some l -> is_Some (h' !! l))
    /\ h0 ⊆ h'.
Proof.
  destruct slot as [l|]; unfold load_slot, slot_val.
  - rewrite truthy_item_val, load_item_val.
    destruct (new_item_fresh h0 (h !!! l)) as (Hf & Hl & Hsub).
    destruct (new_item h0 (h !!! l)) as [l1 h1].
    cbn [fst snd] in Hf, Hl, Hsub. cbn [mbind option_bind].
    exists (Some l1), h1.
    split; [reflexivity|].
    split; [cbn [fmap option_fmap option_map]; f_equal;
            apply lookup_total_correct; exact Hl|].
    split; [intros x [= <-]; exact Hf|].
    split; [intros x [= <-]; eexists; exact Hl|exact Hsub].
  - exists None, h0. cbn [truthy].
    split; [reflexivity|]. split; [reflexivity|].
    split; [intros x [=]|]. split; [intros x [=]|reflexivity].
Qed.

Lemma lookup_total_weaken (h1 h2 : gmap loc Item.t) l :
  h1 ⊆ h2 -> is_Some (h1 !! l) -> h2 !!! l = h1 !!! l.
Proof.
  intros Hsub [i Hi].
  rewrite (lookup_total_correct _ _ _ Hi).
  apply lookup_total_correct. eapply lookup_weaken; eauto.
Qed.

Lemma fmap_total_weaken (h1 h2 : gmap loc Item.t) (ls : list loc) :
  h1 ⊆ h2 -> (forall l, l ∈ ls -> is_Some (h1 !! l)) ->
  (fun l => h2 !!! l) <$> ls = (fun l => h1 !!! l) <$> ls.
Proof.
  intros Hsub Hin. induction ls as [|l ls IH]; [reflexivity|].
  rewrite !fmap_cons. f_equal.
  - apply lookup_total_weaken; [exact Hsub|]. apply Hin. left.
  - apply IH. intros x Hx. apply Hin. right. exact Hx.
Qed.

Ltac read key as_type v :=
  change (get _ key as_type) with (Some v); cbn [mbind option_bind].

Lemma from_dict_to_dict c h h0 :
  exists inv w a h',
    Character.from_dict (Character.to_dict c h) h0
      = Some (reloaded c inv w a, h')
    /\ (fun l => h' !!! l) <$> inv = (fun l => h !!! l) <$> Character.inventory c
    /\ (fun l => h' !!! l) <$> w = (fun l => h !!! l) <$> Character.equipped_weapon c
    /\ (fun l => h' !!! l) <$> a = (fun l => h !!! l) <$> Character.equipped_armor c
    /\ NoDup (inv ++ option_list w ++ option_list a)
    /\ (forall l, l ∈ (inv ++ option_list w ++ option_list a)%list -> h0 !! l = None)
    /\ h0 ⊆ h'.
Proof.
  destruct (load_items_spec h (Character.inventory c) h0)
    as (inv & h1 & Hinv & Hv1 & Hnd1 & Hf1 & Hin1 & Hs1).
  destruct (load_slot_spec h (Character.equipped_weapon c) h1)
    as (w & h2 & Hw & Hv2 & Hf2 & Hin2 & Hs2).
  destruct (load_slot_spec h (Character.equipped_armor c) h2)
    as (a & h3 & Ha & Hv3 & Hf3 & Hin3 & Hs3).
  exists inv, w, a, h3.
  split.
  { unfold Character.from_dict, Character.to_dict.
    read "name" as_str (Character.name c).
    read "origin" as_str (Origin_value (Character.origin c)).
    replace (enum_of_value Origin_value Origin_members
               (Origin_value (Character.origin c)))
      with (Some (Character.origin c))
      by (destruct (Character.origin c); reflexivity).
    cbn [mbind option_bind].
    read "job" as_str (JobPath_value (Character.job c)).
    replace (enum_of_value JobPath_value JobPath_members
               (JobPath_value (Character.job c)))
      with (Some (Character.job c))
      by (destruct (Character.job c); reflexivity).
    cbn [mbind option_bind].
    read "faction_affinity" as_dict
      (list_to_map ((fun kv : Faction * Z => (Faction_value kv.1, PInt kv.2))
                      <$> map_to_list (Character.faction_affinity c)) : dict).
    rewrite affinity_round_trip. cbn [mbind option_bind].
    match goal with
    | |- context [get _ "stats" as_dict ≫= ?k] =>
        change (get _ "stats" as_dict ≫= k)
          with (k (list_to_map [
            ("max_health", PInt (Character.max_health c));
            ("health", PInt (Character.health c));
            ("max_stamina", PInt (Character.max_stamina c));
            ("stamina", PInt (Character.stamina c));
            ("max_focus", PInt (Character.max_focus c));
            ("focus", PInt (Character.focus c));
            ("defense", PInt (Character.defense c));
            ("sanity", PInt (Character.sanity c));
            ("base_attack", PInt (Character.base_attack c));
            ("base_defense", PInt (Character.base_defense c))]))
    end.
    cbv beta.
    read "max_health" as_int (Character.max_health c).
    read "health" as_int (Character.health c).
    read "max_stamina" as_int (Character.max_stamina c).
    read "stamina" as_int (Character.stamina c).
    read "max_focus" as_int (Character.max_focus c).
    read "focus" as_int (Character.focus c).
    read "defense" as_int (Character.defense c).
    read "sanity" as_int (Character.sanity c).
    read "base_attack" as_int (Character.base_attack c).
    read "base_defense" as_int (Character.base_defense c).
    read "inventory" as_list (Character.item_val h <$> Character.inventory c).
    rewrite Hinv. cbn [mbind option_bind].
    change (_ !! "equipped_weapon")
      with (Some (slot_val h (Character.equipped_weapon c))).
    cbn [mbind option_bind]. rewrite Hw. cbn [mbind option_bind].
    change (_ !! "equipped_armor")
      with (Some (slot_val h (Character.equipped_armor c))).
    cbn [mbind option_bind]. rewrite Ha. cbn [mbind option_bind].
    read "skills" as_list (PDict ∘ Skill.to_dict <$> Character.skills c).
    rewrite (mapM_round_trip (PDict ∘ Skill.to_dict)
               (fun v => as_dict v ≫= Skill.from_dict))
      by (intros []; reflexivity).
    cbn [mbind option_bind].
    read "experience" as_int (Character.experience c).
    read "level" as_int (Character.level c).
    change (get_default _ "money" as_int 50) with (Some (Character.money c)).
    change (get_default _ "is_cursed" as_bool false)
      with (Some (Character.is_cursed c)).
    cbn [mbind option_bind].
    change (_ !! "nightmares")
      with (Some (PList (PStr <$> Character.nightmares c))).
    change (_ !! "buffs")
      with (Some (PList (PDict ∘ Buff.to_dict <$> Character.buffs c))).
    change (_ !! "debuffs")
      with (Some (PList (PDict ∘ Buff.to_dict <$> Character.debuffs c))).
    cbn [mbind option_bind as_list].
    rewrite (mapM_round_trip PStr as_str) by reflexivity.
    rewrite !(mapM_round_trip (PDict ∘ Buff.to_dict) Buff.of_val)
      by (intros []; reflexivity).
    cbn [mbind option_bind].
    reflexivity. }
  split.
  { rewrite <- Hv1.
    apply fmap_total_weaken; [etrans; eauto|exact Hin1]. }
  split.
  { rewrite <- Hv2. destruct w as [l|]; [|reflexivity].
    cbn [fmap option_fmap option_map]. f_equal.
    apply lookup_total_weaken; [exact Hs3|]. apply Hin2. reflexivity. }
  split; [exact Hv3|].
  assert (Hw_inv : forall l, w = Some l -> l ∉ inv).
  { intros l Hl Hin. destruct (Hin1 _ Hin) as [i Hi].
    rewrite (Hf2 _ Hl) in Hi. discriminate Hi. }
  assert (Ha_inv : forall l, a = Some l -> l ∉ inv).
  { intros l Hl Hin. destruct (Hin1 _ Hin) as [i Hi].
    specialize (Hf3 _ Hl).
    rewrite (lookup_weaken _ _ _ _ Hi Hs2) in Hf3. discriminate Hf3. }
  assert (Ha_w : forall l, a = Some l -> w <> Some l).
  { intros l Hl Hwl. destruct (Hin2 _ Hwl) as [i Hi].
    rewrite (Hf3 _ Hl) in Hi. discriminate Hi. }
  split.
  { apply NoDup_app. split; [exact Hnd1|]. split.
    - intros l Hin [Hl|Hl]%elem_of_app.
      + destruct w as [x|]; [|inversion Hl].
        apply list_elem_of_singleton in Hl as ->.
        exact (Hw_inv x eq_refl Hin).
      + destruct a as [x|]; [|inversion Hl].
        apply list_elem_of_singleton in Hl as ->.
        exact (Ha_inv x eq_refl Hin).
    - apply NoDup_app. split; [destruct w; repeat constructor; inversion 1|].
      split; [|destruct a; repeat constructor; inversion 1].
      intros l Hl Hl'.
      destruct w as [x|]; [|inversion Hl].
      apply list_elem_of_singleton in Hl as ->.
      destruct a as [y|]; [|inversion Hl'].
      apply list_elem_of_singleton in Hl' as ->.
      exact (Ha_w y eq_refl eq_refl). }
  split; [|etrans; [exact Hs1|etrans; eauto]].
  intros l [Hl|[Hl|Hl]%elem_of_app]%elem_of_app.
  - exact (Hf1 _ Hl).
  - destruct w as [x|]; [|inversion Hl].
    apply list_elem_of_singleton in Hl as ->.
    specialize (Hf2 x eq_refl).
    destruct (h0 !! x) eqn:Hx; [|reflexivity].
    rewrite (lookup_weaken _ _ _ _ Hx Hs1) in Hf2. discriminate Hf2.
  - destruct a as [x|]; [|inversion Hl].
    apply list_elem_of_singleton in Hl as ->.
    specialize (Hf3 x eq_refl).
    destruct (h0 !! x) eqn:Hx; [|reflexivity].
    assert (Hs : h0 ⊆ h2) by (etrans; eauto).
    rewrite (lookup_weaken _ _ _ _ Hx Hs) in Hf3. discriminate Hf3.
Qed.

(** Saving the character and loading the result always succeeds and gives
    back every saved attribute; the two combat flags, which are not saved,
    are cleared.  The items of the inventory and of the two slots come back
    with all their fields, in the same order, so total attack and total
    defense are what they were.  No object that existed before the load is
    changed. *)
Theorem save_load_restores_character (c : Character.t)
    (h h0 : gmap loc Item.t) :
  exists c' h',
    Character.from_dict (Character.to_dict c h) h0 = Some (c', h')
    /\ c' = reloaded c (Character.inventory c') (Character.equipped_weapon c')
              (Character.equipped_armor c')
    /\ contents h' (Character.inventory c')
       = contents h (Character.inventory c)
    /\ (fun l => h' !!! l) <$> Character.equipped_weapon c'
       = (fun l => h !!! l) <$> Character.equipped_weapon c
    /\ (fun l => h' !!! l) <$> Character.equipped_armor c'
       = (fun l => h !!! l) <$> Character.equipped_armor c
    /\ Character.get_total_attack c' h' = Character.get_total_attack c h
    /\ Character.get_total_defense c' h' = Character.get_total_defense c h
    /\ h0 ⊆ h'.
Proof.
  destruct (from_dict_to_dict c h h0)
    as (inv & w & a & h' & Heq & Hinv & Hw & Ha & _ & _ & Hsub).
  exists (reloaded c inv w a), h'.
  split; [exact Heq|]. split; [reflexivity|].
  split; [exact Hinv|]. split; [exact Hw|]. split; [exact Ha|].
  split; [|split; [|exact Hsub]].
  - unfold Character.get_total_attack, reloaded.
    cbn [Character.equipped_weapon Character.base_attack].
    destruct w as [x|], (Character.equipped_weapon c) as [y|];
      try discriminate Hw; [|reflexivity].
    injection Hw as ->. reflexivity.
  - unfold Character.get_total_defense, reloaded.
    cbn [Character.equipped_armor Character.base_defense Character.buffs].
    destruct a as [x|], (Character.equipped_armor c) as [y|];
      try discriminate Ha; [|reflexivity].
    injection Ha as ->. reflexivity.
Qed.

(** The load creates every item anew: the references of the loaded
    character (inventory, weapon slot, armor slot) are pairwise distinct
    objects, none of which existed before.  So an equipped item is no longer
    one of the inventory items, even when it was before the save: whenever a
    slot is filled, the loaded character does not satisfy [gear_owned], and
    an object that occurred twice in the inventory has become two. *)
Theorem load_unlinks_equipment (c : Character.t) (h h0 : gmap loc Item.t) :
  exists c' h',
    Character.from_dict (Character.to_dict c h) h0 = Some (c', h')
    /\ NoDup (item_refs c')
    /\ (forall l, l ∈ item_refs c' -> h0 !! l = None)
    /\ (forall l, Character.equipped_weapon c' = Some l ->
                  l ∉ Character.inventory c')
    /\ (forall l, Character.equipped_armor c' = Some l ->
                  l ∉ Character.inventory c')
    /\ (Character.equipped_weapon c <> None
        \/ Character.equipped_armor c <> None -> ~ gear_owned c' h').
Proof.
  destruct (from_dict_to_dict c h h0)
    as (inv & w & a & h' & Heq & _ & Hw & Ha & Hnd & Hfresh & _).
  exists (reloaded c inv w a), h'.
  assert (Hwi : forall l, w = Some l -> l ∉ inv).
  { intros l -> Hin. apply NoDup_app in Hnd as (_ & Hd & _).
    apply (Hd l Hin). apply elem_of_app. left. left. }
  assert (Hai : forall l, a = Some l -> l ∉ inv).
  { intros l -> Hin. apply NoDup_app in Hnd as (_ & Hd & _).
    apply (Hd l Hin). apply elem_of_app. right. left. }
  split; [exact Heq|]. split; [exact Hnd|]. split; [exact Hfresh|].
  split; [exact Hwi|]. split; [exact Hai|].
  intros Hslot [Hgw Hga].
  destruct Hslot as [Hs|Hs].
  - destruct w as [x|].
    + destruct (Hgw x eq_refl) as [Hin _]. exact (Hwi x eq_refl Hin).
    + destruct (Character.equipped_weapon c); [discriminate Hw|].
      apply Hs. reflexivity.
  - destruct a as [x|].
    + destruct (Hga x eq_refl) as [Hin _]. exact (Hai x eq_refl Hin).
    + destruct (Character.equipped_armor c); [discriminate Ha|].
      apply Hs. reflexivity.
Qed.

(** ** NPC trust *)

Lemma adjust_trust_hostile (n : NPC.t) (a : Z) :
  NPC.is_hostile (NPC.adjust_trust n a) = true
  <-> NPC.is_hostile n = true \/ NPC.trust (NPC.adjust_trust n a) < 20.
Proof.
  unfold NPC.adjust_trust. cbn [NPC.is_hostile NPC.trust].
  destruct (Z.ltb_spec (Z.max 0 (Z.min 100 (NPC.trust n + a))) 20).
  - split; [right; assumption|reflexivity].
  - split; [left; assumption|]. intros [Hh|Hlt]; [exact Hh|lia].
Qed.

(** Over any sequence of [adjust_trust] calls the name, the faction and
    the memories are kept, and after at least one call the trust lies in
    [0, 100].  Hostility latches: the NPC is hostile at the end exactly
    when it was hostile at the start or the trust was below 20 right
    after one of the calls; later gains do not clear it, and a hostile
    NPC gets the hostile reaction whatever its trust is. *)
Theorem hostility_latches (n : NPC.t) (amounts : list Z) :
  let n' := adjust_trusts n amounts in
  NPC.name n' = NPC.name n
  /\ NPC.faction n' = NPC.faction n
  /\ NPC.memories n' = NPC.memories n
  /\ (amounts <> [] -> 0 <= NPC.trust n' <= 100)
  /\ (NPC.is_hostile n' = true <->
        NPC.is_hostile n = true
        \/ exists k : nat,
             (0 < k <= length amounts)%nat
             /\ NPC.trust (adjust_trusts n (take k amounts)) < 20)
  /\ (NPC.is_hostile n' = true ->
        NPC.get_reaction n' = NPC.name n ++ "이(가) 적대적으로 바라봅니다.").
Proof.
  cbv zeta.
  assert (Hmain :
    NPC.name (adjust_trusts n amounts) = NPC.name n
    /\ NPC.faction (adjust_trusts n amounts) = NPC.faction n
    /\ NPC.memories (adjust_trusts n amounts) = NPC.memories n
    /\ (amounts <> [] -> 0 <= NPC.trust (adjust_trusts n amounts) <= 100)
    /\ (NPC.is_hostile (adjust_trusts n amounts) = true <->
          NPC.is_hostile n = true
          \/ exists k : nat,
               (0 < k <= length amounts)%nat
               /\ NPC.trust (adjust_trusts n (take k amounts)) < 20)).
  { revert n. induction amounts as [|a l IH]; intros n.
    - split; [reflexivity|]. split; [reflexivity|]. split; [reflexivity|].
      split; [intros H; contradiction H; reflexivity|].
      split; [intros H; left; exact H|].
      intros [H|(k & Hk & _)]; [exact H|simpl in Hk; lia].
    - change (adjust_trusts n (a :: l))
        with (adjust_trusts (NPC.adjust_trust n a) l).
      destruct (IH (NPC.adjust_trust n a)) as (Hn & Hf & Hm & Ht & Hh).
      split; [rewrite Hn; reflexivity|].
      split; [rewrite Hf; reflexivity|].
      split; [rewrite Hm; reflexivity|].
      split.
      { intros _. destruct l as [|b l'].
        - unfold adjust_trusts, NPC.adjust_trust.
          cbn [fold_left NPC.trust]. lia.
        - apply Ht. discriminate. }
      rewrite Hh, adjust_trust_hostile. split.
      + intros [[H|H]|(k & Hk & H)].
        * left. exact H.
        * right. exists 1%nat. split; [simpl; lia|].
          destruct l; exact H.
        * right. exists (S k). split; [simpl; lia|].
          rewrite firstn_cons. exact H.
      + intros [H|(k & Hk & H)]; [left; left; exact H|].
        destruct k as [|[|k]]; [lia| |].
        * left. right. exact H.
        * right. exists (S k). split; [simpl in Hk; lia|].
          rewrite firstn_cons in H. exact H. }
  destruct Hmain as (Hn & Hf & Hm & Ht & Hh).
  split; [exact Hn|]. split; [exact Hf|]. split; [exact Hm|].
  split; [exact Ht|]. split; [exact Hh|].
  intros H. unfold NPC.get_reaction. rewrite H, Hn. reflexivity.
Qed.

(** ** Connections between locations *)

Lemma connect_location_fields (l : Location.t) (x : string) :
  let l' := Location.connect_location l x in
  Location.name l' = Location.name l
  /\ Location.description l' = Location.description l
  /\ Location.faction l' = Location.faction l
  /\ Location.danger_level l' = Location.danger_level l
  /\ Location.is_locked l' = Location.is_locked l
  /\ Location.npcs l' = Location.npcs l
  /\ Location.items l' = Location.items l
  /\ Location.connected_locations l'
     = (if bool_decide (x ∈ Location.connected_locations l)
        then Location.connected_locations l
        else Location.connected_locations l ++ [x])%list.
Proof.
  unfold Location.connect_location. cbv zeta.
  destruct (decide (x ∈ Location.connected_locations l)) as [Hin|Hin].
  - rewrite (bool_decide_eq_false_2 (x ∉ _)) by (intros H; exact (H Hin)).
    rewrite (bool_decide_eq_true_2 _ Hin). repeat split; reflexivity.
  - rewrite (bool_decide_eq_true_2 (x ∉ _) Hin).
    rewrite (bool_decide_eq_false_2 _ Hin). repeat split; reflexivity.
Qed.

(** [connect_location] keeps the list of connections free of duplicates:
    over any sequence of calls a list without duplicates stays without
    duplicates, the connections made before stay at the front in their
    order, and the names connected at the end are exactly the old ones
    and the ones passed; all other attributes are untouched, so
    connecting never unlocks a location. *)
Theorem connections_have_no_duplicates (l : Location.t)
    (names : list string) :
  NoDup (Location.connected_locations l) ->
  let l' := connect_locations l names in
  NoDup (Location.connected_locations l')
  /\ Location.connected_locations l
       `prefix_of` Location.connected_locations l'
  /\ (forall x, x ∈ Location.connected_locations l'
                <-> x ∈ Location.connected_locations l \/ x ∈ names)
  /\ Location.is_locked l' = Location.is_locked l
  /\ Location.npcs l' = Location.npcs l
  /\ Location.items l' = Location.items l.
Proof.
  cbv zeta. revert l. induction names as [|x names IH]; intros l Hnd.
  - split; [exact Hnd|]. split; [reflexivity|].
    split; [|repeat split; reflexivity].
    intros x. split; [intros H; left; exact H|].
    intros [H|H]; [exact H|inversion H].
  - change (connect_locations l (x :: names))
      with (connect_locations (Location.connect_location l x) names).
    destruct (connect_location_fields l x)
      as (_ & _ & _ & _ & Hlk & Hnp & Hit & Hc).
    assert (Hnd' : NoDup (Location.connected_locations
                            (Location.connect_location l x))).
    { rewrite Hc. case_bool_decide as Hin; [exact Hnd|].
      apply NoDup_app. split; [exact Hnd|]. split.
      - intros y Hy Hy'. apply list_elem_of_singleton in Hy' as ->.
        exact (Hin Hy).
      - apply NoDup_singleton. }
    destruct (IH _ Hnd') as (H1 & H2 & H3 & H4 & H5 & H6).
    split; [exact H1|].
    split.
    { etrans; [|exact H2]. rewrite Hc.
      case_bool_decide; [reflexivity|]. apply prefix_app_r. reflexivity. }
    split.
    { intros y. rewrite H3, Hc, elem_of_cons.
      case_bool_decide as Hin.
      - split; [intros [H|H]; [left; exact H|right; right; exact H]|].
        intros [H|[->|H]]; [left; exact H|left; exact Hin|right; exact H].
      - rewrite elem_of_app, list_elem_of_singleton.
        split; [intros [[H|H]|H]; auto|intros [H|[H|H]]; auto]. }
    rewrite H4, H5, H6, Hlk, Hnp, Hit. repeat split; reflexivity.
Qed.

Lemma connections_have_no_duplicates_witness :
  let l := Location.init "시장" "" NEUTRAL 1 true in
  NoDup (Location.connected_locations l)
  /\ NoDup (Location.connected_locations
              (connect_locations l ["경복궁"; "시장"; "경복궁"])).
Proof.
  cbv zeta. split; [constructor|].
  exact (proj1 (connections_have_no_duplicates
                  (Location.init "시장" "" NEUTRAL 1 true)
                  ["경복궁"; "시장"; "경복궁"] NoDup_nil_2)).
Defined.

(** ** The shop *)

Lemma shop_purchase_cases (db : string -> loc) (p : Character.t)
    (m : NPC.t) (h : gmap loc Item.t) (input : option Z) :
  Game.shop_purchase db p m h input = (p, m, h)
  \/ exists price item,
       50 <= price <= 500 /\ price <= Character.money p
       /\ Game.shop_purchase db p m h input
          = (Character.add_item
               (Character.set_money p (Character.money p - price))
               (new_item h (shop_copy h item)).1,
             NPC.adjust_trust m 5,
             (new_item h (shop_copy h item)).2).
Proof.
  unfold Game.shop_purchase.
  destruct input as [choice|]; [|left; reflexivity].
  destruct (Game.menu_entry (Game.shop_items db) choice)
    as [[name [item price]]|] eqn:He; [|left; reflexivity].
  destruct (Z.leb_spec price (Character.money p)) as [Hle|Hlt].
  - rewrite Z.geb_leb, (proj2 (Z.leb_le _ _) Hle).
    right. exists price, item.
    split.
    { apply menu_entry_elem in He. unfold Game.shop_items in He.
      repeat (apply elem_of_cons in He as [He|He];
              [injection He as _ _ ->; lia|]).
      inversion He. }
    split; [exact Hle|].
    fold (shop_copy h item).
    destruct (new_item h (shop_copy h item)). reflexivity.
  - rewrite Z.geb_leb, (proj2 (Z.leb_gt _ _) Hlt). left. reflexivity.
Qed.

Lemma typed_item_stored (h : gmap loc Item.t) (l : loc) :
  Item.item_type (h !!! l) <> STORY -> is_Some (h !! l).
Proof.
  intros H. destruct (h !! l) as [i|] eqn:Hl; [eexists; reflexivity|].
  contradiction H. rewrite lookup_total_alt, Hl. reflexivity.
Qed.

Lemma gear_owned_grows (p p' : Character.t) (h h' : gmap loc Item.t) :
  Character.equipped_weapon p' = Character.equipped_weapon p ->
  Character.equipped_armor p' = Character.equipped_armor p ->
  (forall l, l ∈ Character.inventory p -> l ∈ Character.inventory p') ->
  h ⊆ h' ->
  gear_owned p h -> gear_owned p' h'.
Proof.
  intros Hw Ha Hinv Hsub [Gw Ga]. split.
  - intros w Hw'. rewrite Hw in Hw'. destruct (Gw w Hw') as [Hin Hty].
    split; [apply Hinv; exact Hin|].
    rewrite (lookup_total_weaken h h'); [exact Hty|exact Hsub|].
    apply typed_item_stored. rewrite Hty. discriminate.
  - intros a Ha'. rewrite Ha in Ha'. destruct (Ga a Ha') as [Hin Hty].
    split; [apply Hinv; exact Hin|].
    rewrite (lookup_total_weaken h h'); [exact Hty|exact Hsub|].
    apply typed_item_stored. rewrite Hty. discriminate.
Qed.

(** Whatever is typed in the shop: the player's attributes other than
    money and inventory are untouched and the inventory only grows at its
    end.  Every item bought is a new object, distinct from the others
    bought and from every object there was, at enhancement level 0 with
    durability 100; no existing item is changed.  Each purchase costs
    between 50 and 500, so the money never rises, and once something has
    been bought it is not negative.  The merchant's trust is adjusted by
    5 once per purchase.  Equipped items that were inventory items of the
    right category still are. *)
Theorem shopping (db : string -> loc) (p : Character.t) (m : NPC.t)
    (h : gmap loc Item.t) (inputs : list (option Z)) :
  let p' := (Game.shop_menu db p m h inputs).1.1 in
  let m' := (Game.shop_menu db p m h inputs).1.2 in
  let h' := (Game.shop_menu db p m h inputs).2 in
  exists news : list loc,
    p' = Character.set_inventory
           (Character.set_money p (Character.money p'))
           (Character.inventory p ++ news)
    /\ NoDup news
    /\ (forall l, l ∈ news -> h !! l = None /\ brand_new (h' !!! l))
    /\ h ⊆ h'
    /\ 50 * Z.of_nat (length news)
       <= Character.money p - Character.money p'
       <= 500 * Z.of_nat (length news)
    /\ (news <> [] -> 0 <= Character.money p')
    /\ m' = adjust_trusts m (replicate (length news) 5)
    /\ (gear_owned p h -> gear_owned p' h').
Proof.
  cbv zeta. revert p m h.
  induction inputs as [|input inputs IH]; intros p m h.
  - exists []. cbn [Game.shop_menu fst snd].
    split; [destruct p; rewrite app_nil_r; reflexivity|].
    split; [constructor|]. split; [intros l Hl; inversion Hl|].
    split; [reflexivity|]. split; [simpl; lia|].
    split; [intros H; contradiction H; reflexivity|].
    split; [reflexivity|]. intros H; exact H.
  - cbn [Game.shop_menu]. case_bool_decide as Hz.
    { exists []. cbn [fst snd].
      split; [destruct p; rewrite app_nil_r; reflexivity|].
      split; [constructor|]. split; [intros l Hl; inversion Hl|].
      split; [reflexivity|]. split; [simpl; lia|].
      split; [intros H; contradiction H; reflexivity|].
      split; [reflexivity|]. intros H; exact H. }
    destruct (shop_purchase_cases db p m h input)
      as [->|(price & item & Hprice & Hmoney & ->)].
    { apply IH. }
    destruct (new_item_fresh h (shop_copy h item)) as (Hf & Hl & Hsub).
    destruct (new_item h (shop_copy h item)) as [l1 h1].
    cbn [fst snd] in Hf, Hl, Hsub |- *.
    set (p1 := Character.add_item
                 (Character.set_money p (Character.money p - price)) l1).
    set (m1 := NPC.adjust_trust m 5).
    destruct (IH p1 m1 h1) as (news & Hp & Hnd & Hnew & Hsub' & Hcost
                                 & Hpos & Hm & Hg).
    set (r := Game.shop_menu db p1 m1 h1 inputs) in *.
    exists (l1 :: news).
    assert (Hl' : r.2 !! l1 = Some (shop_copy h item))
      by (eapply lookup_weaken; eauto).
    split.
    { rewrite Hp. unfold p1. destruct p.
      cbn. rewrite <- app_assoc. reflexivity. }
    split.
    { constructor; [|exact Hnd]. intros Hin.
      destruct (Hnew _ Hin) as [Hnone _]. rewrite Hnone in Hl.
      discriminate Hl. }
    split.
    { intros x [->|Hin]%elem_of_cons.
      - split; [exact Hf|].
        rewrite (lookup_total_correct _ _ _ Hl'). split; reflexivity.
      - destruct (Hnew _ Hin) as [Hnone Hbn]. split; [|exact Hbn].
        destruct (h !! x) eqn:Hx; [|reflexivity].
        rewrite (lookup_weaken _ _ _ _ Hx Hsub) in Hnone.
        discriminate Hnone. }
    split; [etrans; eauto|].
    assert (Hm1 : Character.money p1 = Character.money p - price)
      by (unfold p1; destruct p; reflexivity).
    split.
    { rewrite Hm1 in Hcost. cbn [length]. lia. }
    split.
    { intros _. destruct news as [|x news'].
      - cbn [length] in Hcost. rewrite Hm1 in Hcost. lia.
      - apply Hpos. discriminate. }
    split; [rewrite Hm; reflexivity|].
    intros G. apply Hg.
    apply (gear_owned_grows p p1 h h1); try exact G; try exact Hsub.
    + unfold p1; destruct p; reflexivity.
    + unfold p1; destruct p; reflexivity.
    + intros x Hx. unfold p1. destruct p. cbn in Hx |- *.
      apply elem_of_app. left. exact Hx.
Qed.

(** ** Instances of the resource and wear lemmas *)

Lemma pools_stay_in_range_witness :
  let c := Character.init "무명" WAR_ORPHAN in
  let ops := [UseStamina 30; UseFocus 200; Heal 500; Rest; UseStamina 100] in
  Forall nonneg_call ops /\ pools_in_range c
  /\ pools_in_range (fold_left run_call ops c).
Proof.
  intros c ops.
  assert (Hops : Forall nonneg_call ops)
    by (repeat constructor; simpl; lia).
  assert (Hc : pools_in_range c)
    by (unfold pools_in_range; simpl; lia).
  split; [exact Hops|]. split; [exact Hc|].
  exact (pools_stay_in_range ops c Hops Hc).
Defined.

Lemma low_focus_rejection_pays_stamina_witness :
  let p := Character.set_focus (Character.init "무명" WAR_ORPHAN) 15 in
  let s := Combat.init p (Enemy.init "포졸" 80 30 5 40 None None) in
  let r := Combat.player_ambush s ∅ 1 in
  fst (fst r) = "기력이나 집중도가 부족합니다!"
  /\ Character.stamina (Combat.player (snd (fst r))) = 80
  /\ Character.focus (Combat.player (snd (fst r))) = 15.
Proof.
  intros p s r.
  assert (Hcost : focus_needed (Ambush 1) = Some 20) by reflexivity.
  assert (Hturn : Character.turn_action_taken (Combat.player s) = false)
    by reflexivity.
  assert (Hs : stamina_needed (Ambush 1) <= Character.stamina (Combat.player s))
    by (vm_compute; discriminate).
  assert (Hf : Character.focus (Combat.player s) < 20)
    by (vm_compute; reflexivity).
  exact (low_focus_rejection_pays_stamina (Ambush 1) s ∅ 20
           Hcost Hturn Hs Hf).
Defined.

Lemma attack_wears_armor_witness :
  let armor := Item.init "가죽 갑옷" ARMOR "" 0 15 "" in
  let h : gmap loc Item.t := {[ 0%nat := armor ]} in
  let p := Character.set_equipped_armor
             (Character.add_item (Character.init "무명" WAR_ORPHAN) 0%nat)
             (Some 0%nat) in
  let s := Combat.init p (Enemy.init "포졸" 80 30 5 40 None None) in
  let h' := snd (Combat.enemy_turn s h 100 0 0) in
  Item.durability (h' !!! 0%nat) = 99.
Proof.
  intros armor h p s.
  assert (Ha : Enemy.is_alive (Combat.enemy s) = true) by reflexivity.
  assert (Hd : Character.get_dodge_chance (Combat.player s) < 100)
    by (vm_compute; reflexivity).
  assert (Hact : Enemy.choose_action (Combat.enemy s)
                   (Combat.player_last_action s) 0 = "attack")
    by reflexivity.
  assert (Harm : Character.equipped_armor (Combat.player s) = Some 0%nat)
    by reflexivity.
  assert (Hit : h !! 0%nat = Some armor) by reflexivity.
  exact (proj1 (attack_wears_armor s h 100 0 0 0%nat armor
                  Ha Hd Hact Harm Hit)).
Defined.
